(** * Subosity installer: the delegation protocol, verified

    A shallow embedding of the Go sources of the installer and the
    theorems that settle what its specification says about them.

    Conventions of the embedding.
    - A Go [string] is a Rocq [string] (a sequence of bytes).
    - Go's [int] and [int64] are [Z]; the embedded functions only compare,
      divide and print them, so no wrap-around arises.
    - Go's [float64] is the kernel's binary64 [float]; a decimal literal
      denotes the nearest binary64 value in both languages.
    - A function returning [error] returns [option error]: [None] is Go's
      [nil].
    - [time.Now()] is an explicit argument [now]; a [time.Time] is the
      instant it denotes.
    - What the code obtains from outside itself (the Go standard library:
      encoding/json, net, net/mail, the Unicode-aware functions of
      strings; the operating system; the container) is a [Variable] of
      the section that embeds the caller, or a field of the record that
      describes the run.
    Each Rocq module is one Go package and keeps the Go names; the
    definitions come first, the theorems after them. *)

From Stdlib Require Import ZArith String Ascii List Bool Floats DecimalString Lia.
Import ListNotations.

Set Warnings "-inexact-float,-register-all".

Open Scope string_scope.
Open Scope Z_scope.

(** ** Strings and formatting (package fmt, package strings) *)

(** [fmt.Sprintf("%d", z)]. *)
Definition itoa (z : Z) : string := NilZero.string_of_int (Z.to_int z).

(** [strings.HasPrefix(s, p)]. *)
Fixpoint HasPrefix (s p : string) : bool :=
  match p, s with
  | EmptyString, _ => true
  | String c p', String d s' => Ascii.eqb c d && HasPrefix s' p'
  | String _ _, EmptyString => false
  end.

(** [strings.Contains(s, sub)]: how a theorem says that a message contains
    a text. *)
Fixpoint Contains (s sub : string) : bool :=
  HasPrefix s sub ||
  match s with
  | EmptyString => false
  | String _ s' => Contains s' sub
  end.

(** The line feed and the double quote, as strings. *)
Definition newline : string := String "010" EmptyString.
Definition dquote : string := String "034" EmptyString.

(** [strings.TrimPrefix(s, prefix)]. *)
Definition TrimPrefix (s prefix : string) : string :=
  if HasPrefix s prefix
  then substring (String.length prefix) (String.length s - String.length prefix) s
  else s.

(** The byte is one of the cutset. *)
Fixpoint inCutset (c : ascii) (cutset : string) : bool :=
  match cutset with
  | EmptyString => false
  | String d cutset' => Ascii.eqb c d || inCutset c cutset'
  end.

(** [strings.TrimLeft], [strings.TrimRight] and [strings.Trim] for a cutset
    of ASCII characters. *)
Fixpoint TrimLeft (s cutset : string) : string :=
  match s with
  | EmptyString => EmptyString
  | String c s' => if inCutset c cutset then TrimLeft s' cutset else s
  end.

Fixpoint TrimRight (s cutset : string) : string :=
  match s with
  | EmptyString => EmptyString
  | String c s' =>
      match TrimRight s' cutset with
      | EmptyString => if inCutset c cutset then EmptyString else String c EmptyString
      | t => String c t
      end
  end.

Definition Trim (s cutset : string) : string :=
  TrimLeft (TrimRight s cutset) cutset.

(** [strings.Join(elems, sep)]. *)
Fixpoint Join (elems : list string) (sep : string) : string :=
  match elems with
  | [] => EmptyString
  | [e] => e
  | e :: rest => e ++ sep ++ Join rest sep
  end.

(** [fmt.Sprintf("%v", elems)] for a slice of strings. *)
Definition formatSlice (elems : list string) : string :=
  "[" ++ Join elems " " ++ "]".

(** A Go [int64] that a product overflowed: the value modulo 2^64, in
    [-2^63, 2^63). *)
Definition wrap64 (z : Z) : Z :=
  (z + 2 ^ 63) mod 2 ^ 64 - 2 ^ 63.

(** A time stamp: the instant, in nanoseconds since the Unix epoch. *)
Definition Time : Type := Z.

(** ** Package types (shared/types) *)
Module types.

(** [type Environment string] and its constants. *)
Definition Environment : Type := string.
Definition EnvironmentDevelopment : Environment := "dev".
Definition EnvironmentStaging : Environment := "staging".
Definition EnvironmentProduction : Environment := "prod".

(** [type SSLProvider string] and its constants. *)
Definition SSLProvider : Type := string.
Definition SSLProviderLetsEncrypt : SSLProvider := "letsencrypt".
Definition SSLProviderSelfSigned : SSLProvider := "self-signed".
Definition SSLProviderCustom : SSLProvider := "custom".

Record SSLConfig : Type := mkSSLConfig {
  Provider : SSLProvider;
  SSLEmail : string;          (* field Email of SSLConfig *)
  CustomCert : string;
  CustomKey : string;
  AutoRenew : bool
}.

Record InstallationConfig : Type := mkInstallationConfig {
  Environment_ : Environment; (* field Environment *)
  Domain : string;
  Email : string;
  SSL : SSLConfig;
  CreatedAt : Time;
  Version : string
}.

(** [type InstallationPhase string]. *)
Definition InstallationPhase : Type := string.

(** [ProgressUpdate]; the optional [Metadata] map is never set by the
    code embedded here and is left out. *)
Record ProgressUpdate : Type := mkProgressUpdate {
  Phase : string;
  Step : string;
  Progress : float;
  PMessage : string;          (* field Message of ProgressUpdate *)
  PTimestamp : Time           (* field Timestamp of ProgressUpdate *)
}.

(** [type ErrorCode string] and the fixed taxonomy. *)
Definition ErrorCode : Type := string.
Definition ErrCodeSystemRequirements : ErrorCode := "SYSTEM_REQUIREMENTS".
Definition ErrCodePortConflict : ErrorCode := "PORT_CONFLICT".
Definition ErrCodeDockerInstall : ErrorCode := "DOCKER_INSTALL_FAILED".
Definition ErrCodeSupabaseSetup : ErrorCode := "SUPABASE_SETUP_FAILED".
Definition ErrCodeNetworkTimeout : ErrorCode := "NETWORK_TIMEOUT".
Definition ErrCodePermissionDenied : ErrorCode := "PERMISSION_DENIED".
Definition ErrCodeConfigInvalid : ErrorCode := "CONFIG_INVALID".
Definition ErrCodeUnsupportedOS : ErrorCode := "UNSUPPORTED_OS".
Definition ErrCodeInvalidFormat : ErrorCode := "INVALID_FORMAT".

(** The members of the taxonomy, in the order of their declaration. *)
Definition taxonomy : list ErrorCode :=
  [ ErrCodeSystemRequirements; ErrCodePortConflict; ErrCodeDockerInstall;
    ErrCodeSupabaseSetup; ErrCodeNetworkTimeout; ErrCodePermissionDenied;
    ErrCodeConfigInvalid; ErrCodeUnsupportedOS; ErrCodeInvalidFormat ].

(** [ErrorContext]; its [Metadata] map is never set and is left out. *)
Record ErrorContext : Type := mkErrorContext {
  Component : string;
  Operation : string;
  CPhase : InstallationPhase;   (* field Phase of ErrorContext *)
  CEnvironment : Environment    (* field Environment of ErrorContext *)
}.

(** [InstallError], over the type [E] of Go's [error] values so that the
    [Cause] can be any error. *)
Record InstallErrorOf (E : Type) : Type := mkInstallError {
  Code : ErrorCode;
  Message : string;
  Details : string;
  Suggestions : list string;
  Cause : option E;
  Context : ErrorContext;
  Timestamp : Time
}.
Arguments mkInstallError {E}.
Arguments Code {E}.
Arguments Message {E}.
Arguments Details {E}.
Arguments Suggestions {E}.
Arguments Cause {E}.
Arguments Context {E}.
Arguments Timestamp {E}.

(** The values of Go's interface [error] that the embedded code builds
    or inspects. *)
Inductive error : Type :=
| errorString (text : string)
    (* errors.New, fmt.Errorf without %w, and errors of the standard library *)
| wrapError (prefix : string) (err : error)
    (* fmt.Errorf(prefix + "%w", err) *)
| ExitError (exitCode : Z) (state : string)
    (* *exec.ExitError: the exit code and ProcessState.String() *)
| installError (e : InstallErrorOf error).
    (* *types.InstallError *)

Definition InstallError : Type := InstallErrorOf error.

(** The method [Error()] of every error value; for an [InstallError] it is
    [func (e *InstallError) Error() string]. *)
Fixpoint Error (err : error) : string :=
  match err with
  | errorString text => text
  | wrapError prefix inner => prefix ++ Error inner
  | ExitError _ state => state
  | installError e =>
      if String.eqb (Details e) "" then Message e
      else Message e ++ ": " ++ Details e
  end.

(** [func (e *InstallError) Unwrap() error]. *)
Definition Unwrap (e : InstallError) : option error := Cause e.

Record HostMetadata : Type := mkHostMetadata {
  OS : string;
  HVersion : string;           (* field Version of HostMetadata *)
  Architecture : string;
  DockerVersion : string;
  AvailableRAM : Z;            (* int64 *)
  AvailableDisk : Z;           (* int64 *)
  HTimestamp : Time            (* field Timestamp of HostMetadata *)
}.

End types.

(** ** Package constants (shared/constants) *)
Module constants.

Definition ContainerImageDev : string := "subosity/installer:dev".
Definition DefaultInstallPath : string := "/opt/subosity".

Definition MinRAMBytes : Z := 2 * 1024 * 1024 * 1024.
Definition MinDiskBytes : Z := 10 * 1024 * 1024 * 1024.

Definition RequiredPorts : list Z := [80; 443; 5432; 8000; 3000].

(** [SupportedOSes]: the map, as its keys with their values. *)
Definition SupportedOSes : list (string * list string) :=
  [ ("ubuntu", ["20.04"; "22.04"; "24.04"]);
    ("debian", ["11"; "12"]) ].

Definition AppVersion : string := "1.0.0-dev".


(** Docker installation constants. *)
Definition DockerGPGKeyURL : string := "https://download.docker.com/linux/ubuntu/gpg".
Definition DockerGPGKeyPath : string := "/etc/apt/keyrings/docker.asc".
Definition DockerListPath : string := "/etc/apt/sources.list.d/docker.list".

End constants.

(** ** Package errors (pkg/errors) *)
Module errors.
Import types.

Definition NewInstallationError (now : Time) (code : ErrorCode)
    (message component operation : string) : InstallError :=
  {| Code := code;
     Message := message;
     Details := "";
     Suggestions := [];
     Cause := None;
     Context := {| Component := component; Operation := operation;
                   CPhase := ""; CEnvironment := "" |};
     Timestamp := now |}.

(** [err] is Go's possibly-nil error. *)
Definition WrapError (now : Time) (err : option error) (code : ErrorCode)
    (message component operation : string) : InstallError :=
  let installErr := NewInstallationError now code message component operation in
  {| Code := Code installErr;
     Message := Message installErr;
     Details := match err with
                | Some e => Error e
                | None => Details installErr
                end;
     Suggestions := Suggestions installErr;
     Cause := err;
     Context := Context installErr;
     Timestamp := Timestamp installErr |}.

Definition NewConfigError (now : Time) (message details : string) : InstallError :=
  {| Code := ErrCodeConfigInvalid;
     Message := message;
     Details := details;
     Suggestions :=
       [ "Check configuration file syntax";
         "Verify all required fields are present";
         "Validate field formats (email, domain, etc.)" ];
     Cause := None;
     Context := {| Component := "config"; Operation := "validation";
                   CPhase := ""; CEnvironment := "" |};
     Timestamp := now |}.

(** [suggestions] is Go's possibly-nil slice: [None] is [nil]. *)
Definition NewSystemError (now : Time) (message details : string)
    (suggestions : option (list string)) : InstallError :=
  let suggestions :=
    match suggestions with
    | None =>
        [ "Check system requirements documentation";
          "Ensure sufficient resources are available";
          "Verify operating system compatibility" ]
    | Some l => l
    end in
  {| Code := ErrCodeSystemRequirements;
     Message := message;
     Details := details;
     Suggestions := suggestions;
     Cause := None;
     Context := {| Component := "system"; Operation := "validation";
                   CPhase := ""; CEnvironment := "" |};
     Timestamp := now |}.

Definition NewDockerError (now : Time) (message details : string) : InstallError :=
  {| Code := ErrCodeDockerInstall;
     Message := message;
     Details := details;
     Suggestions :=
       [ "Verify internet connectivity";
         "Check if running with sufficient privileges (sudo)";
         "Ensure package repositories are accessible";
         "Try manual Docker installation: https://docs.docker.com/install/" ];
     Cause := None;
     Context := {| Component := "docker"; Operation := "installation";
                   CPhase := ""; CEnvironment := "" |};
     Timestamp := now |}.

(** The loop [for _, suggestion := range err.Suggestions] of [FormatError]. *)
Definition formatSuggestions (result : string) (suggestions : list string) : string :=
  fold_left (fun result suggestion => result ++ newline ++ "  • " ++ suggestion)
            suggestions result.

Definition FormatError (err : InstallError) : string :=
  let result := "Error [" ++ Code err ++ "]: " ++ Message err in
  let result :=
    if negb (String.eqb (Details err) "")
    then result ++ newline ++ "Details: " ++ Details err
    else result in
  if (0 <? List.length (Suggestions err))%nat
  then formatSuggestions (result ++ newline ++ newline ++ "Suggestions:") (Suggestions err)
  else result.

End errors.

(** ** Package system (internal/system): the preflight validator *)
Module system.
Import types.

Definition validateRAM (now : Time) (availableRAM : Z) : option InstallError :=
  if (availableRAM >? 0) && (availableRAM <? constants.MinRAMBytes) then
    Some (errors.NewSystemError now
      "insufficient RAM"
      ("Available RAM: " ++ itoa (Z.quot availableRAM (1024 * 1024))
         ++ " MB, Required: "
         ++ itoa (Z.quot constants.MinRAMBytes (1024 * 1024)) ++ " MB")
      (Some [ "Add more RAM to your system";
              "Close other applications to free up memory";
              "Consider using a system with at least 2GB RAM" ]))
  else None.

Definition validateDiskSpace (now : Time) (availableDisk : Z) : option InstallError :=
  if (availableDisk >? 0) && (availableDisk <? constants.MinDiskBytes) then
    Some (errors.NewSystemError now
      "insufficient disk space"
      ("Available disk space: "
         ++ itoa (Z.quot availableDisk (1024 * 1024 * 1024))
         ++ " GB, Required: "
         ++ itoa (Z.quot constants.MinDiskBytes (1024 * 1024 * 1024)) ++ " GB")
      (Some [ "Free up disk space by removing unnecessary files";
              "Consider using a system with at least 10GB free space";
              "Move the installation to a different partition with more space" ]))
  else None.

Section Ports.

(** [net.DialTimeout(network, address, time.Second)]: [true] when the
    connection was established (the returned error is nil). *)
Variable net_DialTimeout : string -> string -> bool.

Definition isPortAvailable (port : Z) : bool :=
  if net_DialTimeout "tcp" ("localhost:" ++ itoa port) then
    false (* Port is in use *)
  else
    true  (* Port is available if we can't connect *).

(** The error that the loop of [validatePortAvailability] returns for
    [port]. *)
Definition portConflictError (now : Time) (port : Z) : InstallError :=
  errors.NewSystemError now
    "port conflict"
    ("Port " ++ itoa port ++ " is already in use")
    (Some [ "Stop the service using port " ++ itoa port;
            "Use 'sudo netstat -tlnp | grep :" ++ itoa port
              ++ "' to identify the process";
            "Consider changing the configuration to use different ports" ]).

(** The loop [for _, port := range ports], with its early return. *)
Fixpoint validatePorts (now : Time) (ports : list Z) : option InstallError :=
  match ports with
  | [] => None
  | port :: rest =>
      if negb (isPortAvailable port) then Some (portConflictError now port)
      else validatePorts now rest
  end.

Definition validatePortAvailability (now : Time) : option InstallError :=
  validatePorts now constants.RequiredPorts.

End Ports.

(** [constants.SupportedOSes[osName]]: [None] when the key is absent. *)
Definition supportedVersionsOf (osName : string) : option (list string) :=
  option_map snd
    (find (fun entry => String.eqb (fst entry) osName) constants.SupportedOSes).

Definition validateOSCompatibility (now : Time) (osName version : string)
    : option InstallError :=
  match supportedVersionsOf osName with
  | None =>
      Some (errors.NewSystemError now
        "unsupported operating system"
        ("OS '" ++ osName ++ "' is not supported")
        (Some [ "Use a supported Linux distribution (Ubuntu 20.04+, Debian 11+)";
                "Check the documentation for the full list of supported systems" ]))
  | Some supportedVersions =>
      (* Check if version is supported *)
      let versionSupported :=
        existsb (fun supportedVersion =>
                   String.eqb version supportedVersion
                   || HasPrefix version (supportedVersion ++ "."))
                supportedVersions in
      if negb versionSupported then
        Some (errors.NewSystemError now
          "unsupported OS version"
          ("OS version '" ++ osName ++ " " ++ version ++ "' is not supported")
          (Some [ "Use a supported version of " ++ osName ++ ": "
                    ++ formatSlice supportedVersions;
                  "Upgrade your operating system to a supported version" ]))
      else None
  end.

Definition validateArchitecture (now : Time) (arch : string) : option InstallError :=
  if negb (String.eqb arch "x86_64") && negb (String.eqb arch "aarch64")
     && negb (String.eqb arch "arm64")
  then
    Some (errors.NewSystemError now
      "unsupported architecture"
      ("Architecture '" ++ arch ++ "' is not supported")
      (Some [ "Use a system with x86_64 (amd64) or ARM64 (aarch64) architecture";
              "Check your system architecture with: uname -m" ]))
  else None.

(** What a [bufio.Scanner] reads from an opened file: its lines, and the
    value of [scanner.Err()] at the end. *)
Record Scanned : Type := mkScanned {
  scannedLines : list string;
  scannedErr : option error
}.

(** [OSInfo]. *)
Record OSInfo : Type := mkOSInfo {
  Name : string;
  Version : string
}.

(** The body of the loop of [detectOS]. *)
Definition osReleaseLine (osInfo : OSInfo) (line : string) : OSInfo :=
  if HasPrefix line "ID=" then
    {| Name := Trim (TrimPrefix line "ID=") dquote; Version := Version osInfo |}
  else if HasPrefix line "VERSION_ID=" then
    {| Name := Name osInfo; Version := Trim (TrimPrefix line "VERSION_ID=") dquote |}
  else osInfo.

(** [detectOS], on what [os.Open("/etc/os-release")] returns. *)
Definition detectOS (osRelease : Scanned + error) : OSInfo + error :=
  match osRelease with
  | inr err => inr (wrapError "could not read /etc/os-release: " err)
  | inl file =>
      let osInfo :=
        fold_left osReleaseLine (scannedLines file) {| Name := ""; Version := "" |} in
      match scannedErr file with
      | Some err => inr (wrapError "error reading /etc/os-release: " err)
      | None =>
          if String.eqb (Name osInfo) "" then
            inr (errorString "could not determine OS name")
          else inl osInfo
      end
  end.

(** [[^,\s]]: the byte is no comma and no white space. *)
Definition versionByte (c : ascii) : bool :=
  negb (inCutset c ("," ++ String "009" (String "010" (String "012" (String "013" " "))))).

(** The longest prefix of [s] made of version bytes. *)
Fixpoint versionRun (s : string) : string :=
  match s with
  | EmptyString => EmptyString
  | String c s' => if versionByte c then String c (versionRun s') else EmptyString
  end.

(** [re.FindStringSubmatch(s)] for [Docker version ([^,\s]+)]: the group of
    the leftmost match, [None] when the expression matches nowhere. *)
Fixpoint findDockerVersion (s : string) : option string :=
  let here :=
    if HasPrefix s "Docker version " then
      versionRun (substring 15 (String.length s - 15) s)
    else EmptyString in
  if negb (String.eqb here "") then Some here
  else
    match s with
    | EmptyString => None
    | String _ s' => findDockerVersion s'
    end.

Section Detection.

(** [strings.Fields] and [strconv.ParseInt(s, 10, 64)]. *)
Variable strings_Fields : string -> list string.
Variable strconv_ParseInt : string -> Z + error.

(** The loop of [getAvailableRAM], with its returns. *)
Fixpoint scanMemAvailable (lines : list string) : Z * option error :=
  match lines with
  | [] => (0, Some (errorString "could not find MemAvailable in /proc/meminfo"))
  | line :: rest =>
      if HasPrefix line "MemAvailable:" then
        match strings_Fields line with
        | _ :: field :: _ =>
            match strconv_ParseInt field with
            | inr err => (0, Some err)
            | inl kb => (wrap64 (kb * 1024), None) (* Convert KB to bytes *)
            end
        | _ => scanMemAvailable rest
        end
      else scanMemAvailable rest
  end.

(** [getAvailableRAM], on what [os.Open("/proc/meminfo")] returns. *)
Definition getAvailableRAM (meminfo : Scanned + error) : Z * option error :=
  match meminfo with
  | inr err => (0, Some err)
  | inl file => scanMemAvailable (scannedLines file)
  end.

(** [getAvailableDisk], on what [syscall.Statfs("/", &stat)] returns: the
    error, or [stat.Bavail] (a [uint64]) and [stat.Bsize] (an [int64]). *)
Definition getAvailableDisk (statfs : Z * Z + error) : Z * option error :=
  match statfs with
  | inr err => (0, Some err)
  | inl (bavail, bsize) =>
      (* Available space = block size * available blocks *)
      (wrap64 (wrap64 bavail * bsize), None)
  end.

(** [getDockerVersion], on what [cmd.Output()] of [docker --version]
    returns. *)
Definition getDockerVersion (output : string + error) : string * option error :=
  match output with
  | inr err => ("", Some err)
  | inl output =>
      match findDockerVersion output with
      | Some version => (version, None)
      | None => ("", Some (errorString "could not parse Docker version"))
      end
  end.

(** What the detector reads from the host. *)
Record Probe : Type := mkProbe {
  osRelease : Scanned + error;       (* os.Open("/etc/os-release") *)
  GOARCH : string;                   (* runtime.GOARCH *)
  meminfo : Scanned + error;         (* os.Open("/proc/meminfo") *)
  statfs : Z * Z + error;            (* syscall.Statfs("/", &stat) *)
  dockerVersionOutput : string + error (* docker --version *)
}.

(** [DetectSystem]: the warnings it logs, and the metadata or the error. *)
Definition DetectSystem (now : Time) (probe : Probe)
    : list string * (HostMetadata + InstallError) :=
  match detectOS (osRelease probe) with
  | inr err =>
      ([], inr (errors.WrapError now (Some err) ErrCodeSystemRequirements
                  "failed to detect operating system" "system" "detection"))
  | inl osInfo =>
      let arch := if String.eqb (GOARCH probe) "amd64" then "x86_64" else GOARCH probe in
      let '(ram, ramWarning) :=
        match getAvailableRAM (meminfo probe) with
        | (_, Some err) => (0, ["Could not detect RAM: " ++ Error err])
        | (ram, None) => (ram, [])
        end in
      let '(disk, diskWarning) :=
        match getAvailableDisk (statfs probe) with
        | (_, Some err) => (0, ["Could not detect disk space: " ++ Error err])
        | (disk, None) => (disk, [])
        end in
      let dockerVersion :=
        match getDockerVersion (dockerVersionOutput probe) with
        | (version, None) => version
        | (_, Some _) => ""
        end in
      ((ramWarning ++ diskWarning)%list,
       inl {| OS := Name osInfo;
              HVersion := Version osInfo;
              Architecture := arch;
              DockerVersion := dockerVersion;
              AvailableRAM := ram;
              AvailableDisk := disk;
              HTimestamp := now |})
  end.

End Detection.

Section Requirements.

Variable net_DialTimeout : string -> string -> bool.
(** [exec.Command("sudo", "-n", "true").Run()]. *)
Variable sudo_n_true : option error.

Definition validatePermissions (now : Time) : option InstallError :=
  (* Check if we can run sudo *)
  match sudo_n_true with
  | Some _ =>
      Some (errors.NewSystemError now
        "insufficient privileges"
        "sudo access is required for system modifications"
        (Some [ "Run the installer with sudo privileges";
                "Ensure your user is in the sudo group";
                "Configure passwordless sudo for your user" ]))
  | None => None
  end.

Definition ValidateSystemRequirements (now : Time) (metadata : HostMetadata)
    : option InstallError :=
  (* Check OS compatibility *)
  match validateOSCompatibility now (OS metadata) (HVersion metadata) with
  | Some err => Some err
  | None =>
  (* Check architecture *)
  match validateArchitecture now (Architecture metadata) with
  | Some err => Some err
  | None =>
  (* Check RAM *)
  match validateRAM now (AvailableRAM metadata) with
  | Some err => Some err
  | None =>
  (* Check disk space *)
  match validateDiskSpace now (AvailableDisk metadata) with
  | Some err => Some err
  | None =>
  (* Check port availability *)
  match validatePortAvailability net_DialTimeout now with
  | Some err => Some err
  | None =>
  (* Check permissions *)
  match validatePermissions now with
  | Some err => Some err
  | None => None
  end end end end end end.

End Requirements.

End system.

(** ** Package regexp: the fragment that [domainRegex] uses

    Regular expressions over bytes, matched by derivatives.  The classes of
    [domainRegex] are sets of ASCII characters, so matching bytes and
    matching UTF-8 runes accept the same strings. *)
Module regexp.

Inductive Regexp : Type :=
| NoMatch                               (* matches nothing *)
| EmptyMatch                            (* matches the empty string *)
| CharClass (class : ascii -> bool)     (* [...] *)
| Concat (r1 r2 : Regexp)               (* r1r2 *)
| Alternate (r1 r2 : Regexp)            (* r1|r2 *)
| Star (r : Regexp).                    (* r* *)

(** [r?] *)
Definition Quest (r : Regexp) : Regexp := Alternate EmptyMatch r.

(** [r{0,max}] *)
Fixpoint Repeat0 (r : Regexp) (max : nat) : Regexp :=
  match max with
  | O => EmptyMatch
  | S n => Quest (Concat r (Repeat0 r n))
  end.

Fixpoint nullable (r : Regexp) : bool :=
  match r with
  | NoMatch => false
  | EmptyMatch => true
  | CharClass _ => false
  | Concat r1 r2 => nullable r1 && nullable r2
  | Alternate r1 r2 => nullable r1 || nullable r2
  | Star _ => true
  end.

Definition mkConcat (r1 r2 : Regexp) : Regexp :=
  match r1, r2 with
  | NoMatch, _ => NoMatch
  | _, NoMatch => NoMatch
  | EmptyMatch, _ => r2
  | _, _ => Concat r1 r2
  end.

Definition mkAlternate (r1 r2 : Regexp) : Regexp :=
  match r1, r2 with
  | NoMatch, _ => r2
  | _, NoMatch => r1
  | _, _ => Alternate r1 r2
  end.

(** The derivative of [r] by the byte [c]. *)
Fixpoint deriv (c : ascii) (r : Regexp) : Regexp :=
  match r with
  | NoMatch => NoMatch
  | EmptyMatch => NoMatch
  | CharClass class => if class c then EmptyMatch else NoMatch
  | Concat r1 r2 =>
      mkAlternate (mkConcat (deriv c r1) r2)
                  (if nullable r1 then deriv c r2 else NoMatch)
  | Alternate r1 r2 => mkAlternate (deriv c r1) (deriv c r2)
  | Star r1 => mkConcat (deriv c r1) (Star r1)
  end.

(** [regexp.MatchString] for an expression anchored as [^r$]. *)
Fixpoint MatchString (r : Regexp) (s : string) : bool :=
  match s with
  | EmptyString => nullable r
  | String c s' => MatchString (deriv c r) s'
  end.

(** The byte is within [lo-hi]. *)
Definition inRange (lo hi c : ascii) : bool :=
  (nat_of_ascii lo <=? nat_of_ascii c)%nat && (nat_of_ascii c <=? nat_of_ascii hi)%nat.

(** Some character class of the expression holds the byte. *)
Fixpoint mentions (c : ascii) (r : Regexp) : bool :=
  match r with
  | NoMatch => false
  | EmptyMatch => false
  | CharClass class => class c
  | Concat r1 r2 => mentions c r1 || mentions c r2
  | Alternate r1 r2 => mentions c r1 || mentions c r2
  | Star r1 => mentions c r1
  end.

End regexp.

(** ** Package config (pkg/config): validation of the configuration *)
Module config.
Import types.

(** [strings.HasSuffix(s, suffix)]. *)
Definition HasSuffix (s suffix : string) : bool :=
  (String.length suffix <=? String.length s)%nat &&
  String.eqb (substring (String.length s - String.length suffix)
                        (String.length suffix) s) suffix.

(** [[a-zA-Z0-9]] *)
Definition alnum (c : ascii) : bool :=
  regexp.inRange "a" "z" c || regexp.inRange "A" "Z" c || regexp.inRange "0" "9" c.

(** [[a-zA-Z0-9-]] *)
Definition alnumHyphen (c : ascii) : bool :=
  alnum c || Ascii.eqb c "-".

(** [[a-zA-Z0-9]([a-zA-Z0-9-]{0,61}[a-zA-Z0-9])?] *)
Definition label : regexp.Regexp :=
  regexp.Concat (regexp.CharClass alnum)
    (regexp.Quest
       (regexp.Concat (regexp.Repeat0 (regexp.CharClass alnumHyphen) 61)
                      (regexp.CharClass alnum))).

(** [^[a-zA-Z0-9]([a-zA-Z0-9-]{0,61}[a-zA-Z0-9])?(\.[a-zA-Z0-9]([a-zA-Z0-9-]{0,61}[a-zA-Z0-9])?)*$] *)
Definition domainRegex : regexp.Regexp :=
  regexp.Concat label
    (regexp.Star
       (regexp.Concat (regexp.CharClass (fun c => Ascii.eqb c ".")) label)).

Section Validation.

(** [strings.ToLower] and [strings.TrimSpace]. *)
Variable strings_ToLower : string -> string.
Variable strings_TrimSpace : string -> string.
(** [mail.ParseAddress(email)]: [true] when the returned error is nil. *)
Variable mail_ParseAddress : string -> bool.

Definition validateEnvironment (now : Time) (env : Environment) : option InstallError :=
  if String.eqb env EnvironmentDevelopment
     || String.eqb env EnvironmentStaging
     || String.eqb env EnvironmentProduction
  then None
  else Some (errors.NewConfigError now
               "invalid environment"
               ("must be one of: " ++ EnvironmentDevelopment ++ ", "
                  ++ EnvironmentStaging ++ ", " ++ EnvironmentProduction)).

Definition validateDomain (now : Time) (domain : string) : option InstallError :=
  if String.eqb domain "" then
    Some (errors.NewConfigError now "domain is required" "")
  else
    (* Trim whitespace and convert to lowercase *)
    let domain := strings_TrimSpace (strings_ToLower domain) in
    (* Allow localhost and .local domains for development *)
    if String.eqb domain "localhost" || HasSuffix domain ".local" then None
    else if negb (regexp.MatchString domainRegex domain) then
      Some (errors.NewConfigError now
              "invalid domain format"
              ("domain '" ++ domain ++ "' is not a valid FQDN"))
    else if (253 <? String.length domain)%nat then
      Some (errors.NewConfigError now
              "domain too long"
              "domain name must not exceed 253 characters")
    else None.

Definition validateEmail (now : Time) (email : string) : option InstallError :=
  if String.eqb email "" then None (* Email is optional in some cases *)
  else if negb (mail_ParseAddress email) then
    Some (errors.NewConfigError now
            "invalid email format"
            ("email '" ++ email ++ "' is not valid"))
  else None.

(** [ssl] is Go's possibly-nil pointer. *)
Definition validateSSLConfig (now : Time) (ssl : option SSLConfig) : option InstallError :=
  match ssl with
  | None => None (* SSL config is optional, defaults will be applied *)
  | Some ssl =>
      if String.eqb (Provider ssl) SSLProviderLetsEncrypt then
        if String.eqb (SSLEmail ssl) "" then
          Some (errors.NewConfigError now
                  "email required for Let's Encrypt"
                  "Let's Encrypt requires a valid email address for certificate registration")
        else validateEmail now (SSLEmail ssl)
      else if String.eqb (Provider ssl) SSLProviderCustom then
        if String.eqb (CustomCert ssl) "" || String.eqb (CustomKey ssl) "" then
          Some (errors.NewConfigError now
                  "custom SSL requires both certificate and key"
                  "both custom_cert and custom_key must be provided for custom SSL")
        else None
      else if String.eqb (Provider ssl) SSLProviderSelfSigned then None
      else if String.eqb (Provider ssl) "" then None
      else
        Some (errors.NewConfigError now
                "invalid SSL provider"
                ("SSL provider must be one of: " ++ SSLProviderLetsEncrypt ++ ", "
                   ++ SSLProviderSelfSigned ++ ", " ++ SSLProviderCustom))
  end.

(** [config] is Go's possibly-nil pointer. *)
Definition ValidateConfig (now : Time) (config : option InstallationConfig)
    : option InstallError :=
  match config with
  | None => Some (errors.NewConfigError now "configuration cannot be nil" "")
  | Some config =>
      match validateEnvironment now (Environment_ config) with
      | Some err => Some err
      | None =>
      match validateDomain now (Domain config) with
      | Some err => Some err
      | None =>
      (* Validate email (optional for dev environment) *)
      match
        (if negb (String.eqb (Email config) "") then
           validateEmail now (Email config)
         else if String.eqb (Environment_ config) EnvironmentProduction then
           Some (errors.NewConfigError now
                   "email is required for production environment"
                   "email is needed for SSL certificate generation")
         else None)
      with
      | Some err => Some err
      | None => validateSSLConfig now (Some (SSL config))
      end end end
  end.

(** [url.Parse(domain)]: the [Host] of the parsed URL, or the error. *)
Variable url_Parse : string -> string + error.

(** [SanitizeAndValidateDomain]: the cleaned domain, and the error. *)
Definition SanitizeAndValidateDomain (now : Time) (domain : string)
    : string * option InstallError :=
  (* Trim whitespace and convert to lowercase *)
  let domain := strings_TrimSpace (strings_ToLower domain) in
  (* Remove protocol if present *)
  let parsed :=
    if HasPrefix domain "http://" || HasPrefix domain "https://"
    then url_Parse domain
    else inl domain in
  match parsed with
  | inr err =>
      ("", Some (errors.NewConfigError now "invalid domain URL" (Error err)))
  | inl domain =>
      (* Validate the cleaned domain *)
      match validateDomain now domain with
      | Some err => ("", Some err)
      | None => (domain, None)
      end
  end.

End Validation.

(** [ApplyDefaults]: the configuration that the call leaves in [*config]. *)
Definition ApplyDefaults (config : InstallationConfig) : InstallationConfig :=
  let ssl := SSL config in
  let withProvider (provider : SSLProvider) (autoRenew : bool) : SSLConfig :=
    {| Provider := if String.eqb (Provider ssl) "" then provider else Provider ssl;
       SSLEmail := SSLEmail ssl;
       CustomCert := CustomCert ssl;
       CustomKey := CustomKey ssl;
       AutoRenew := autoRenew |} in
  if String.eqb (Environment_ config) EnvironmentProduction then
    {| Environment_ := Environment_ config; Domain := Domain config;
       Email := Email config; SSL := withProvider SSLProviderLetsEncrypt true;
       CreatedAt := CreatedAt config; Version := Version config |}
  else if String.eqb (Environment_ config) EnvironmentStaging then
    {| Environment_ := Environment_ config; Domain := Domain config;
       Email := Email config; SSL := withProvider SSLProviderLetsEncrypt true;
       CreatedAt := CreatedAt config; Version := Version config |}
  else if String.eqb (Environment_ config) EnvironmentDevelopment then
    {| Environment_ := Environment_ config;
       (* Allow localhost and .local domains for development *)
       Domain := if String.eqb (Domain config) "" then "subosity.local"
                 else Domain config;
       Email := Email config; SSL := withProvider SSLProviderSelfSigned false;
       CreatedAt := CreatedAt config; Version := Version config |}
  else config.

End config.

(** ** Package container (internal/container): the delegation runner *)
Module container.
Import types.

(** A line that the runner's logger wrote, with its level. *)
Inductive Level : Type := DebugLevel | InfoLevel | WarnLevel | ErrorLevel.

(** What a [bufio.Scanner] reads from a pipe: the lines it scans, in
    order, and the value of [scanner.Err()] once [Scan] has returned
    false (a read error, or a line beyond the scanner's buffer). *)
Record Reader : Type := mkReader {
  lines : list string;
  scanErr : option error
}.

Definition processContainerError (now : Time) (err : error) : InstallError :=
  match err with
  | ExitError exitCode _ =>
      match exitCode with
      | 1 => errors.NewInstallationError now ErrCodeConfigInvalid
               "container installation failed with configuration error"
               "container" "execution"
      | 2 => errors.NewInstallationError now ErrCodeSystemRequirements
               "container installation failed with system requirements error"
               "container" "execution"
      | 3 => errors.NewInstallationError now ErrCodeDockerInstall
               "container installation failed with Docker setup error"
               "container" "execution"
      | 4 => errors.NewInstallationError now ErrCodeSupabaseSetup
               "container installation failed with Supabase setup error"
               "container" "execution"
      | _ => errors.NewInstallationError now ErrCodeSystemRequirements
               ("container installation failed with exit code " ++ itoa exitCode)
               "container" "execution"
      end
  | _ =>
      errors.WrapError now (Some err) ErrCodeSystemRequirements
        "container installation failed" "container" "execution"
  end.

(** What the calls on one [exec.Cmd] return in a run: the errors of
    [StdoutPipe], [StderrPipe], [Start] and [Wait]. *)
Record Cmd : Type := mkCmd {
  StdoutPipe_err : option error;
  StderrPipe_err : option error;
  Start_err : option error;
  Wait_err : option error
}.

(** The case of the [select] statement of [runContainer] that fires
    first: a value on [waitChan], a value [err] on [errorChan], or
    [ctx.Done()]. *)
Inductive SelectCase : Type :=
| RecvWait
| RecvError (err : option error)
| CtxDone.

(** The host as one run of the installer meets it. *)
Record Host : Type := mkHost {
  time_Now : Time;
  os_MkdirAll : string -> option error;       (* os.MkdirAll(path, 0755) *)
  json_Marshal : InstallationConfig -> string + error;
  dockerPull : Cmd;                           (* docker pull <image> *)
  dockerRun : Cmd;                            (* docker run ... install *)
  selected : SelectCase;
  ctx_Err : error                             (* ctx.Err() once ctx is done *)
}.

(** The loop over [subdirs] of [ensureDataDirectory]. *)
Fixpoint mkSubdirs (h : Host) (dataDir : string) (subdirs : list string) : option error :=
  match subdirs with
  | [] => None
  | subdir :: rest =>
      let path := dataDir ++ "/" ++ subdir in
      match os_MkdirAll h path with
      | Some err =>
          Some (wrapError ("failed to create directory " ++ path ++ ": ") err)
      | None => mkSubdirs h dataDir rest
      end
  end.

Definition ensureDataDirectory (h : Host) : option error :=
  let dataDir := constants.DefaultInstallPath in
  (* Create the directory with proper permissions *)
  match os_MkdirAll h dataDir with
  | Some err =>
      Some (wrapError ("failed to create directory " ++ dataDir ++ ": ") err)
  | None =>
      (* Create subdirectories *)
      mkSubdirs h dataDir ["data"; "logs"; "configs"; "backups"; "docker"]
  end.

Definition pullImage (h : Host) : option error :=
  let cmd := dockerPull h in
  match StdoutPipe_err cmd with
  | Some err => Some (wrapError "failed to create stdout pipe: " err)
  | None =>
  match StderrPipe_err cmd with
  | Some err => Some (wrapError "failed to create stderr pipe: " err)
  | None =>
  match Start_err cmd with
  | Some err => Some (wrapError "failed to start docker pull: " err)
  | None =>
  match Wait_err cmd with
  | Some err => Some (wrapError "docker pull failed: " err)
  | None => None
  end end end end.

Definition runContainer (h : Host) (config : InstallationConfig) : option error :=
  (* Serialize configuration to JSON *)
  match json_Marshal h config with
  | inr err => Some (wrapError "failed to serialize configuration: " err)
  | inl configJSON =>
  let cmd := dockerRun h in
  (* Create pipes for streaming output *)
  match StdoutPipe_err cmd with
  | Some err => Some (wrapError "failed to create stdout pipe: " err)
  | None =>
  match StderrPipe_err cmd with
  | Some err => Some (wrapError "failed to create stderr pipe: " err)
  | None =>
  (* Start the container *)
  match Start_err cmd with
  | Some err => Some (wrapError "failed to start installer container: " err)
  | None =>
  match selected h with
  | RecvWait =>
      match Wait_err cmd with
      | Some err => Some (installError (processContainerError (time_Now h) err))
      | None => None
      end
  | RecvError err =>
      match err with
      | Some err => Some (wrapError "container stream error: " err)
      | None => None
      end
  | CtxDone => Some (ctx_Err h)
  end end end end end.

Definition RunInstaller (h : Host) (config : InstallationConfig) : option error :=
  (* Ensure the data directory exists *)
  match ensureDataDirectory h with
  | Some err =>
      Some (installError
              (errors.WrapError (time_Now h) (Some err) ErrCodePermissionDenied
                 "failed to create data directory" "container" "preparation"))
  | None =>
  (* Pull the installer image *)
  match pullImage h with
  | Some err =>
      Some (installError
              (errors.WrapError (time_Now h) (Some err) ErrCodeNetworkTimeout
                 "failed to pull installer image" "container" "pull"))
  | None =>
  (* Run the container *)
  match runContainer h config with
  | Some err => Some err
  | None => None
  end end end.

(** Every call on the command returned nil up to [Start], and up to
    [Wait]. *)
Definition started (cmd : Cmd) : Prop :=
  StdoutPipe_err cmd = None /\ StderrPipe_err cmd = None /\ Start_err cmd = None.

Definition completed (cmd : Cmd) : Prop :=
  started cmd /\ Wait_err cmd = None.

(** The directories of the workspace. *)
Definition workspace : list string :=
  [ "/opt/subosity"; "/opt/subosity/data"; "/opt/subosity/logs";
    "/opt/subosity/configs"; "/opt/subosity/backups"; "/opt/subosity/docker" ].


(** *** The goroutines of [runContainer] and their channels

    [runContainer] starts [streamProgressOutput], [streamErrorOutput] and
    [handleProgressUpdates] as goroutines and goes on to its [select];
    they meet on [progressChan] and [errorChan].  A run is one of their
    interleavings: a schedule names the goroutine that takes the next
    step. *)

(** A Go channel: its capacity, the values in its buffer, oldest first,
    and whether it has been closed. *)
Record Chan (A : Type) : Type := mkChan {
  capacity : nat;
  buffer : list A;
  closed : bool
}.

Arguments mkChan {A}.
Arguments capacity {A}.
Arguments buffer {A}.
Arguments closed {A}.

(** [make(chan A, capacity)]. *)
Definition make {A : Type} (capacity : nat) : Chan A :=
  {| capacity := capacity; buffer := []; closed := false |}.

(** What becomes of [ch <- v] when the goroutine is at it: the value goes
    into the buffer; the goroutine cannot go on, the buffer being full; or
    the runtime panics, the channel being closed. *)
Inductive Send (A : Type) : Type :=
| Sent (ch : Chan A)
| Blocked
| Panic.

Arguments Sent {A}.
Arguments Blocked {A}.
Arguments Panic {A}.

Definition send {A : Type} (ch : Chan A) (v : A) : Send A :=
  if closed ch then Panic
  else if (List.length (buffer ch) <? capacity ch)%nat then
    Sent {| capacity := capacity ch; buffer := buffer ch ++ [v]; closed := closed ch |}
  else Blocked.

(** [<-ch], when the buffer holds a value. *)
Definition receive {A : Type} (ch : Chan A) : option (A * Chan A) :=
  match buffer ch with
  | v :: rest => Some (v, {| capacity := capacity ch; buffer := rest; closed := closed ch |})
  | [] => None
  end.

(** [close(ch)]. *)
Definition close {A : Type} (ch : Chan A) : Chan A :=
  {| capacity := capacity ch; buffer := buffer ch; closed := true |}.

(** Where a stream goroutine stands: at [scanner.Scan()] with these lines
    still to come; at the send of the value it decoded from the line it
    read last; at the send of [scanner.Err()]; or returned. *)
Inductive Loop (A : Type) : Type :=
| Scanning (ahead : list string)
| Sending (value : A) (ahead : list string)
| Reporting (err : error)
| Done.

Arguments Scanning {A}.
Arguments Sending {A}.
Arguments Reporting {A}.
Arguments Done {A}.

(** The goroutines and what they share: the two stream loops, each with
    the error that its scanner will report, the two channels, the updates
    that [handleProgressUpdates] has received, the log, and what the
    [select] received, once it has. *)
Record Streams : Type := mkStreams {
  stdoutLoop : Loop ProgressUpdate;
  stdoutErr : option error;
  stderrLoop : Loop error;
  stderrErr : option error;
  progressChan : Chan ProgressUpdate;
  errorChan : Chan error;
  handled : list ProgressUpdate;
  log : list (Level * string);
  received : option SelectCase
}.

(** The state in which [runContainer] reaches its [select]:
    [progressChan := make(chan types.ProgressUpdate, 10)] and
    [errorChan := make(chan error, 2)]. *)
Definition start (stdout stderr : Reader) : Streams :=
  {| stdoutLoop := Scanning (lines stdout);
     stdoutErr := scanErr stdout;
     stderrLoop := Scanning (lines stderr);
     stderrErr := scanErr stderr;
     progressChan := make 10;
     errorChan := make 2;
     handled := [];
     log := [];
     received := None |}.

(** A step of a goroutine: the run goes on, or the program has panicked. *)
Inductive Outcome : Type :=
| Running (st : Streams)
| Crashed (st : Streams).

Definition withStdout (st : Streams) (loop : Loop ProgressUpdate)
    (ch : Chan ProgressUpdate) : Streams :=
  {| stdoutLoop := loop; stdoutErr := stdoutErr st;
     stderrLoop := stderrLoop st; stderrErr := stderrErr st;
     progressChan := ch; errorChan := errorChan st;
     handled := handled st; log := log st; received := received st |}.

Definition withStderr (st : Streams) (loop : Loop error) : Streams :=
  {| stdoutLoop := stdoutLoop st; stdoutErr := stdoutErr st;
     stderrLoop := loop; stderrErr := stderrErr st;
     progressChan := progressChan st; errorChan := errorChan st;
     handled := handled st; log := log st; received := received st |}.

Definition withErrorChan (st : Streams) (ch : Chan error) : Streams :=
  {| stdoutLoop := stdoutLoop st; stdoutErr := stdoutErr st;
     stderrLoop := stderrLoop st; stderrErr := stderrErr st;
     progressChan := progressChan st; errorChan := ch;
     handled := handled st; log := log st; received := received st |}.

Definition logLine (level : Level) (line : string) (st : Streams) : Streams :=
  {| stdoutLoop := stdoutLoop st; stdoutErr := stdoutErr st;
     stderrLoop := stderrLoop st; stderrErr := stderrErr st;
     progressChan := progressChan st; errorChan := errorChan st;
     handled := handled st; log := log st ++ [(level, line)];
     received := received st |}.

Section Streaming.

(** [json.Unmarshal([]byte(line), &update)] into a fresh
    [types.ProgressUpdate], and into a fresh [types.InstallError]:
    [Some] the decoded value when the returned error is nil. *)
Variable json_Unmarshal_ProgressUpdate : string -> option ProgressUpdate.
Variable json_Unmarshal_InstallError : string -> option InstallError.

(** [progressChan <- update], then back to [scanner.Scan()].  A goroutine
    takes its steps one at a time: reading and decoding a line is one
    step and the send of what was decoded is the next, so that another
    goroutine can run between the two. *)
Definition sendProgress (update : ProgressUpdate) (ahead : list string) (st : Streams)
    : Outcome :=
  match send (progressChan st) update with
  | Sent ch => Running (withStdout st (Scanning ahead) ch)
  | Blocked => Running (withStdout st (Sending update ahead) (progressChan st))
  | Panic => Crashed st
  end.

(** [errorChan <- err] of the goroutine of standard output, after its
    loop. *)
Definition reportStdout (err : error) (st : Streams) : Outcome :=
  match send (errorChan st) err with
  | Sent ch => Running (withErrorChan (withStdout st Done (progressChan st)) ch)
  | Blocked => Running (withStdout st (Reporting err) (progressChan st))
  | Panic => Crashed st
  end.

(** A step of the goroutine [streamProgressOutput]. *)
Definition streamProgressOutput (st : Streams) : Outcome :=
  match stdoutLoop st with
  | Scanning (line :: ahead) =>
      (* Try to parse as JSON progress update *)
      match json_Unmarshal_ProgressUpdate line with
      | Some update => Running (withStdout st (Sending update ahead) (progressChan st))
      | None =>
          (* Regular log line *)
          Running (logLine InfoLevel line (withStdout st (Scanning ahead) (progressChan st)))
      end
  | Scanning [] =>
      match stdoutErr st with
      | Some err => Running (withStdout st (Reporting err) (progressChan st))
      | None => Running (withStdout st Done (progressChan st))
      end
  | Sending update ahead => sendProgress update ahead st
  | Reporting err => reportStdout err st
  | Done => Running st
  end.

(** [errorChan <- err] of the goroutine of standard error: of a decoded
    error, then back to [scanner.Scan()], and of [scanner.Err()]. *)
Definition sendError (err : error) (ahead : list string) (st : Streams) : Outcome :=
  match send (errorChan st) err with
  | Sent ch => Running (withErrorChan (withStderr st (Scanning ahead)) ch)
  | Blocked => Running (withStderr st (Sending err ahead))
  | Panic => Crashed st
  end.

Definition reportStderr (err : error) (st : Streams) : Outcome :=
  match send (errorChan st) err with
  | Sent ch => Running (withErrorChan (withStderr st Done) ch)
  | Blocked => Running (withStderr st (Reporting err))
  | Panic => Crashed st
  end.

(** A step of the goroutine [streamErrorOutput]. *)
Definition streamErrorOutput (st : Streams) : Outcome :=
  match stderrLoop st with
  | Scanning (line :: ahead) =>
      (* Try to parse as JSON error *)
      match json_Unmarshal_InstallError line with
      | Some installErr => Running (withStderr st (Sending (installError installErr) ahead))
      | None =>
          (* Regular error line *)
          Running (logLine ErrorLevel line (withStderr st (Scanning ahead)))
      end
  | Scanning [] =>
      match stderrErr st with
      | Some err => Running (withStderr st (Reporting err))
      | None => Running (withStderr st Done)
      end
  | Sending err ahead => sendError err ahead st
  | Reporting err => reportStderr err st
  | Done => Running st
  end.

(** A step of the goroutine [handleProgressUpdates]: it receives the next
    update, when there is one.  The line that it logs for the update is
    not modelled. *)
Definition handleProgressUpdates (st : Streams) : Outcome :=
  match receive (progressChan st) with
  | Some (update, ch) =>
      Running {| stdoutLoop := stdoutLoop st; stdoutErr := stdoutErr st;
                 stderrLoop := stderrLoop st; stderrErr := stderrErr st;
                 progressChan := ch; errorChan := errorChan st;
                 handled := handled st ++ [update]; log := log st;
                 received := received st |}
  | None => Running st
  end.

(** The case of the [select] that the scheduler takes: [waitChan] has the
    value of [cmd.Wait()], [errorChan] has a value, or [ctx] is done. *)
Inductive Case : Type := WaitCase | ErrorCase | DoneCase.

Definition receives (st : Streams) (case : SelectCase) (progress : Chan ProgressUpdate)
    (errors : Chan error) : Streams :=
  {| stdoutLoop := stdoutLoop st; stdoutErr := stdoutErr st;
     stderrLoop := stderrLoop st; stderrErr := stderrErr st;
     progressChan := progress; errorChan := errors;
     handled := handled st; log := log st; received := Some case |}.

(** The [select] of [runContainer], which is passed once: the case of
    [waitChan] closes [progressChan], the case of [errorChan] takes the
    oldest value of its buffer and is not ready without one. *)
Definition selectCase (case : Case) (st : Streams) : Outcome :=
  match received st with
  | Some _ => Running st
  | None =>
      match case with
      | WaitCase => Running (receives st RecvWait (close (progressChan st)) (errorChan st))
      | ErrorCase =>
          match receive (errorChan st) with
          | Some (err, ch) => Running (receives st (RecvError (Some err)) (progressChan st) ch)
          | None => Running st
          end
      | DoneCase => Running (receives st CtxDone (progressChan st) (errorChan st))
      end
  end.

(** The goroutine that takes the next step. *)
Inductive Goroutine : Type :=
| StreamProgressOutput
| StreamErrorOutput
| HandleProgressUpdates
| Select (case : Case).

Definition step (g : Goroutine) (st : Streams) : Outcome :=
  match g with
  | StreamProgressOutput => streamProgressOutput st
  | StreamErrorOutput => streamErrorOutput st
  | HandleProgressUpdates => handleProgressUpdates st
  | Select case => selectCase case st
  end.

(** The run of a schedule; a panic ends it. *)
Fixpoint run (schedule : list Goroutine) (st : Streams) : Outcome :=
  match schedule with
  | [] => Running st
  | g :: rest =>
      match step g st with
      | Running st' => run rest st'
      | Crashed st' => Crashed st'
      end
  end.

End Streaming.

End container.

(** ** Package main (the installer inside the container): the phase pipeline *)
Module main.
Import types.

(** What the installer does that the outside observes, in order: a line
    holding the JSON encoding of a progress update
    ([fmt.Println(string(updateJSON))]), the call of a phase's action,
    and a line that an action printed. *)
Inductive Event : Type :=
| Emit (update : ProgressUpdate)
| Invoke (phase : string)
| Output (line : string).

Section Pipeline.

(** The state of everything outside the installer: the file system,
    the processes it starts, the clock. *)
Variable World : Type.

(** [time.Now()] and [os.Getenv(key)] in a state of the world. *)
Variable time_Now : World -> Time.
Variable os_Getenv : World -> string -> string.

(** [json.Unmarshal([]byte(configJSON), &config)] into a fresh
    [types.InstallationConfig]. *)
Variable json_Unmarshal : string -> InstallationConfig + error.

(** What the call of a phase's action does: the lines it prints, the
    world it leaves and the error it returns. *)
Record Outcome : Type := mkOutcome {
  printed : list string;
  world : World;
  err : option error
}.

Definition Action : Type := InstallationConfig -> World -> Outcome.

(** The anonymous struct of the [phases] slice. *)
Record phase : Type := mkPhase {
  name : string;
  progress : float;
  action : Action
}.

(** The update that the loop builds before it runs the phase. *)
Definition startUpdate (p : phase) (w : World) : ProgressUpdate :=
  {| Phase := name p;
     Step := "";
     Progress := progress p;
     PMessage := "Starting " ++ name p ++ " phase...";
     PTimestamp := time_Now w |}.

(** [update.Message = fmt.Sprintf("Completed %s phase", phase.name)]. *)
Definition completedUpdate (update : ProgressUpdate) (p : phase) : ProgressUpdate :=
  {| Phase := Phase update;
     Step := Step update;
     Progress := Progress update;
     PMessage := "Completed " ++ name p ++ " phase";
     PTimestamp := PTimestamp update |}.

(** The loop [for _, phase := range phases] of [runInstall]: the events
    it produces, the world it leaves and the error it returns. *)
Fixpoint runPhases (phases : list phase) (config : InstallationConfig) (w : World)
    : list Event * World * option error :=
  match phases with
  | [] => ([], w, None)
  | p :: rest =>
      (* Report progress *)
      let update := startUpdate p w in
      (* Execute phase *)
      let out := action p config w in
      match err out with
      | Some e =>
          (Emit update :: Invoke (name p) :: map Output (printed out),
           world out,
           Some (wrapError ("phase " ++ name p ++ " failed: ") e))
      | None =>
          (* Report phase completion *)
          let '(events, w', result) := runPhases rest config (world out) in
          (Emit update :: Invoke (name p) :: map Output (printed out)
             ++ Emit (completedUpdate update p) :: events,
           w', result)
      end
  end.

(** The six phase actions of the installer. *)
Variable validateContainerEnvironment : Action.
Variable prepareInstallation : Action.
Variable installSupabase : Action.
Variable deployApplication : Action.
Variable verifyInstallation : Action.
Variable finalizeInstallation : Action.

Definition phases : list phase :=
  [ {| name := "validation"; progress := 0.1; action := validateContainerEnvironment |};
    {| name := "preparation"; progress := 0.2; action := prepareInstallation |};
    {| name := "supabase"; progress := 0.6; action := installSupabase |};
    {| name := "application"; progress := 0.8; action := deployApplication |};
    {| name := "verification"; progress := 0.9; action := verifyInstallation |};
    {| name := "complete"; progress := 1.0; action := finalizeInstallation |} ].

Definition runInstall (w : World) : list Event * World * option error :=
  (* Parse configuration from environment *)
  let configJSON := os_Getenv w "SUBOSITY_CONFIG" in
  if String.eqb configJSON "" then
    ([], w, Some (errorString "SUBOSITY_CONFIG environment variable is required"))
  else
    match json_Unmarshal configJSON with
    | inr e => ([], w, Some (wrapError "failed to parse configuration: " e))
    | inl config => runPhases phases config w
    end.

(** The progress updates among the events, in order. *)
Fixpoint emitted (events : list Event) : list ProgressUpdate :=
  match events with
  | [] => []
  | Emit update :: rest => update :: emitted rest
  | _ :: rest => emitted rest
  end.

(** The names of the phases whose action was called, in order. *)
Fixpoint invoked (events : list Event) : list string :=
  match events with
  | [] => []
  | Invoke phase :: rest => phase :: invoked rest
  | _ :: rest => invoked rest
  end.

(** The phase and the progress value of an update. *)
Definition stamp (update : ProgressUpdate) : string * float :=
  (Phase update, Progress update).

(** The stamps of the updates of a run in which every phase succeeds: two
    for each phase, in order. *)
Definition schedule (phases : list phase) : list (string * float) :=
  flat_map (fun p => [(name p, progress p); (name p, progress p)]) phases.

End Pipeline.

Arguments printed {World}.
Arguments world {World}.
Arguments err {World}.
Arguments mkOutcome {World}.
Arguments name {World}.
Arguments progress {World}.
Arguments action {World}.
Arguments mkPhase {World}.
Arguments startUpdate {World}.
Arguments completedUpdate {World}.
Arguments runPhases {World}.
Arguments phases {World}.
Arguments runInstall {World}.
Arguments schedule {World}.

End main.

(** ** Package unicode/utf8, and what encoding/json makes of a string *)
Module utf8.

Definition byte (c : ascii) : nat := nat_of_ascii c.

Definition within (lo hi : nat) (c : ascii) : bool :=
  ((lo <=? byte c) && (byte c <=? hi))%nat.

(** The size of the encoding that a first byte announces, with the range
    of its second byte (the tables [first] and [acceptRanges]); [None]
    for a byte that starts no encoding. *)
Definition accept (b0 : ascii) : option (nat * (nat * nat)) :=
  if within 194 223 b0 then Some (2, (128, 191))%nat       (* C2..DF *)
  else if within 224 224 b0 then Some (3, (160, 191))%nat  (* E0 *)
  else if within 225 236 b0 then Some (3, (128, 191))%nat  (* E1..EC *)
  else if within 237 237 b0 then Some (3, (128, 159))%nat  (* ED *)
  else if within 238 239 b0 then Some (3, (128, 191))%nat  (* EE..EF *)
  else if within 240 240 b0 then Some (4, (144, 191))%nat  (* F0 *)
  else if within 241 243 b0 then Some (4, (128, 191))%nat  (* F1..F3 *)
  else if within 244 244 b0 then Some (4, (128, 143))%nat  (* F4 *)
  else None.

(** A continuation byte: 80..BF. *)
Definition continuation (c : ascii) : bool := within 128 191 c.

(** [DecodeRuneInString(s)]: the size of the rune that [s] starts with;
    [None] when it returns [RuneError] with the size 1 (the encoding is
    not valid or not complete) or 0 (the string is empty). *)
Definition DecodeRuneInString (s : string) : option nat :=
  match s with
  | EmptyString => None
  | String b0 rest =>
      if (byte b0 <? 128)%nat then Some 1%nat
      else
        match accept b0 with
        | None => None
        | Some (size, (lo, hi)) =>
            match size, rest with
            | 2%nat, String b1 _ =>
                if within lo hi b1 then Some 2%nat else None
            | 3%nat, String b1 (String b2 _) =>
                if within lo hi b1 && continuation b2 then Some 3%nat else None
            | 4%nat, String b1 (String b2 (String b3 _)) =>
                if within lo hi b1 && continuation b2 && continuation b3
                then Some 4%nat else None
            | _, _ => None
            end
        end
  end.



(** U+FFFD, encoded. *)
Definition replacement : string :=
  String "239" (String "191" (String "189" EmptyString)).

(** The string that [json.Unmarshal] reads from what [json.Marshal] wrote
    for [s]: the encoder copies every rune that [DecodeRuneInString]
    decodes and writes U+FFFD for every other byte. *)
Fixpoint coerce (pending : nat) (s : string) : string :=
  match s with
  | EmptyString => EmptyString
  | String b rest =>
      match pending with
      | S pending' => String b (coerce pending' rest)
      | O =>
          match DecodeRuneInString s with
          | Some size => String b (coerce (size - 1) rest)
          | None => replacement ++ coerce 0 rest
          end
      end
  end.

Definition toValidUTF8 (s : string) : string := coerce 0 s.

End utf8.

(** ** Package encoding/json, as it treats [types.InstallationConfig]

    [json.Marshal] and [json.Unmarshal] on the configuration, up to the
    JSON text: a document is the value that the text denotes.  The struct
    tags of [InstallationConfig] and [SSLConfig] fix the member names and
    the members left out when empty; what the library does to a string, to
    a key that matches no field exactly and to a [time.Time] are
    [Variable]s. *)
Module json.
Import types.

Inductive Value : Type :=
| JNull
| JBool (b : bool)
| JNumber (literal : string)
| JString (s : string)
| JArray (elements : list Value)
| JObject (members : list (string * Value)).




(** The fields of the two structs, with the names of their [json] tags. *)
Inductive SSLField : Type :=
| FProvider | FSSLEmail | FCustomCert | FCustomKey | FAutoRenew.

Definition sslFields : list SSLField :=
  [FProvider; FSSLEmail; FCustomCert; FCustomKey; FAutoRenew].

Definition sslFieldName (f : SSLField) : string :=
  match f with
  | FProvider => "provider"
  | FSSLEmail => "email"
  | FCustomCert => "custom_cert"
  | FCustomKey => "custom_key"
  | FAutoRenew => "auto_renew"
  end.

Inductive ConfigField : Type :=
| FEnvironment | FDomain | FEmail | FSSL | FCreatedAt | FVersion.

Definition configFields : list ConfigField :=
  [FEnvironment; FDomain; FEmail; FSSL; FCreatedAt; FVersion].

Definition configFieldName (f : ConfigField) : string :=
  match f with
  | FEnvironment => "environment"
  | FDomain => "domain"
  | FEmail => "email"
  | FSSL => "ssl"
  | FCreatedAt => "created_at"
  | FVersion => "version"
  end.

Section Codec.

(** The string that an encoded Go string decodes to: the encoder
    replaces every byte that is not valid UTF-8 by U+FFFD. *)
Variable toValidUTF8 : string -> string.

(** Whether a key and a field name are equal under case folding. *)
Variable foldEqual : string -> string -> bool.

(** [Time.MarshalJSON] ([None]: it returned an error) and
    [Time.UnmarshalJSON] on a time holding [old]. *)
Variable Time_MarshalJSON : Time -> option Value.
Variable Time_UnmarshalJSON : Value -> Time -> option Time.

(** *** Marshal *)

Definition encodeString (s : string) : Value := JString (toValidUTF8 s).

(** A string member tagged [omitempty]. *)
Definition omitempty (key s : string) : list (string * Value) :=
  if String.eqb s "" then [] else [(key, encodeString s)].

Definition encodeSSLConfig (ssl : SSLConfig) : Value :=
  JObject
    ([(sslFieldName FProvider, encodeString (Provider ssl))]
       ++ omitempty (sslFieldName FSSLEmail) (SSLEmail ssl)
       ++ omitempty (sslFieldName FCustomCert) (CustomCert ssl)
       ++ omitempty (sslFieldName FCustomKey) (CustomKey ssl)
       ++ [(sslFieldName FAutoRenew, JBool (AutoRenew ssl))]).

(** [json.Marshal(config)]; [None] when it returns an error. *)
Definition Marshal (config : InstallationConfig) : option Value :=
  match Time_MarshalJSON (CreatedAt config) with
  | None => None
  | Some createdAt =>
      Some (JObject
        [ (configFieldName FEnvironment, encodeString (Environment_ config));
          (configFieldName FDomain, encodeString (Domain config));
          (configFieldName FEmail, encodeString (Email config));
          (configFieldName FSSL, encodeSSLConfig (SSL config));
          (configFieldName FCreatedAt, createdAt);
          (configFieldName FVersion, encodeString (Version config)) ])
  end.

(** *** Unmarshal *)

(** The field that a key selects: the one named exactly so, else the
    first one equal to it under case folding. *)
Definition fieldOf {F : Type} (fieldName : F -> string) (fields : list F)
    (key : string) : option F :=
  match find (fun f => String.eqb (fieldName f) key) fields with
  | Some f => Some f
  | None => find (fun f => foldEqual (fieldName f) key) fields
  end.

(** A JSON value into a string and into a bool: [null] leaves the old
    value, a value of another kind is an error. *)
Definition decodeString (v : Value) (old : string) : option string :=
  match v with
  | JNull => Some old
  | JString s => Some s
  | _ => None
  end.

Definition decodeBool (v : Value) (old : bool) : option bool :=
  match v with
  | JNull => Some old
  | JBool b => Some b
  | _ => None
  end.

Definition decodeSSLMember (ssl : SSLConfig) (member : string * Value)
    : option SSLConfig :=
  let '(key, v) := member in
  match fieldOf sslFieldName sslFields key with
  | None => Some ssl (* a key that matches no field is skipped *)
  | Some FProvider =>
      option_map (fun s => mkSSLConfig s (SSLEmail ssl) (CustomCert ssl)
                             (CustomKey ssl) (AutoRenew ssl))
                 (decodeString v (Provider ssl))
  | Some FSSLEmail =>
      option_map (fun s => mkSSLConfig (Provider ssl) s (CustomCert ssl)
                             (CustomKey ssl) (AutoRenew ssl))
                 (decodeString v (SSLEmail ssl))
  | Some FCustomCert =>
      option_map (fun s => mkSSLConfig (Provider ssl) (SSLEmail ssl) s
                             (CustomKey ssl) (AutoRenew ssl))
                 (decodeString v (CustomCert ssl))
  | Some FCustomKey =>
      option_map (fun s => mkSSLConfig (Provider ssl) (SSLEmail ssl)
                             (CustomCert ssl) s (AutoRenew ssl))
                 (decodeString v (CustomKey ssl))
  | Some FAutoRenew =>
      option_map (fun b => mkSSLConfig (Provider ssl) (SSLEmail ssl)
                             (CustomCert ssl) (CustomKey ssl) b)
                 (decodeBool v (AutoRenew ssl))
  end.

(** The members of an object, in the order of the text, each into the
    struct that the ones before it left. *)
Definition decodeMembers {S : Type} (decodeMember : S -> string * Value -> option S)
    (members : list (string * Value)) (s : S) : option S :=
  fold_left (fun acc member =>
               match acc with
               | None => None
               | Some s => decodeMember s member
               end)
            members (Some s).

Definition decodeSSLConfig (v : Value) (old : SSLConfig) : option SSLConfig :=
  match v with
  | JNull => Some old
  | JObject members => decodeMembers decodeSSLMember members old
  | _ => None
  end.

Definition decodeConfigMember (config : InstallationConfig) (member : string * Value)
    : option InstallationConfig :=
  let '(key, v) := member in
  match fieldOf configFieldName configFields key with
  | None => Some config
  | Some FEnvironment =>
      option_map (fun s => mkInstallationConfig s (Domain config) (Email config)
                             (SSL config) (CreatedAt config) (Version config))
                 (decodeString v (Environment_ config))
  | Some FDomain =>
      option_map (fun s => mkInstallationConfig (Environment_ config) s (Email config)
                             (SSL config) (CreatedAt config) (Version config))
                 (decodeString v (Domain config))
  | Some FEmail =>
      option_map (fun s => mkInstallationConfig (Environment_ config) (Domain config) s
                             (SSL config) (CreatedAt config) (Version config))
                 (decodeString v (Email config))
  | Some FSSL =>
      option_map (fun ssl => mkInstallationConfig (Environment_ config) (Domain config)
                               (Email config) ssl (CreatedAt config) (Version config))
                 (decodeSSLConfig v (SSL config))
  | Some FCreatedAt =>
      option_map (fun t => mkInstallationConfig (Environment_ config) (Domain config)
                             (Email config) (SSL config) t (Version config))
                 (Time_UnmarshalJSON v (CreatedAt config))
  | Some FVersion =>
      option_map (fun s => mkInstallationConfig (Environment_ config) (Domain config)
                             (Email config) (SSL config) (CreatedAt config) s)
                 (decodeString v (Version config))
  end.

(** [json.Unmarshal(data, &config)] on the document of [data], into a
    struct holding [old]; [None] when it returns an error. *)
Definition Unmarshal (v : Value) (old : InstallationConfig) : option InstallationConfig :=
  match v with
  | JNull => Some old
  | JObject members => decodeMembers decodeConfigMember members old
  | _ => None
  end.



End Codec.


End json.

(** ** Packages os and os/exec: the calls that leave the process

    The code that installs things does so through the operating system:
    it looks at files, makes directories, writes files and runs commands.
    A run is modelled by the calls it makes, in order, and by what the
    system answers to each of them; the answers are a parameter. *)
Module os.
Import types.

(** An [exec.Cmd] as the code sets it up before it runs it: the program,
    its arguments, the entries that the code appended to [os.Environ()]
    ([None] when it left [Env] nil) and the working directory (empty when
    it left [Dir] unset). *)
Record Cmd : Type := mkCmd {
  Path : string;
  Args : list string;
  Env : option (list string);
  Dir : string
}.

(** [exec.Command(name, arg...)] and [exec.CommandContext(ctx, name, arg...)]. *)
Definition Command (name : string) (arg : list string) : Cmd :=
  {| Path := name; Args := arg; Env := None; Dir := "" |}.

(** The method that ran the command: [cmd.Run()], [cmd.Output()] or
    [cmd.CombinedOutput()]. *)
Inductive Capture : Type := Run | Output | CombinedOutput.

Inductive Call : Type :=
| Stat (name : string)
| MkdirAll (path : string) (perm : Z)
| Chdir (dir : string)
| WriteFile (name data : string) (perm : Z)
| LookPath (file : string)
| Exec (cmd : Cmd) (capture : Capture)
| Sleep (seconds : Z).

(** The permission bits 0755 and 0644. *)
Definition perm0755 : Z := 7 * 64 + 5 * 8 + 5.
Definition perm0644 : Z := 6 * 64 + 4 * 8 + 4.

(** A computation that threads a state [S] of the process and returns an [A]. *)
Definition M (S A : Type) : Type := S -> A * S.

Definition ret {S A : Type} (a : A) : M S A := fun st => (a, st).

Definition bind {S A B : Type} (m : M S A) (k : A -> M S B) : M S B :=
  fun st => let '(a, st') := m st in k a st'.

Declare Scope process_scope.
Delimit Scope process_scope with process.

Notation "x <- m ;; k" := (bind m (fun x => k))
  (at level 61, m at next level, right associativity) : process_scope.
Notation "' pat <- m ;; k" := (bind m (fun x => match x with pat => k end))
  (at level 61, pat pattern, m at next level, right associativity) : process_scope.
Notation "m ;; k" := (bind m (fun _ => k))
  (at level 61, right associativity) : process_scope.

Section Process.

(** The state of everything outside the process. *)
Variable World : Type.

(** What the system answers to a call: the world after it, the output (of
    a command) and the error. *)
Variable respond : World -> Call -> World * (string * option error).

(** [os.Getenv(key)] and [time.Now()]. *)
Variable os_Getenv : World -> string -> string.
Variable time_Now : World -> Time.

(** The process in a run: the world, the calls made so far, the lines
    written to standard output and the lines logged, oldest first. *)
Record State : Type := mkState {
  world : World;
  calls : list Call;
  stdout : list string;
  logged : list (container.Level * string)
}.

(** A computation of the process. *)
Definition Process (A : Type) : Type := M State A.

Definition call (c : Call) : M State (string * option error) :=
  fun st =>
    let '(w, answer) := respond (world st) c in
    (answer,
     {| world := w; calls := calls st ++ [c];
        stdout := stdout st; logged := logged st |}).

Definition Getenv (key : string) : M State string :=
  fun st => (os_Getenv (world st) key, st).

Definition Now : M State Time :=
  fun st => (time_Now (world st), st).

(** [fmt.Println(line)], and [fmt.Printf] of one line. *)
Definition Println (line : string) : M State unit :=
  fun st =>
    (tt,
     {| world := world st; calls := calls st;
        stdout := stdout st ++ [line]; logged := logged st |}).

(** A line given to the logger at a level. *)
Definition Log (level : container.Level) (line : string) : M State unit :=
  fun st =>
    (tt,
     {| world := world st; calls := calls st;
        stdout := stdout st; logged := logged st ++ [(level, line)] |}).

(** The calls that a computation makes, whatever the state it starts in,
    and the value it returns satisfy [post]. *)
Definition traced {A : Type} (m : Process A) (post : A -> list Call -> Prop) : Prop :=
  forall st, exists new,
    calls (snd (m st)) = (calls st ++ new)%list /\ post (fst (m st)) new.

(** A run that follows a plan: the calls made are those of the plan, in
    order, up to the call at which an error ended the run. *)
Definition follows (plan : list Call) (err : option error) (new : list Call) : Prop :=
  exists rest, plan = (new ++ rest)%list /\ (err = None -> rest = []).

End Process.

Arguments world {World}.
Arguments calls {World}.
Arguments stdout {World}.
Arguments logged {World}.
Arguments mkState {World}.
Arguments call {World}.
Arguments Getenv {World}.
Arguments Now {World}.
Arguments Println {World}.
Arguments Log {World}.
Arguments traced {World A}.
Arguments Process : clear implicits.

End os.

(** ** Package logger (pkg/logger) *)
Module logger.

(** The escape character. *)
Definition esc : string := String "027" EmptyString.

(** [logger.Success(logger, message)]: the line it prints. *)
Definition Success {World : Type} (message : string) : os.M (os.State World) unit :=
  let green := esc ++ "[32m" in
  let reset := esc ++ "[0m" in
  os.Println (green ++ "[+]" ++ reset ++ " " ++ message).

End logger.

(** ** Package docker (internal/docker): installation of Docker *)
Module docker.
Import types.
Import os.

Section Service.

Variable World : Type.
Variable respond : World -> Call -> World * (string * option error).
Variable os_Getenv : World -> string -> string.
Variable time_Now : World -> Time.
Variable strings_TrimSpace : string -> string.

Local Open Scope process_scope.

Definition runCommand (name : string) (args : list string) : Process World (option error) :=
  let cmd := Command name args in
  (* Log the command being run (without sensitive information) *)
  Log container.DebugLevel ("Running: " ++ name ++ " " ++ Join args " ") ;;
  (* Capture output for debugging *)
  '(output, err) <- call respond (Exec cmd CombinedOutput) ;;
  match err with
  | Some err =>
      Log container.DebugLevel ("Command failed with output: " ++ output) ;;
      ret (Some (wrapError ("command '" ++ name ++ " " ++ Join args " " ++ "' failed: ")
                   err))
  | None => ret None
  end.

(** [IsInstalled]: the error it returns is nil on every path. *)
Definition IsInstalled : Process World (bool * option error) :=
  (* Check if docker command exists *)
  '(_, err) <- call respond (LookPath "docker") ;;
  match err with
  | Some _ => ret (false, None)
  | None =>
      (* Check if Docker daemon is running *)
      let cmd := Command "docker" ["info"] in
      '(_, err) <- call respond (Exec cmd Run) ;;
      match err with
      | Some _ => ret (false, None)
      | None => ret (true, None)
      end
  end.

Definition GetVersion : Process World (string * option error) :=
  let cmd := Command "docker" ["--version"] in
  '(output, err) <- call respond (Exec cmd Output) ;;
  match err with
  | Some err => ret ("", Some err)
  | None => ret (strings_TrimSpace output, None)
  end.

Definition removeConflictingPackages : Process World (option error) :=
  Log container.InfoLevel "Removing potentially conflicting packages..." ;;
  let packages :=
    [ "docker.io"; "docker-doc"; "docker-compose"; "docker-compose-v2";
      "podman-docker"; "containerd"; "runc" ] in
  let args := (["apt-get"; "remove"; "-y"] ++ packages)%list in
  let cmd := Command "sudo" args in
  (* Capture both stdout and stderr *)
  '(output, err) <- call respond (Exec cmd CombinedOutput) ;;
  match err with
  | Some _ =>
      (* It's okay if some packages aren't installed *)
      Log container.DebugLevel ("Package removal output: " ++ output) ;;
      ret None
  | None => ret None
  end.

(** The line of the apt source list. *)
Definition repoLine : string :=
  "deb [arch=$(dpkg --print-architecture) signed-by=" ++ constants.DockerGPGKeyPath ++ "] "
  ++ "https://download.docker.com/linux/ubuntu "
  ++ "$(. /etc/os-release && echo " ++ dquote
  ++ "${UBUNTU_CODENAME:-$VERSION_CODENAME}" ++ dquote ++ ") stable".

Definition setupDockerRepository : Process World (option error) :=
  Log container.InfoLevel "Setting up Docker repository..." ;;
  (* Update package index *)
  err <- runCommand "sudo" ["apt-get"; "update"] ;;
  match err with
  | Some err => ret (Some (wrapError "failed to update package index: " err))
  | None =>
  (* Install required packages *)
  err <- runCommand "sudo" ["apt-get"; "install"; "-y"; "ca-certificates"; "curl"] ;;
  match err with
  | Some err => ret (Some (wrapError "failed to install required packages: " err))
  | None =>
  (* Create keyrings directory *)
  err <- runCommand "sudo" ["install"; "-m"; "0755"; "-d"; "/etc/apt/keyrings"] ;;
  match err with
  | Some err => ret (Some (wrapError "failed to create keyrings directory: " err))
  | None =>
  (* Download Docker's GPG key *)
  err <- runCommand "sudo"
           ["curl"; "-fsSL"; constants.DockerGPGKeyURL; "-o"; constants.DockerGPGKeyPath] ;;
  match err with
  | Some err => ret (Some (wrapError "failed to download Docker GPG key: " err))
  | None =>
  (* Set permissions on GPG key *)
  err <- runCommand "sudo" ["chmod"; "a+r"; constants.DockerGPGKeyPath] ;;
  match err with
  | Some err => ret (Some (wrapError "failed to set GPG key permissions: " err))
  | None =>
  (* Add Docker repository *)
  err <- runCommand "bash"
           ["-c"; "echo '" ++ repoLine ++ "' | sudo tee " ++ constants.DockerListPath
                  ++ " > /dev/null"] ;;
  match err with
  | Some err => ret (Some (wrapError "failed to add Docker repository: " err))
  | None =>
  (* Update package index again *)
  err <- runCommand "sudo" ["apt-get"; "update"] ;;
  match err with
  | Some err =>
      ret (Some (wrapError "failed to update package index after adding repository: " err))
  | None => ret None
  end end end end end end end.

Definition installDockerPackages : Process World (option error) :=
  Log container.InfoLevel "Installing Docker packages..." ;;
  let packages :=
    [ "docker-ce"; "docker-ce-cli"; "containerd.io";
      "docker-buildx-plugin"; "docker-compose-plugin" ] in
  let args := (["apt-get"; "install"; "-y"] ++ packages)%list in
  err <- runCommand "sudo" args ;;
  match err with
  | Some err => ret (Some (wrapError "failed to install Docker packages: " err))
  | None => ret None
  end.

Definition configureDocker : Process World (option error) :=
  Log container.InfoLevel "Configuring Docker..." ;;
  (* Start and enable Docker service *)
  err <- runCommand "sudo" ["systemctl"; "start"; "docker"] ;;
  match err with
  | Some err => ret (Some (wrapError "failed to start Docker service: " err))
  | None =>
  err <- runCommand "sudo" ["systemctl"; "enable"; "docker"] ;;
  match err with
  | Some err => ret (Some (wrapError "failed to enable Docker service: " err))
  | None =>
  (* Add current user to docker group *)
  currentUser <- Getenv os_Getenv "USER" ;;
  currentUser <- (if String.eqb currentUser "" then Getenv os_Getenv "LOGNAME"
                  else ret currentUser) ;;
  (if negb (String.eqb currentUser "") && negb (String.eqb currentUser "root") then
     err <- runCommand "sudo" ["usermod"; "-aG"; "docker"; currentUser] ;;
     match err with
     | Some err =>
         Log container.WarnLevel
           ("Failed to add user " ++ currentUser ++ " to docker group: " ++ Error err)
     | None =>
         Log container.InfoLevel ("Added user " ++ currentUser ++ " to docker group")
     end
   else ret tt) ;;
  ret None
  end end.

Definition verifyInstallation : Process World (option error) :=
  Log container.InfoLevel "Verifying Docker installation..." ;;
  (* Wait a moment for Docker to fully start *)
  call respond (Sleep 2) ;;
  (* Test Docker *)
  err <- runCommand "sudo" ["docker"; "run"; "--rm"; "hello-world"] ;;
  match err with
  | Some err => ret (Some (wrapError "Docker test run failed: " err))
  | None =>
  (* Test Docker Compose *)
  let cmd := Command "docker" ["compose"; "version"] in
  '(_, err) <- call respond (Exec cmd Run) ;;
  match err with
  | Some err => ret (Some (wrapError "Docker Compose verification failed: " err))
  | None => ret None
  end end.

(** [errors.WrapError] at the time of the call. *)
Definition WrapError (err : error) (code : ErrorCode)
    (message component operation : string) : Process World (option error) :=
  now <- Now time_Now ;;
  ret (Some (installError
               (errors.WrapError now (Some err) code message component operation))).

Definition Install : Process World (option error) :=
  Log container.InfoLevel "Installing Docker CE and Docker Compose..." ;;
  (* Step 1: Remove potentially conflicting packages *)
  err <- removeConflictingPackages ;;
  match err with
  | Some err =>
      WrapError err ErrCodeDockerInstall
        "failed to remove conflicting packages" "docker" "cleanup"
  | None =>
  (* Step 2: Setup Docker's apt repository *)
  err <- setupDockerRepository ;;
  match err with
  | Some err =>
      WrapError err ErrCodeDockerInstall
        "failed to setup Docker repository" "docker" "repository"
  | None =>
  (* Step 3: Install Docker packages *)
  err <- installDockerPackages ;;
  match err with
  | Some err =>
      WrapError err ErrCodeDockerInstall
        "failed to install Docker packages" "docker" "installation"
  | None =>
  (* Step 4: Configure Docker daemon and user *)
  err <- configureDocker ;;
  match err with
  | Some err =>
      WrapError err ErrCodeDockerInstall
        "failed to configure Docker" "docker" "configuration"
  | None =>
  (* Step 5: Verify installation *)
  err <- verifyInstallation ;;
  match err with
  | Some err =>
      WrapError err ErrCodeDockerInstall
        "Docker installation verification failed" "docker" "verification"
  | None =>
  logger.Success "Docker CE and Docker Compose installed successfully" ;;
  ret None
  end end end end end.

(** The commands of a complete installation by [Install], in order, when
    the user to add to the group docker is [user] (none when [user] is
    empty or root); the pause is among them. *)
Definition sudo (args : list string) : Call :=
  Exec (Command "sudo" args) CombinedOutput.

Definition installation (user : string) : list Call :=
  ([ sudo [ "apt-get"; "remove"; "-y"; "docker.io"; "docker-doc"; "docker-compose";
            "docker-compose-v2"; "podman-docker"; "containerd"; "runc" ];
     sudo ["apt-get"; "update"];
     sudo ["apt-get"; "install"; "-y"; "ca-certificates"; "curl"];
     sudo ["install"; "-m"; "0755"; "-d"; "/etc/apt/keyrings"];
     sudo ["curl"; "-fsSL"; "https://download.docker.com/linux/ubuntu/gpg"; "-o";
           "/etc/apt/keyrings/docker.asc"];
     sudo ["chmod"; "a+r"; "/etc/apt/keyrings/docker.asc"];
     Exec (Command "bash"
             ["-c"; ("echo '" ++ repoLine
                     ++ "' | sudo tee /etc/apt/sources.list.d/docker.list > /dev/null")%string])
          CombinedOutput;
     sudo ["apt-get"; "update"];
     sudo [ "apt-get"; "install"; "-y"; "docker-ce"; "docker-ce-cli"; "containerd.io";
            "docker-buildx-plugin"; "docker-compose-plugin" ];
     sudo ["systemctl"; "start"; "docker"];
     sudo ["systemctl"; "enable"; "docker"] ]
   ++ (if negb (String.eqb user "") && negb (String.eqb user "root")
       then [sudo ["usermod"; "-aG"; "docker"; user]] else [])
   ++ [ Sleep 2;
        sudo ["docker"; "run"; "--rm"; "hello-world"];
        Exec (Command "docker" ["compose"; "version"]) Run ])%list.

End Service.

Arguments runCommand {World}.
Arguments IsInstalled {World}.
Arguments GetVersion {World}.
Arguments removeConflictingPackages {World}.
Arguments setupDockerRepository {World}.
Arguments installDockerPackages {World}.
Arguments configureDocker {World}.
Arguments verifyInstallation {World}.
Arguments WrapError {World}.
Arguments Install {World}.

End docker.

(** ** Package main (the installer inside the container): the six phases *)
Module installer.
Import types.
Import os.

(** The tab, as a string. *)
Definition tab : string := String "009" EmptyString.

(** [fmt.Errorf(prefix + "%w, output: %s", err, output)]: the text of the
    error is the prefix, the text of [err], ", output: " and the output.
    The error that is wrapped stands here with the output appended to its
    text. *)
Definition withOutput (prefix : string) (err : error) (output : string) : error :=
  wrapError prefix (errorString (Error err ++ ", output: " ++ output)).

(** The shell script of [installSupabaseCLI]. *)
Definition installScript : string :=
  Join
    [ "";
      tab ++ tab ++ "curl -fsSL https://supabase.com/install.sh | sh";
      tab ++ tab ++ "export PATH=$PATH:$HOME/.local/bin";
      tab ++ tab ++ "supabase --version";
      tab ]
    newline.

Definition envContent (config : InstallationConfig) : string :=
  Join
    [ "";
      "# Subosity Application Configuration";
      "ENVIRONMENT=" ++ Environment_ config;
      "DOMAIN=" ++ Domain config;
      "EMAIL=" ++ Email config;
      "";
      "# Supabase Configuration";
      "SUPABASE_URL=http://localhost:8000";
      "SUPABASE_ANON_KEY=your-anon-key-here";
      "SUPABASE_SERVICE_ROLE_KEY=your-service-role-key-here";
      "";
      "# Application URLs";
      "FRONTEND_URL=http://localhost:3000";
      "BACKEND_URL=http://localhost:8000";
      "" ]
    newline.

Definition composeContent (config : InstallationConfig) : string :=
  Join
    [ "version: '3.8'";
      "";
      "services:";
      "  nginx:";
      "    image: nginx:alpine";
      "    ports:";
      "      - " ++ dquote ++ "80:80" ++ dquote;
      "      - " ++ dquote ++ "443:443" ++ dquote;
      "    volumes:";
      "      - /app/data/configs/nginx:/etc/nginx/conf.d:ro";
      "      - /app/data/certs:/etc/ssl/certs:ro";
      "    depends_on:";
      "      - frontend";
      "    restart: unless-stopped";
      "";
      "  frontend:";
      "    image: node:18-alpine";
      "    working_dir: /app";
      "    ports:";
      "      - " ++ dquote ++ "3000:3000" ++ dquote;
      "    environment:";
      "      - NODE_ENV=production";
      "      - DOMAIN=" ++ Domain config;
      "    volumes:";
      "      - /app/data/app/frontend:/app";
      "    command: [" ++ dquote ++ "sh" ++ dquote ++ ", " ++ dquote ++ "-c" ++ dquote ++ ", " ++ dquote ++ "echo 'Frontend placeholder - Phase 1' && sleep infinity" ++ dquote ++ "]";
      "    restart: unless-stopped";
      "";
      "networks:";
      "  default:";
      "    external: true";
      "    name: supabase_default";
      "" ]
    newline.

Definition serviceContent : string :=
  Join
    [ "[Unit]";
      "Description=Subosity Application Stack";
      "After=docker.service";
      "Requires=docker.service";
      "";
      "[Service]";
      "Type=forking";
      "WorkingDirectory=/app/data";
      "ExecStart=/usr/bin/docker compose up -d";
      "ExecStop=/usr/bin/docker compose down";
      "ExecReload=/usr/bin/docker compose restart";
      "Restart=always";
      "RestartSec=5";
      "User=root";
      "";
      "[Install]";
      "WantedBy=multi-user.target";
      "" ]
    newline.

Section Actions.

Variable World : Type.
Variable respond : World -> Call -> World * (string * option error).
Variable os_Getenv : World -> string -> string.
Variable time_Now : World -> Time.
Variable json_Unmarshal : string -> InstallationConfig + error.

Local Open Scope process_scope.

(** The loop [for _, dir := range dirs] over [os.MkdirAll(dir, 0755)]. *)
Fixpoint mkdirAll (dirs : list string) : Process World (option error) :=
  match dirs with
  | [] => ret None
  | dir :: rest =>
      '(_, err) <- call respond (MkdirAll dir perm0755) ;;
      match err with
      | Some err => ret (Some (wrapError ("failed to create directory " ++ dir ++ ": ") err))
      | None => mkdirAll rest
      end
  end.

(** *** Phase implementations *)

Definition validateContainerEnvironment (config : InstallationConfig)
    : Process World (option error) :=
  (* Validate we're running in the container correctly *)
  '(_, err) <- call respond (Stat "/app/data") ;;
  match err with
  | Some err => ret (Some (wrapError "data directory not mounted: " err))
  | None =>
  (* Check Docker socket access *)
  '(_, err) <- call respond (Stat "/var/run/docker.sock") ;;
  match err with
  | Some err => ret (Some (wrapError "Docker socket not accessible: " err))
  | None => ret None
  end end.

Definition prepareInstallation (config : InstallationConfig)
    : Process World (option error) :=
  (* Create necessary directories and files *)
  mkdirAll [ "/app/data/supabase"; "/app/data/app"; "/app/data/logs"; "/app/data/configs" ].

(** *** Implementation functions for Supabase setup *)

Definition installSupabaseCLI : Process World (option error) :=
  (* Download and install Supabase CLI *)
  let cmd := {| Path := "sh"; Args := ["-c"; installScript];
                Env := Some ["DEBIAN_FRONTEND=noninteractive"]; Dir := "" |} in
  '(output, err) <- call respond (Exec cmd CombinedOutput) ;;
  match err with
  | Some err => ret (Some (withOutput "failed to install Supabase CLI: " err output))
  | None => ret None
  end.

Definition initializeSupabaseProject (config : InstallationConfig)
    : Process World (option error) :=
  (* Initialize Supabase project in the data directory *)
  let projectDir := "/app/data/supabase" in
  (* Change to project directory *)
  '(_, err) <- call respond (Chdir projectDir) ;;
  match err with
  | Some err => ret (Some (wrapError "failed to change to project directory: " err))
  | None =>
  (* Initialize project *)
  path <- Getenv os_Getenv "PATH" ;;
  let cmd := {| Path := "supabase"; Args := ["init"];
                Env := Some ["PATH=/root/.local/bin:" ++ path]; Dir := "" |} in
  '(output, err) <- call respond (Exec cmd CombinedOutput) ;;
  match err with
  | Some err => ret (Some (withOutput "failed to initialize Supabase project: " err output))
  | None => ret None
  end end.

Definition startSupabaseServices : Process World (option error) :=
  (* Start Supabase services *)
  path <- Getenv os_Getenv "PATH" ;;
  let cmd := {| Path := "supabase"; Args := ["start"];
                Env := Some ["PATH=/root/.local/bin:" ++ path];
                Dir := "/app/data/supabase" |} in
  '(output, err) <- call respond (Exec cmd CombinedOutput) ;;
  match err with
  | Some err => ret (Some (withOutput "failed to start Supabase services: " err output))
  | None => ret None
  end.

Definition installSupabase (config : InstallationConfig) : Process World (option error) :=
  (* Step 1: Install Supabase CLI *)
  Println "Installing Supabase CLI..." ;;
  err <- installSupabaseCLI ;;
  match err with
  | Some err => ret (Some (wrapError "failed to install Supabase CLI: " err))
  | None =>
  (* Step 2: Initialize Supabase project *)
  Println "Initializing Supabase project..." ;;
  err <- initializeSupabaseProject config ;;
  match err with
  | Some err => ret (Some (wrapError "failed to initialize Supabase project: " err))
  | None =>
  (* Step 3: Start Supabase services *)
  Println "Starting Supabase services..." ;;
  err <- startSupabaseServices ;;
  match err with
  | Some err => ret (Some (wrapError "failed to start Supabase services: " err))
  | None => ret None
  end end end.

(** *** Implementation functions for application deployment *)

Definition createApplicationStructure (config : InstallationConfig)
    : Process World (option error) :=
  (* Create additional directory structure for the application *)
  mkdirAll [ "/app/data/app/frontend"; "/app/data/app/backend";
             "/app/data/configs/nginx"; "/app/data/configs/systemd";
             "/app/data/certs" ].

Definition generateConfigurationFiles (config : InstallationConfig)
    : Process World (option error) :=
  (* Generate environment file for the application *)
  let envPath := "/app/data/configs/.env" in
  '(_, err) <- call respond (WriteFile envPath (envContent config) perm0644) ;;
  match err with
  | Some err => ret (Some (wrapError "failed to write environment file: " err))
  | None => ret None
  end.

Definition setupSSLCertificates (config : InstallationConfig)
    : Process World (option error) :=
  let certDir := "/app/data/certs" in
  let keyPath := certDir ++ "/server.key" in
  let certPath := certDir ++ "/server.crt" in
  (* Generate private key *)
  let keyCmd := Command "openssl" ["genrsa"; "-out"; keyPath; "2048"] in
  '(_, err) <- call respond (Exec keyCmd Run) ;;
  match err with
  | Some err => ret (Some (wrapError "failed to generate private key: " err))
  | None =>
  (* Generate certificate *)
  let certCmd :=
    Command "openssl"
      [ "req"; "-new"; "-x509"; "-key"; keyPath; "-out"; certPath; "-days"; "365"; "-subj";
        "/C=US/ST=Local/L=Local/O=Subosity/CN=" ++ Domain config ] in
  '(_, err) <- call respond (Exec certCmd Run) ;;
  match err with
  | Some err => ret (Some (wrapError "failed to generate certificate: " err))
  | None => ret None
  end end.

Definition createDockerCompose (config : InstallationConfig)
    : Process World (option error) :=
  (* Create a basic Docker Compose file for Phase 1 *)
  let composePath := "/app/data/docker-compose.yml" in
  '(_, err) <- call respond (WriteFile composePath (composeContent config) perm0644) ;;
  match err with
  | Some err => ret (Some (wrapError "failed to write Docker Compose file: " err))
  | None => ret None
  end.

Definition deployApplication (config : InstallationConfig)
    : Process World (option error) :=
  (* Step 1: Create application directory structure *)
  Println "Creating application structure..." ;;
  err <- createApplicationStructure config ;;
  match err with
  | Some err => ret (Some (wrapError "failed to create application structure: " err))
  | None =>
  (* Step 2: Generate configuration files *)
  Println "Generating configuration files..." ;;
  err <- generateConfigurationFiles config ;;
  match err with
  | Some err => ret (Some (wrapError "failed to generate configuration files: " err))
  | None =>
  (* Step 3: Set up SSL certificates *)
  Println "Setting up SSL certificates..." ;;
  err <- setupSSLCertificates config ;;
  match err with
  | Some err => ret (Some (wrapError "failed to setup SSL certificates: " err))
  | None =>
  (* Step 4: Create Docker Compose configuration *)
  Println "Creating Docker Compose configuration..." ;;
  err <- createDockerCompose config ;;
  match err with
  | Some err => ret (Some (wrapError "failed to create Docker Compose configuration: " err))
  | None => ret None
  end end end end.

Definition verifyInstallation (config : InstallationConfig)
    : Process World (option error) :=
  Println "Testing database connectivity..." ;;
  Println "Verifying service health..." ;;
  Println "Checking SSL certificates..." ;;
  (* Simulate work *)
  call respond (Sleep 1) ;;
  ret None.

(** *** Implementation functions for service management *)

Definition createSystemdService (config : InstallationConfig)
    : Process World (option error) :=
  let servicePath := "/app/data/configs/systemd/subosity.service" in
  '(_, err) <- call respond (WriteFile servicePath serviceContent perm0644) ;;
  match err with
  | Some err => ret (Some (wrapError "failed to write systemd service file: " err))
  | None =>
  (* Copy to system location *)
  let copyCmd := Command "cp" [servicePath; "/etc/systemd/system/subosity.service"] in
  '(_, err) <- call respond (Exec copyCmd Run) ;;
  match err with
  | Some err =>
      (* For Phase 1, this might fail in container - that's okay *)
      Println ("Warning: Could not copy systemd service to system directory: " ++ Error err) ;;
      ret None
  | None => ret None
  end end.

Definition startServices (config : InstallationConfig) : Process World (option error) :=
  (* Start the application stack using Docker Compose *)
  let cmd := {| Path := "docker"; Args := ["compose"; "up"; "-d"];
                Env := None; Dir := "/app/data" |} in
  '(output, err) <- call respond (Exec cmd CombinedOutput) ;;
  match err with
  | Some err => ret (Some (withOutput "failed to start services: " err output))
  | None => ret None
  end.

Definition enableServices (config : InstallationConfig) : Process World (option error) :=
  (* Enable systemd service (if available) *)
  let cmd := Command "systemctl" ["enable"; "subosity.service"] in
  '(_, err) <- call respond (Exec cmd Run) ;;
  match err with
  | Some err => Println ("Warning: Could not enable systemd service: " ++ Error err)
  | None => ret tt
  end ;;
  (* Reload systemd daemon *)
  let reloadCmd := Command "systemctl" ["daemon-reload"] in
  '(_, err) <- call respond (Exec reloadCmd Run) ;;
  match err with
  | Some err => Println ("Warning: Could not reload systemd daemon: " ++ Error err)
  | None => ret tt
  end ;;
  ret None.

Definition finalizeInstallation (config : InstallationConfig)
    : Process World (option error) :=
  (* Step 1: Create systemd service *)
  Println "Creating systemd service..." ;;
  err <- createSystemdService config ;;
  match err with
  | Some err => ret (Some (wrapError "failed to create systemd service: " err))
  | None =>
  (* Step 2: Start services *)
  Println "Starting services..." ;;
  err <- startServices config ;;
  match err with
  | Some err => ret (Some (wrapError "failed to start services: " err))
  | None =>
  (* Step 3: Enable services *)
  Println "Enabling services for auto-start..." ;;
  err <- enableServices config ;;
  match err with
  | Some err => ret (Some (wrapError "failed to enable services: " err))
  | None => ret None
  end end end.

(** *** The pipeline over the six phases

    A phase's action as the pipeline of [runInstall] sees it: the world of
    the pipeline is the state of the process, and the lines that the
    action printed are those it added to standard output. *)
Definition asAction (action : InstallationConfig -> Process World (option error))
    : main.Action (State World) :=
  fun config st =>
    let '(err, st') := action config st in
    {| main.printed := skipn (List.length (stdout st)) (stdout st');
       main.world := st';
       main.err := err |}.

Definition runInstall (st : State World)
    : list main.Event * State World * option error :=
  main.runInstall
    (fun st => time_Now (world st))
    (fun st key => os_Getenv (world st) key)
    json_Unmarshal
    (asAction validateContainerEnvironment)
    (asAction prepareInstallation)
    (asAction installSupabase)
    (asAction deployApplication)
    (asAction verifyInstallation)
    (asAction finalizeInstallation)
    st.

End Actions.

Arguments mkdirAll {World}.
Arguments validateContainerEnvironment {World}.
Arguments prepareInstallation {World}.
Arguments installSupabaseCLI {World}.
Arguments initializeSupabaseProject {World}.
Arguments startSupabaseServices {World}.
Arguments installSupabase {World}.
Arguments createApplicationStructure {World}.
Arguments generateConfigurationFiles {World}.
Arguments setupSSLCertificates {World}.
Arguments createDockerCompose {World}.
Arguments deployApplication {World}.
Arguments verifyInstallation {World}.
Arguments createSystemdService {World}.
Arguments startServices {World}.
Arguments enableServices {World}.
Arguments finalizeInstallation {World}.
Arguments asAction {World}.
Arguments runInstall {World}.

(** What the installer touches: it looks at the data directory and at
    the socket of Docker, it makes directories, writes files and changes
    directory under [/app/data] only, and the programs it runs are [sh],
    [supabase], [openssl], [cp], [docker] and [systemctl]. *)
Definition confined (c : Call) : bool :=
  match c with
  | Stat name => String.eqb name "/app/data" || String.eqb name "/var/run/docker.sock"
  | MkdirAll path _ => HasPrefix path "/app/data/"
  | Chdir dir => HasPrefix dir "/app/data/"
  | WriteFile name _ _ => HasPrefix name "/app/data/"
  | LookPath _ => false
  | Exec cmd _ =>
      existsb (String.eqb (Path cmd))
        ["sh"; "supabase"; "openssl"; "cp"; "docker"; "systemctl"]
  | Sleep _ => true
  end.

End installer.

(** ** Package cmd: the setup command of the host binary *)
Module cmd.
Import types.

(** The flags of [setup]. *)
Record Flags : Type := mkFlags {
  environment : string;
  domain : string;
  email : string;
  sslProvider : string;
  configFile : string;
  timeout : Z
}.

Section Configuration.

Variable strings_ToLower : string -> string.
Variable strings_TrimSpace : string -> string.
Variable mail_ParseAddress : string -> bool.
Variable url_Parse : string -> string + error.

(** [buildConfiguration]: the lines it logs, and the configuration or the
    error.  [createdAt] is the clock when the configuration is built and
    [now] when an error is. *)
Definition buildConfiguration (createdAt now : Time) (flags : Flags)
    : list (container.Level * string) * (InstallationConfig + InstallError) :=
  let started := [(container.InfoLevel, "Building installation configuration...")] in
  (* Create base configuration from flags *)
  let installConfig :=
    {| Environment_ := environment flags;
       Domain := domain flags;
       Email := email flags;
       SSL := {| Provider := sslProvider flags; SSLEmail := ""; CustomCert := "";
                 CustomKey := ""; AutoRenew := false |};
       CreatedAt := createdAt;
       Version := constants.AppVersion |} in
  (* TODO: Load from config file if specified *)
  let warned :=
    if negb (String.eqb (configFile flags) "") then
      [(container.WarnLevel,
        ("Configuration file support not yet implemented: " ++ configFile flags)%string)]
    else [] in
  (* Apply environment-specific defaults *)
  let installConfig := config.ApplyDefaults installConfig in
  (* Validate configuration *)
  match config.ValidateConfig strings_ToLower strings_TrimSpace mail_ParseAddress
          now (Some installConfig) with
  | Some err => ((started ++ warned)%list, inr err)
  | None =>
      (* Sanitize domain *)
      match config.SanitizeAndValidateDomain strings_ToLower strings_TrimSpace url_Parse
              now (Domain installConfig) with
      | (_, Some err) => ((started ++ warned)%list, inr err)
      | (sanitizedDomain, None) =>
          let installConfig :=
            {| Environment_ := Environment_ installConfig;
               Domain := sanitizedDomain;
               Email := Email installConfig;
               SSL := SSL installConfig;
               CreatedAt := CreatedAt installConfig;
               Version := Version installConfig |} in
          ((started ++ warned
              ++ [(container.InfoLevel,
                   ("Configuration validated for " ++ Environment_ installConfig
                      ++ " environment on domain " ++ Domain installConfig)%string)])%list,
           inl installConfig)
      end
  end.

End Configuration.


Section Docker.
Import os.

Variable World : Type.
Variable respond : World -> Call -> World * (string * option error).
Variable os_Getenv : World -> string -> string.
Variable time_Now : World -> Time.
Variable strings_TrimSpace : string -> string.

Local Open Scope process_scope.

Definition ensureDocker : Process World (option error) :=
  Log container.InfoLevel "Checking Docker availability..." ;;
  (* Check if Docker is already installed *)
  '(installed, err) <- docker.IsInstalled respond ;;
  match err with
  | Some err =>
      docker.WrapError time_Now err ErrCodeDockerInstall
        "failed to check Docker installation" "docker" "check"
  | None =>
      if installed : bool then
        '(version, _) <- docker.GetVersion respond strings_TrimSpace ;;
        Log container.InfoLevel ("Docker is already installed: " ++ version) ;;
        ret None
      else
        (* Install Docker *)
        Log container.InfoLevel "Docker not found, installing..." ;;
        err <- docker.Install respond os_Getenv time_Now ;;
        match err with
        | Some err => ret (Some err)
        | None => ret None
        end
  end.

End Docker.

Arguments ensureDocker {World}.

(** [displaySuccess]: the lines it logs; it returns nil. *)
Definition displaySuccess (installConfig : InstallationConfig)
    : list (container.Level * string) * option error :=
  (* Determine the URL based on SSL configuration *)
  let protocol :=
    if String.eqb (Provider (SSL installConfig)) SSLProviderSelfSigned
       && String.eqb (Environment_ installConfig) EnvironmentDevelopment
    then "http" else "https" in
  let url := protocol ++ "://" ++ Domain installConfig in
  (map (fun line => (container.InfoLevel, line))
     [ "";
       "ðŸŽ‰ Subosity installation completed successfully!";
       "";
       "Environment: " ++ Environment_ installConfig;
       "Domain: " ++ Domain installConfig;
       "Access URL: " ++ url;
       "";
       "Next steps:";
       "1. Configure your domain's DNS to point to this server";
       "2. Access the application at the URL above";
       "3. Complete the initial setup in the web interface";
       "";
       "For help and documentation, visit: https://github.com/subosity/subosity-installer" ],
   None).

(** How [runSetup] ends: it returns, or its assertion that the error is
    a pointer to a [types.InstallError] panics on an error of another
    type. *)
Inductive Exit : Type :=
| Returned (err : option error)
| Panicked.

(** [log.Error(errors.FormatError(...)); return err], on the error
    asserted to be a pointer to a [types.InstallError]: the text logged and
    the end. *)
Definition report (err : error) : list string * Exit :=
  match err with
  | installError e => ([errors.FormatError e], Returned (Some err))
  | _ => ([], Panicked)
  end.

Section Setup.
Import os.

Variable strings_ToLower : string -> string.
Variable strings_TrimSpace : string -> string.
Variable mail_ParseAddress : string -> bool.
Variable url_Parse : string -> string + error.
Variable strings_Fields : string -> list string.
Variable strconv_ParseInt : string -> Z + error.
Variable net_DialTimeout : string -> string -> bool.
Variable sudo_n_true : option error.
Variable World : Type.
Variable respond : World -> Call -> World * (string * option error).
Variable os_Getenv : World -> string -> string.
Variable time_Now : World -> Time.

Local Open Scope process_scope.

Definition validateSystem (now : Time) (probe : system.Probe) : option error :=
  (* Detect system information *)
  match snd (system.DetectSystem strings_Fields strconv_ParseInt now probe) with
  | inr err => Some (installError err)
  | inl hostMetadata =>
      (* Validate system requirements *)
      match system.ValidateSystemRequirements net_DialTimeout sudo_n_true now hostMetadata with
      | Some err => Some (installError err)
      | None => None
      end
  end.

Definition runContainerInstallation (h : container.Host)
    (installConfig : InstallationConfig) : option error :=
  match container.RunInstaller h installConfig with
  | Some err => Some err
  | None => None
  end.

(** [runSetup]: the texts it logs as errors and how it ends.  [probe] is
    what the detector finds on the host and [h] the host as the runner
    meets it; the clock is read once, no call being made before Docker is
    looked for. *)
Definition runSetup (flags : Flags) (probe : system.Probe) (h : container.Host)
    : Process World (list string * Exit) :=
  now <- Now time_Now ;;
  (* Step 1: Build configuration *)
  match snd (buildConfiguration strings_ToLower strings_TrimSpace mail_ParseAddress
               url_Parse now now flags) with
  | inr err => ret (report (installError err))
  | inl installConfig =>
  (* Step 2: Validate system requirements *)
  match validateSystem now probe with
  | Some err => ret (report err)
  | None =>
  (* Step 3: Ensure Docker is available *)
  err <- ensureDocker respond os_Getenv time_Now strings_TrimSpace ;;
  match err with
  | Some err => ret (report err)
  | None =>
  (* Step 4: Run container-based installation *)
  match runContainerInstallation h installConfig with
  | Some err => ret (report err)
  | None =>
  (* Step 5: Final verification and success message *)
  ret ([], Returned (snd (displaySuccess installConfig)))
  end end end end.

End Setup.

End cmd.

(** ** Concrete hosts, worlds and library functions

    The runs at which the theorems below are instantiated. *)
Module scenarios.
Import types.

(** A host on which only port 443 accepts connections. *)
Definition dial443 (network address : string) : bool :=
  String.eqb network "tcp" && String.eqb address "localhost:443".

(** A host with 20 GB of free disk whose RAM could not be measured. *)
Definition unmeasuredRAM : HostMetadata :=
  {| OS := "ubuntu"; HVersion := "22.04"; Architecture := "x86_64";
     DockerVersion := ""; AvailableRAM := 0;
     AvailableDisk := 20 * 1024 * 1024 * 1024; HTimestamp := 0 |}.

(** A host with 1 GB of RAM and 5 GB of free disk. *)
Definition smallHost : HostMetadata :=
  {| OS := "ubuntu"; HVersion := "22.04"; Architecture := "x86_64";
     DockerVersion := ""; AvailableRAM := 1024 * 1024 * 1024;
     AvailableDisk := 5 * 1024 * 1024 * 1024; HTimestamp := 0 |}.

Definition devConfig : InstallationConfig :=
  {| Environment_ := EnvironmentDevelopment; Domain := "app.local"; Email := "";
     SSL := {| Provider := SSLProviderSelfSigned; SSLEmail := ""; CustomCert := "";
               CustomKey := ""; AutoRenew := false |};
     CreatedAt := 0; Version := "1.0.0-dev" |}.

Definition stagingConfig : InstallationConfig :=
  {| Environment_ := EnvironmentStaging; Domain := "staging.example.com"; Email := "";
     SSL := {| Provider := ""; SSLEmail := ""; CustomCert := "";
               CustomKey := ""; AutoRenew := true |};
     CreatedAt := 0; Version := "1.0.0-dev" |}.

Definition prodConfig : InstallationConfig :=
  {| Environment_ := EnvironmentProduction; Domain := "example.com"; Email := "";
     SSL := {| Provider := SSLProviderCustom; SSLEmail := "";
               CustomCert := "/etc/ssl/example.crt"; CustomKey := "/etc/ssl/example.key";
               AutoRenew := true |};
     CreatedAt := 0; Version := "1.0.0-dev" |}.

(** A run in which every step succeeds and the container exits with
    code 0 before anything else reaches the [select]. *)
Definition succeeded : container.Cmd :=
  {| container.StdoutPipe_err := None; container.StderrPipe_err := None;
     container.Start_err := None; container.Wait_err := None |}.


(** A world for the installer inside the container: the state is the
    clock, every action takes one tick. *)
Definition getenv (w : Z) (key : string) : string :=
  if String.eqb key "SUBOSITY_CONFIG" then "{}" else "".

Definition unmarshal (configJSON : string) : InstallationConfig + error :=
  inl devConfig.

Definition works : main.Action Z :=
  fun _ w => {| main.printed := []; main.world := w + 1; main.err := None |}.

Definition breaks (line text : string) : main.Action Z :=
  fun _ w => {| main.printed := [line]; main.world := w + 1;
                main.err := Some (errorString text) |}.

(** Every phase succeeds. *)
Definition allWork (w : Z) : list main.Event * Z * option error :=
  main.runInstall (fun w => w) getenv unmarshal works works works works works works w.

(** Phase 3 of 6 fails. *)
Definition supabaseBreaks : main.Action Z :=
  breaks "Installing Supabase CLI..." "failed to install Supabase CLI: exit status 1".

Definition thirdBreaks (w : Z) : list main.Event * Z * option error :=
  main.runInstall (fun w => w) getenv unmarshal
    works works supabaseBreaks works works works w.

(** Library functions restricted to ASCII: lower-casing, trimming of
    blanks, and a mail address parser that asks for one at-sign. *)
Definition lower (c : ascii) : ascii :=
  if regexp.inRange "A" "Z" c then ascii_of_nat (nat_of_ascii c + 32) else c.

Fixpoint toLower (s : string) : string :=
  match s with
  | EmptyString => EmptyString
  | String c s' => String (lower c) (toLower s')
  end.

Fixpoint trimLeft (s : list ascii) : list ascii :=
  match s with
  | c :: s' => if Ascii.eqb c " " then trimLeft s' else s
  | [] => []
  end.

Definition trimSpace (s : string) : string :=
  string_of_list_ascii (rev (trimLeft (rev (trimLeft (list_ascii_of_string s))))).

Fixpoint countAt (s : string) : nat :=
  match s with
  | EmptyString => O
  | String c s' => ((if Ascii.eqb c "@" then 1 else 0) + countAt s')%nat
  end.

Definition parseAddress (email : string) : bool := Nat.eqb (countAt email) 1.



(** A URL parser that takes what follows "://" as the host. *)
Definition parseURL (rawURL : string) : string + error :=
  if HasPrefix rawURL "https://" then inl (substring 8 (String.length rawURL - 8) rawURL)
  else if HasPrefix rawURL "http://" then inl (substring 7 (String.length rawURL - 7) rawURL)
  else inr (errorString "parse: missing protocol scheme").

(** The flags of [setup --env dev --domain " App.Local "]. *)
Definition devFlags : cmd.Flags :=
  {| cmd.environment := "dev"; cmd.domain := " App.Local "; cmd.email := "";
     cmd.sslProvider := ""; cmd.configFile := ""; cmd.timeout := 15 |}.

(** The flags of [setup --env prod --domain example.com --email
    admin@example.com], with and without [--ssl-provider self-signed]. *)
Definition prodFlags : cmd.Flags :=
  {| cmd.environment := "prod"; cmd.domain := "example.com";
     cmd.email := "admin@example.com";
     cmd.sslProvider := ""; cmd.configFile := ""; cmd.timeout := 15 |}.

Definition prodSelfSignedFlags : cmd.Flags :=
  {| cmd.environment := "prod"; cmd.domain := "Example.com";
     cmd.email := "admin@example.com";
     cmd.sslProvider := "self-signed"; cmd.configFile := ""; cmd.timeout := 15 |}.

(** Fields separated by blanks, and a parser of decimal integers. *)
Fixpoint splitBlanks (word : string) (s : string) : list string :=
  match s with
  | EmptyString => if String.eqb word "" then [] else [word]
  | String c s' =>
      if Ascii.eqb c " " then
        if String.eqb word "" then splitBlanks "" s' else word :: splitBlanks "" s'
      else splitBlanks (word ++ String c "") s'
  end.

Definition fields (s : string) : list string := splitBlanks "" s.

Definition parseInt (s : string) : Z + error :=
  match NilZero.int_of_string s with
  | Some d => inl (Z.of_int d)
  | None => inr (errorString "strconv.ParseInt: invalid syntax")
  end.

(** An Ubuntu 22.04 host built for amd64 whose /proc/meminfo cannot be
    opened and that has 20 GB of free disk. *)
Definition ubuntuProbe : system.Probe :=
  {| system.osRelease :=
       inl {| system.scannedLines :=
                [ "PRETTY_NAME=Ubuntu"; "ID=ubuntu"; "ID_LIKE=debian";
                  "VERSION_ID=" ++ dquote ++ "22.04" ++ dquote ];
              system.scannedErr := None |};
     system.GOARCH := "amd64";
     system.meminfo := inr (errorString "open /proc/meminfo: permission denied");
     system.statfs := inl (5242880, 4096);
     system.dockerVersionOutput := inl "Docker version 24.0.7, build afdd53b" |}.

(** A /proc/meminfo with 4 GB available. *)
Definition meminfo4G : system.Scanned :=
  {| system.scannedLines :=
       [ "MemTotal:        8000000 kB"; "MemFree:         1000000 kB";
         "MemAvailable:    4194304 kB"; "Buffers:          100000 kB" ];
     system.scannedErr := None |}.

(** A run on a host where [/opt/subosity/logs] cannot be created. *)
Definition lockedLogs : container.Host :=
  {| container.time_Now := 0;
     container.os_MkdirAll := fun path =>
       if String.eqb path "/opt/subosity/logs"
       then Some (errorString "mkdir /opt/subosity/logs: permission denied")
       else None;
     container.json_Marshal := fun _ => inl "{}";
     container.dockerPull := succeeded;
     container.dockerRun := succeeded;
     container.selected := container.RecvWait;
     container.ctx_Err := errorString "context deadline exceeded" |}.

(** A host without network: [apt-get update] fails, every other call
    succeeds.  The world has no state. *)
Definition offline (w : unit) (c : os.Call) : unit * (string * option error) :=
  match c with
  | os.Exec cmd _ =>
      if String.eqb (Join (os.Path cmd :: os.Args cmd) " ") "sudo apt-get update"
      then (w, ("Could not resolve 'archive.ubuntu.com'",
                Some (ExitError 100 "exit status 100")))
      else (w, ("", None))
  | _ => (w, ("", None))
  end.

(** A host on which every call succeeds. *)
Definition obliging (w : unit) (c : os.Call) : unit * (string * option error) :=
  (w, ("", None)).

(** The environment of the user deploy. *)
Definition deployEnv (w : unit) (key : string) : string :=
  if String.eqb key "USER" then "deploy" else "".

(** A process that has made no call yet. *)
Definition fresh : os.State unit :=
  {| os.world := tt; os.calls := []; os.stdout := []; os.logged := [] |}.

(** The environment of the installer inside the container. *)
Definition containerEnv (w : unit) (key : string) : string :=
  if String.eqb key "SUBOSITY_CONFIG" then "{}"
  else if String.eqb key "PATH" then "/usr/bin:/bin"
  else "".

(** A container in which [systemctl] and [cp] fail, as there is no systemd
    and [/etc] is mounted read-only; every other call succeeds. *)
Definition noSystemd (w : unit) (c : os.Call) : unit * (string * option error) :=
  match c with
  | os.Exec cmd _ =>
      if String.eqb (os.Path cmd) "systemctl" || String.eqb (os.Path cmd) "cp"
      then (w, ("", Some (ExitError 1 "exit status 1")))
      else (w, ("", None))
  | _ => (w, ("", None))
  end.

(** A container in which [docker compose up] fails. *)
Definition noCompose (w : unit) (c : os.Call) : unit * (string * option error) :=
  match c with
  | os.Exec cmd _ =>
      if String.eqb (Join (os.Path cmd :: os.Args cmd) " ") "docker compose up -d"
      then (w, ("no configuration file provided: not found",
                Some (ExitError 1 "exit status 1")))
      else (w, ("", None))
  | _ => (w, ("", None))
  end.

(** A run in which the scanner of the container's standard output fails
    before the container exits. *)
Definition brokenStream : container.Host :=
  {| container.time_Now := 0;
     container.os_MkdirAll := fun _ => None;
     container.json_Marshal := fun _ => inl "{}";
     container.dockerPull := succeeded;
     container.dockerRun := succeeded;
     container.selected :=
       container.RecvError (Some (errorString "bufio.Scanner: token too long"));
     container.ctx_Err := errorString "context deadline exceeded" |}.

(** No port of the host accepts a connection. *)
Definition noListener (network address : string) : bool := false.







End scenarios.

(** * Theorems *)

(** ** Strings *)

Lemma HasPrefix_refl (s : string) : HasPrefix s s = true.
Proof.
  induction s as [|c s IH]; simpl; [reflexivity|].
  now rewrite Ascii.eqb_refl, IH.
Qed.

Lemma Contains_self (s : string) : Contains s s = true.
Proof.
  destruct s; simpl; [reflexivity|].
  now rewrite Ascii.eqb_refl, HasPrefix_refl.
Qed.

Lemma Contains_append (prefix s : string) : Contains (prefix ++ s) s = true.
Proof.
  induction prefix as [|c prefix IH].
  - apply Contains_self.
  - change (String c prefix ++ s) with (String c (prefix ++ s)).
    cbn [Contains]. rewrite IH. apply orb_true_r.
Qed.

(** ** The exit-code mapper *)
Section ExitCodes.
Import types.

Lemma processContainerError_default (now : Time) (exitCode : Z) (state : string) :
  exitCode <> 1 -> exitCode <> 2 -> exitCode <> 3 -> exitCode <> 4 ->
  container.processContainerError now (ExitError exitCode state) =
  errors.NewInstallationError now ErrCodeSystemRequirements
    ("container installation failed with exit code " ++ itoa exitCode)
    "container" "execution".
Proof.
  intros H1 H2 H3 H4.
  destruct exitCode as [|p|p]; try reflexivity.
  destruct p as [[p|p|]|[p|p|]|]; try reflexivity; try congruence;
    destruct p; try reflexivity; congruence.
Qed.

(** When the exit of the container is what the [select] receives and
    [cmd.Wait()] returned an error, [runContainer] returns what
    [processContainerError] makes of it. *)
Lemma runContainer_reports_exit (h : container.Host) (config : InstallationConfig)
    (err : error) :
  (exists configJSON, container.json_Marshal h config = inl configJSON) ->
  container.started (container.dockerRun h) ->
  container.selected h = container.RecvWait ->
  container.Wait_err (container.dockerRun h) = Some err ->
  container.runContainer h config =
    Some (installError (container.processContainerError (container.time_Now h) err)).
Proof.
  intros [configJSON Hjson] (Hout & Herr & Hstart) Hsel Hwait.
  unfold container.runContainer.
  now rewrite Hjson, Hout, Herr, Hstart, Hsel, Hwait.
Qed.

(** C1. Every non-zero exit code of the container, reported without a
    structured error, is mapped into the taxonomy: 1 to
    configuration-invalid, 2 to system-requirements, 3 to
    container-runtime-install-failed, 4 to platform-setup-failed, and
    every other code to system-requirements with a message that
    contains the code in decimal.  The member and the message depend on
    the code alone, and the error so made is what [runContainer] returns
    when the exit of the container is what its [select] receives. *)
Theorem processContainerError_exit_code_table
    (now : Time) (exitCode : Z) (state : string) :
  exitCode <> 0 ->
  let e := container.processContainerError now (ExitError exitCode state) in
  In (Code e) taxonomy /\
  (exitCode = 1 -> Code e = ErrCodeConfigInvalid) /\
  (exitCode = 2 -> Code e = ErrCodeSystemRequirements) /\
  (exitCode = 3 -> Code e = ErrCodeDockerInstall) /\
  (exitCode = 4 -> Code e = ErrCodeSupabaseSetup) /\
  (exitCode <> 1 -> exitCode <> 2 -> exitCode <> 3 -> exitCode <> 4 ->
     Code e = ErrCodeSystemRequirements /\
     Message e = "container installation failed with exit code " ++ itoa exitCode /\
     Contains (Message e) (itoa exitCode) = true) /\
  (forall now' state',
     let e' := container.processContainerError now' (ExitError exitCode state') in
     Code e' = Code e /\ Message e' = Message e) /\
  (forall h config,
     (exists configJSON, container.json_Marshal h config = inl configJSON) ->
     container.started (container.dockerRun h) ->
     container.selected h = container.RecvWait ->
     container.Wait_err (container.dockerRun h) = Some (ExitError exitCode state) ->
     container.runContainer h config =
       Some (installError
               (container.processContainerError (container.time_Now h)
                  (ExitError exitCode state)))).
Proof.
  intros _ e. subst e.
  pose proof (fun h config =>
                runContainer_reports_exit h config (ExitError exitCode state)) as Hrun.
  destruct (Z.eq_dec exitCode 1) as [->|N1].
  { repeat split; intros; try congruence; try (cbn; tauto); now apply Hrun. }
  destruct (Z.eq_dec exitCode 2) as [->|N2].
  { repeat split; intros; try congruence; try (cbn; tauto); now apply Hrun. }
  destruct (Z.eq_dec exitCode 3) as [->|N3].
  { repeat split; intros; try congruence; try (cbn; tauto); now apply Hrun. }
  destruct (Z.eq_dec exitCode 4) as [->|N4].
  { repeat split; intros; try congruence; try (cbn; tauto); now apply Hrun. }
  split; [|do 4 (split; [intros; congruence|]); split; [|split; [|exact Hrun]]].
  - rewrite (processContainerError_default now exitCode state N1 N2 N3 N4).
    cbn. tauto.
  - intros _ _ _ _.
    rewrite (processContainerError_default now exitCode state N1 N2 N3 N4).
    split; [reflexivity|]. split; [reflexivity|].
    exact (Contains_append _ (itoa exitCode)).
  - intros now' state'. cbv zeta.
    now rewrite (processContainerError_default now exitCode state N1 N2 N3 N4),
      (processContainerError_default now' exitCode state' N1 N2 N3 N4).
Qed.

Lemma processContainerError_exit_code_table_witness :
  137 <> 0 /\
  Code (container.processContainerError 0 (ExitError 137 "exit status 137"))
    = ErrCodeSystemRequirements /\
  Message (container.processContainerError 0 (ExitError 137 "exit status 137"))
    = "container installation failed with exit code 137".
Proof.
  assert (H0 : 137 <> 0) by discriminate.
  split; [exact H0|].
  destruct (processContainerError_exit_code_table 0 137 "exit status 137" H0)
    as (_ & _ & _ & _ & _ & H & _ & _).
  destruct H as (Hc & Hm & _); try discriminate.
  split; [exact Hc | exact Hm].
Defined.

End ExitCodes.

(** ** The preflight validator *)
Section Preflight.
Import types.

(** C6. A measurement of zero never yields an insufficient-resource
    error: [validateRAM] and [validateDiskSpace] return no error on it.
    A measurement that is positive and below the minimum yields the
    insufficient-RAM, respectively insufficient-disk, error. *)
Theorem zero_measurement_is_exempt (now : Time) (metadata : HostMetadata) :
  (AvailableRAM metadata = 0 ->
     system.validateRAM now (AvailableRAM metadata) = None) /\
  (AvailableDisk metadata = 0 ->
     system.validateDiskSpace now (AvailableDisk metadata) = None) /\
  (0 < AvailableRAM metadata < constants.MinRAMBytes ->
     exists e, system.validateRAM now (AvailableRAM metadata) = Some e /\
               Code e = ErrCodeSystemRequirements /\
               Message e = "insufficient RAM") /\
  (0 < AvailableDisk metadata < constants.MinDiskBytes ->
     exists e, system.validateDiskSpace now (AvailableDisk metadata) = Some e /\
               Code e = ErrCodeSystemRequirements /\
               Message e = "insufficient disk space").
Proof.
  repeat split.
  - intros ->. reflexivity.
  - intros ->. reflexivity.
  - intros [Hpos Hlt]. unfold system.validateRAM.
    apply Z.gtb_lt in Hpos. apply Z.ltb_lt in Hlt.
    rewrite Hpos, Hlt. cbn [andb]. eexists. repeat split.
  - intros [Hpos Hlt]. unfold system.validateDiskSpace.
    apply Z.gtb_lt in Hpos. apply Z.ltb_lt in Hlt.
    rewrite Hpos, Hlt. cbn [andb]. eexists. repeat split.
Qed.

(** The scenario of the specification: the RAM measurement failed (zero)
    and 20 GB of disk are free; a host with 1 GB of RAM and 5 GB of disk
    is refused. *)
Lemma zero_measurement_is_exempt_witness :
  (system.validateRAM 0 (AvailableRAM scenarios.unmeasuredRAM) = None /\
   system.validateDiskSpace 0 (AvailableDisk scenarios.unmeasuredRAM) = None) /\
  (exists e, system.validateRAM 0 (AvailableRAM scenarios.smallHost) = Some e /\
             Code e = ErrCodeSystemRequirements /\ Message e = "insufficient RAM") /\
  (exists e, system.validateDiskSpace 0 (AvailableDisk scenarios.smallHost) = Some e /\
             Code e = ErrCodeSystemRequirements /\
             Message e = "insufficient disk space").
Proof.
  destruct (zero_measurement_is_exempt 0 scenarios.unmeasuredRAM) as (Hram & _ & _ & _).
  destruct (zero_measurement_is_exempt 0 scenarios.smallHost) as (_ & _ & Hlow & Hdisk).
  split; [split|split].
  - apply Hram. reflexivity.
  - reflexivity.
  - apply Hlow. split; reflexivity.
  - apply Hdisk. split; reflexivity.
Defined.

Section Ports.

Variable net_DialTimeout : string -> string -> bool.

(** Whether a connection to the port on the loopback address succeeds. *)
Let connects (port : Z) : bool :=
  net_DialTimeout "tcp" ("localhost:" ++ itoa port).

Lemma validatePorts_none (now : Time) (ports : list Z) :
  (forall port, In port ports -> connects port = false) ->
  system.validatePorts net_DialTimeout now ports = None.
Proof.
  induction ports as [|port rest IH]; intros Hfree; [reflexivity|].
  cbn [system.validatePorts]. unfold system.isPortAvailable.
  fold (connects port). rewrite (Hfree port (or_introl eq_refl)). cbn.
  apply IH. intros q Hq. apply Hfree. now right.
Qed.

Lemma validatePorts_first (now : Time) (ports : list Z) (port : Z) :
  In port ports -> connects port = true ->
  exists before q after,
    ports = (before ++ q :: after)%list /\
    (forall p, In p before -> connects p = false) /\
    connects q = true /\
    system.validatePorts net_DialTimeout now ports =
      Some (system.portConflictError now q).
Proof.
  induction ports as [|head rest IH]; intros Hin Hbusy; [destruct Hin|].
  destruct (connects head) eqn:Hhead.
  - exists [], head, rest. repeat split; [intros p []|assumption|].
    cbn [system.validatePorts]. unfold system.isPortAvailable.
    fold (connects head). now rewrite Hhead.
  - destruct Hin as [->|Hin]; [congruence|].
    destruct (IH Hin Hbusy) as (before & q & after & -> & Hfree & Hq & Hres).
    exists (head :: before), q, after. repeat split; [|assumption|].
    + intros p [<-|Hp]; [assumption|now apply Hfree].
    + cbn [system.validatePorts]. unfold system.isPortAvailable.
      fold (connects head). now rewrite Hhead.
Qed.

(** C7, as the code has it. When a connection to a required port on
    the loopback address succeeds, port validation returns an
    [InstallError] of the member system-requirements with the message
    "port conflict", about the first required port [q] that accepts a
    connection; its suggestions include the command that identifies
    the process using [q].  A port whose connection fails is taken as
    available and the next one is tried; when none connects,
    validation returns no error. *)
Theorem port_conflict_is_a_system_error (now : Time) :
  (forall port, In port constants.RequiredPorts -> connects port = true ->
     exists before q after e,
       constants.RequiredPorts = (before ++ q :: after)%list /\
       (forall p, In p before -> connects p = false) /\
       connects q = true /\
       system.validatePortAvailability net_DialTimeout now = Some e /\
       Code e = ErrCodeSystemRequirements /\
       Message e = "port conflict" /\
       Details e = "Port " ++ itoa q ++ " is already in use" /\
       Component (Context e) = "system" /\
       In ("Use 'sudo netstat -tlnp | grep :" ++ itoa q ++ "' to identify the process")
          (Suggestions e)) /\
  ((forall port, In port constants.RequiredPorts -> connects port = false) ->
     system.validatePortAvailability net_DialTimeout now = None).
Proof.
  split.
  - intros port Hin Hbusy.
    destruct (validatePorts_first now _ port Hin Hbusy)
      as (before & q & after & Hsplit & Hfree & Hq & Hres).
    exists before, q, after, (system.portConflictError now q).
    repeat split; try assumption. cbn. tauto.
  - apply validatePorts_none.
Qed.

End Ports.

Lemma port_conflict_is_a_system_error_witness :
  In 443 constants.RequiredPorts /\
  scenarios.dial443 "tcp" ("localhost:" ++ itoa 443) = true /\
  exists e, system.validatePortAvailability scenarios.dial443 0 = Some e /\
            Code e = ErrCodeSystemRequirements /\
            In "Use 'sudo netstat -tlnp | grep :443' to identify the process"
               (Suggestions e).
Proof.
  assert (Hin : In 443 constants.RequiredPorts) by (cbn; tauto).
  assert (Hbusy : scenarios.dial443 "tcp" ("localhost:" ++ itoa 443) = true)
    by reflexivity.
  split; [exact Hin|]. split; [exact Hbusy|].
  destruct (port_conflict_is_a_system_error scenarios.dial443 0) as [H _].
  destruct (H 443 Hin Hbusy) as (before & q & after & e & _ & _ & _ & He & Hc & _).
  exists e. split; [exact He|]. split; [exact Hc|].
  assert (Hv : system.validatePortAvailability scenarios.dial443 0
               = Some (system.portConflictError 0 443)) by reflexivity.
  rewrite Hv in He. injection He as <-. cbn. tauto.
Defined.

(** C7, as the specification states it, fails: with port 443 bound the
    error is of the member system-requirements, not port-conflict. *)
Lemma port_conflict_code_counterexample :
  scenarios.dial443 "tcp" ("localhost:" ++ itoa 443) = true /\
  exists e, system.validatePortAvailability scenarios.dial443 0 = Some e /\
            Code e = "SYSTEM_REQUIREMENTS" /\
            Code e <> ErrCodePortConflict.
Proof.
  split; [reflexivity|].
  exists (system.portConflictError 0 443).
  split; [reflexivity|]. split; [reflexivity|]. discriminate.
Qed.

End Preflight.

(** ** The structured signal protocol: the two stream loops *)
Section Signals.
Import types.

Variable json_Unmarshal_ProgressUpdate : string -> option ProgressUpdate.
Variable json_Unmarshal_InstallError : string -> option InstallError.

Let streamProgressOutput := container.streamProgressOutput json_Unmarshal_ProgressUpdate.
Let streamErrorOutput := container.streamErrorOutput json_Unmarshal_InstallError.
Let run :=
  container.run json_Unmarshal_ProgressUpdate json_Unmarshal_InstallError.

(** A goroutine that waits at a send on a full channel stays where it is. *)
Lemma streamErrorOutput_waits (st : container.Streams) (err : error) (ahead : list string) :
  container.stderrLoop st = container.Sending err ahead ->
  container.closed (container.errorChan st) = false ->
  (List.length (container.buffer (container.errorChan st))
     <? container.capacity (container.errorChan st))%nat = false ->
  streamErrorOutput st = container.Running st.
Proof.
  intros Hloop Hopen Hfull.
  unfold streamErrorOutput, container.streamErrorOutput. rewrite Hloop.
  unfold container.sendError, container.send. rewrite Hopen, Hfull.
  destruct st. cbn in Hloop. subst. reflexivity.
Qed.

Lemma run_waiting (n : nat) (st : container.Streams) (err : error) (ahead : list string) :
  container.stderrLoop st = container.Sending err ahead ->
  container.closed (container.errorChan st) = false ->
  (List.length (container.buffer (container.errorChan st))
     <? container.capacity (container.errorChan st))%nat = false ->
  run (repeat container.StreamErrorOutput n) st = container.Running st.
Proof.
  intros Hloop Hopen Hfull. induction n as [|n IH]; [reflexivity|].
  cbn [repeat]. unfold run in *. cbn [container.run container.step].
  fold streamErrorOutput. now rewrite (streamErrorOutput_waits st err ahead).
Qed.

(** C3. What the two stream goroutines do with a line they have read.  A
    line that does not decode is written to the log, at level info from
    standard output and at level error from standard error, and the
    goroutine goes on to the next line: it is never dropped and never
    ends the stream.  A line that decodes is sent on the channel, and is
    in its buffer when the channel is open and has room.  It is not
    always so.  When the [select] receives the exit of the container
    between the decoding of a line of standard output and its send, it
    has closed [progressChan] and the send panics: the line is neither
    handed to [handleProgressUpdates] nor logged.  And [errorChan] holds
    two values: with no receive, the goroutine of standard error waits
    for ever at the send of the third error it decodes, and reads no
    line after it. *)
Theorem decoded_line_is_lost_on_a_closed_channel :
  (* a line that does not decode *)
  (forall st line ahead,
     container.stdoutLoop st = container.Scanning (line :: ahead) ->
     json_Unmarshal_ProgressUpdate line = None ->
     exists st',
       streamProgressOutput st = container.Running st' /\
       container.log st' = (container.log st ++ [(container.InfoLevel, line)])%list /\
       container.stdoutLoop st' = container.Scanning ahead /\
       container.progressChan st' = container.progressChan st /\
       container.errorChan st' = container.errorChan st) /\
  (forall st line ahead,
     container.stderrLoop st = container.Scanning (line :: ahead) ->
     json_Unmarshal_InstallError line = None ->
     exists st',
       streamErrorOutput st = container.Running st' /\
       container.log st' = (container.log st ++ [(container.ErrorLevel, line)])%list /\
       container.stderrLoop st' = container.Scanning ahead /\
       container.progressChan st' = container.progressChan st /\
       container.errorChan st' = container.errorChan st) /\
  (* a line that decodes, on an open channel with room *)
  (forall st line ahead update,
     container.stdoutLoop st = container.Scanning (line :: ahead) ->
     json_Unmarshal_ProgressUpdate line = Some update ->
     container.closed (container.progressChan st) = false ->
     (List.length (container.buffer (container.progressChan st))
        < container.capacity (container.progressChan st))%nat ->
     exists st',
       run [container.StreamProgressOutput; container.StreamProgressOutput] st
         = container.Running st' /\
       container.buffer (container.progressChan st') =
         (container.buffer (container.progressChan st) ++ [update])%list /\
       container.stdoutLoop st' = container.Scanning ahead /\
       container.log st' = container.log st) /\
  (* a line that is decoded when the container exits *)
  (forall stdout stderr line ahead update,
     container.lines stdout = line :: ahead ->
     json_Unmarshal_ProgressUpdate line = Some update ->
     exists st,
       run [ container.StreamProgressOutput; container.Select container.WaitCase;
             container.StreamProgressOutput ]
         (container.start stdout stderr) = container.Crashed st /\
       container.received st = Some container.RecvWait /\
       container.stdoutLoop st = container.Sending update ahead /\
       container.handled st = [] /\
       container.buffer (container.progressChan st) = [] /\
       container.log st = []) /\
  (* three errors decoded from standard error, and no receive *)
  (forall stdout stderr line1 line2 line3 ahead e1 e2 e3 n,
     container.lines stderr = line1 :: line2 :: line3 :: ahead ->
     json_Unmarshal_InstallError line1 = Some e1 ->
     json_Unmarshal_InstallError line2 = Some e2 ->
     json_Unmarshal_InstallError line3 = Some e3 ->
     exists st,
       run (repeat container.StreamErrorOutput (5 + n)) (container.start stdout stderr)
         = container.Running st /\
       container.buffer (container.errorChan st) = [installError e1; installError e2] /\
       container.stderrLoop st = container.Sending (installError e3) ahead /\
       container.log st = []).
Proof.
  split; [|split; [|split; [|split]]].
  - intros st line ahead Hloop Hplain. eexists.
    unfold streamProgressOutput, container.streamProgressOutput.
    rewrite Hloop, Hplain. split; [reflexivity|]. now repeat split.
  - intros st line ahead Hloop Hplain. eexists.
    unfold streamErrorOutput, container.streamErrorOutput.
    rewrite Hloop, Hplain. split; [reflexivity|]. now repeat split.
  - intros st line ahead update Hloop Hdecoded Hopen Hroom.
    apply Nat.ltb_lt in Hroom. destruct st.
    cbn [container.stdoutLoop container.progressChan] in Hloop, Hopen, Hroom. subst.
    eexists. unfold run. cbn [container.run container.step].
    unfold container.streamProgressOutput at 1.
    cbn [container.stdoutLoop]. rewrite Hdecoded.
    unfold container.streamProgressOutput, container.withStdout.
    cbn [container.stdoutLoop]. unfold container.sendProgress, container.send.
    cbn [container.progressChan]. rewrite Hopen, Hroom.
    split; [reflexivity|]. now repeat split.
  - intros stdout stderr line ahead update Hlines Hdecoded. eexists.
    unfold run. cbn. rewrite Hlines, Hdecoded. cbn.
    split; [reflexivity|]. now repeat split.
  - intros stdout stderr line1 line2 line3 ahead e1 e2 e3 n Hlines H1 H2 H3.
    change (5 + n)%nat with (S (S (S (S (S n))))). cbn [repeat].
    unfold run. cbn. rewrite Hlines, H1. cbn. rewrite H2. cbn. rewrite H3. cbn.
    eexists. split.
    + apply (run_waiting n _ (installError e3) ahead); reflexivity.
    + now repeat split.
Qed.

End Signals.

(** ** The delegation runner *)
Section Delegation.
Import types.

Lemma ensureDataDirectory_ok (h : container.Host) :
  (forall path, In path container.workspace -> container.os_MkdirAll h path = None) ->
  container.ensureDataDirectory h = None.
Proof.
  intros Hmk. unfold container.ensureDataDirectory.
  rewrite (Hmk constants.DefaultInstallPath) by (cbn; tauto).
  cbn [container.mkSubdirs].
  repeat match goal with
  | |- context [container.os_MkdirAll h ?path] =>
      rewrite (Hmk path) by (cbn; tauto)
  end.
  reflexivity.
Qed.






End Delegation.

(** ** The phase pipeline executor *)
Section Executor.
Import types.

Variable World : Type.
Variable time_Now : World -> Time.

Lemma invoked_app (l1 l2 : list main.Event) :
  main.invoked (l1 ++ l2) = (main.invoked l1 ++ main.invoked l2)%list.
Proof.
  induction l1 as [|[update|phase|line] l1 IH]; cbn; now rewrite ?IH.
Qed.

Lemma emitted_app (l1 l2 : list main.Event) :
  main.emitted (l1 ++ l2) = (main.emitted l1 ++ main.emitted l2)%list.
Proof.
  induction l1 as [|[update|phase|line] l1 IH]; cbn; now rewrite ?IH.
Qed.

Lemma invoked_outputs (ls : list string) : main.invoked (map main.Output ls) = [].
Proof. induction ls; cbn; auto. Qed.

Lemma emitted_outputs (ls : list string) : main.emitted (map main.Output ls) = [].
Proof. induction ls; cbn; auto. Qed.

(** The loop over [before ++ rest], when every phase of [before] succeeds,
    continues with [rest] in the world that [before] left. *)
Lemma runPhases_app (before rest : list (main.phase World))
    (config : InstallationConfig) (w w1 : World) (events : list main.Event) :
  main.runPhases time_Now before config w = (events, w1, None) ->
  main.runPhases time_Now (before ++ rest) config w =
    let '(events', w', result) := main.runPhases time_Now rest config w1 in
    ((events ++ events')%list, w', result).
Proof.
  revert w events. induction before as [|p before IH]; intros w events Hrun.
  - cbn in Hrun. injection Hrun as <- <-. cbn [app].
    now destruct (main.runPhases time_Now rest config w) as [[events' w'] result].
  - cbn [app main.runPhases] in Hrun |- *.
    destruct (main.err (main.action p config w)) as [e|]; [discriminate|].
    destruct (main.runPhases time_Now before config (main.world (main.action p config w)))
      as [[events0 w0] result0] eqn:Hrest.
    injection Hrun as <- <- ->.
    rewrite (IH _ _ Hrest).
    destruct (main.runPhases time_Now rest config w0) as [[events' w'] result].
    cbn [app]. now rewrite <- !app_assoc.
Qed.

Lemma runPhases_invoked (ps : list (main.phase World)) (config : InstallationConfig)
    (w w' : World) (events : list main.Event) :
  main.runPhases time_Now ps config w = (events, w', None) ->
  main.invoked events = map main.name ps.
Proof.
  revert w events. induction ps as [|p ps IH]; intros w events Hrun.
  - cbn in Hrun. now injection Hrun as <- <-.
  - cbn [main.runPhases] in Hrun.
    destruct (main.err (main.action p config w)) as [e|]; [discriminate|].
    destruct (main.runPhases time_Now ps config (main.world (main.action p config w)))
      as [[events0 w0] result0] eqn:Hrest.
    injection Hrun as <- <- ->.
    cbn [main.invoked map]. rewrite invoked_app, invoked_outputs.
    cbn. f_equal. exact (IH _ _ Hrest).
Qed.

Lemma runPhases_all_succeed (ps : list (main.phase World)) (config : InstallationConfig)
    (w : World) :
  (forall q w', In q ps -> main.err (main.action q config w') = None) ->
  exists events w', main.runPhases time_Now ps config w = (events, w', None).
Proof.
  revert w. induction ps as [|p ps IH]; intros w Hok.
  - now exists [], w.
  - cbn [main.runPhases]. rewrite (Hok p w (or_introl eq_refl)).
    destruct (IH (main.world (main.action p config w))) as (events & w' & Hrun).
    { intros q w0 Hq. apply Hok. now right. }
    rewrite Hrun. eauto.
Qed.

Variable os_Getenv : World -> string -> string.
Variable json_Unmarshal : string -> InstallationConfig + error.
Variable validateContainerEnvironment : main.Action World.
Variable prepareInstallation : main.Action World.
Variable installSupabase : main.Action World.
Variable deployApplication : main.Action World.
Variable verifyInstallation : main.Action World.
Variable finalizeInstallation : main.Action World.

Let phases : list (main.phase World) :=
  main.phases validateContainerEnvironment prepareInstallation installSupabase
    deployApplication verifyInstallation finalizeInstallation.

Let runInstall : World -> list main.Event * World * option error :=
  main.runInstall time_Now os_Getenv json_Unmarshal
    validateContainerEnvironment prepareInstallation installSupabase
    deployApplication verifyInstallation finalizeInstallation.

(** Once the configuration is read, [runInstall] is the loop over the six
    phases. *)
Lemma runInstall_runs_phases (w : World) (config : InstallationConfig) :
  os_Getenv w "SUBOSITY_CONFIG" <> "" ->
  json_Unmarshal (os_Getenv w "SUBOSITY_CONFIG") = inl config ->
  runInstall w = main.runPhases time_Now phases config w.
Proof.
  intros Hset Hjson. unfold runInstall, main.runInstall.
  apply String.eqb_neq in Hset. now rewrite Hset, Hjson.
Qed.

(** C2. For every pipeline [before ++ p :: after] in which the phases of
    [before] succeed and the action of [p] returns an error [e], the loop
    of [runInstall] stops at [p]: the actions called are those of [before]
    and of [p] and no other, nothing happens after the failing action (the
    last events are its own output, and the world is as it left it), and
    the error returned wraps [e] under the name of [p].  When every action
    succeeds the loop calls them all, in order, and returns no error.
    [runInstall] is this loop on its six phases. *)
Theorem first_failure_aborts_the_pipeline
    (before after : list (main.phase World)) (p : main.phase World)
    (config : InstallationConfig) (w w1 : World) (events : list main.Event) (e : error) :
  main.runPhases time_Now before config w = (events, w1, None) ->
  main.err (main.action p config w1) = Some e ->
  let out := main.action p config w1 in
  let stopped :=
    (events ++ main.Emit (main.startUpdate time_Now p w1) :: main.Invoke (main.name p)
       :: map main.Output (main.printed out))%list in
  main.runPhases time_Now (before ++ p :: after) config w =
    (stopped, main.world out,
     Some (wrapError ("phase " ++ main.name p ++ " failed: ") e)) /\
  main.invoked stopped = (map main.name before ++ [main.name p])%list /\
  (forall ps w0,
     (forall q w', In q ps -> main.err (main.action q config w') = None) ->
     exists events' w',
       main.runPhases time_Now ps config w0 = (events', w', None) /\
       main.invoked events' = map main.name ps) /\
  (forall w0, os_Getenv w0 "SUBOSITY_CONFIG" <> "" ->
     json_Unmarshal (os_Getenv w0 "SUBOSITY_CONFIG") = inl config ->
     runInstall w0 = main.runPhases time_Now phases config w0).
Proof.
  intros Hbefore Hfail out stopped. subst out stopped.
  split; [|split; [|split]].
  - rewrite (runPhases_app before (p :: after) config w w1 events Hbefore).
    cbn [main.runPhases]. now rewrite Hfail.
  - rewrite invoked_app. rewrite (runPhases_invoked before config w w1 events Hbefore).
    cbn [main.invoked]. now rewrite invoked_outputs.
  - intros ps w0 Hok.
    destruct (runPhases_all_succeed ps config w0 Hok) as (events' & w' & Hrun).
    exists events', w'. split; [exact Hrun|].
    exact (runPhases_invoked ps config w0 w' events' Hrun).
  - intros w0. apply runInstall_runs_phases.
Qed.

End Executor.

(** Phase 3 of 6 fails: phases 4 to 6 never run and the error names
    phase 3. *)
Lemma first_failure_aborts_the_pipeline_witness :
  snd (scenarios.thirdBreaks 0) =
    Some (types.wrapError "phase supabase failed: "
            (types.errorString "failed to install Supabase CLI: exit status 1")) /\
  main.invoked (fst (fst (scenarios.thirdBreaks 0))) =
    ["validation"; "preparation"; "supabase"].
Proof.
  pose (ps := main.phases scenarios.works scenarios.works scenarios.supabaseBreaks
                scenarios.works scenarios.works scenarios.works).
  pose (p := nth 2 ps (main.mkPhase "" 0%float scenarios.works)).
  destruct (first_failure_aborts_the_pipeline Z (fun w => w)
              scenarios.getenv scenarios.unmarshal
              scenarios.works scenarios.works scenarios.supabaseBreaks
              scenarios.works scenarios.works scenarios.works
              (firstn 2 ps) (skipn 3 ps) p scenarios.devConfig 0 2
              (fst (fst (main.runPhases (fun w => w) (firstn 2 ps) scenarios.devConfig 0)))
              (types.errorString "failed to install Supabase CLI: exit status 1")
              eq_refl eq_refl)
    as (Hrun & Hinvoked & _ & _).
  split; [exact (f_equal snd Hrun)|exact Hinvoked].
Defined.

(** ** Progress values *)

Lemma ForallOrdPairs_app_l {A : Type} (R : A -> A -> Prop) (l s : list A) :
  ForallOrdPairs R (l ++ s) -> ForallOrdPairs R l.
Proof.
  induction l as [|a l IH]; intros H; [constructor|].
  inversion H as [|a' l' Ha Hl]; subst. constructor.
  - apply Forall_app in Ha. tauto.
  - now apply IH.
Qed.

Lemma ForallOrdPairs_map {A B : Type} (f : A -> B) (R : B -> B -> Prop) (l : list A) :
  ForallOrdPairs R (map f l) -> ForallOrdPairs (fun x y => R (f x) (f y)) l.
Proof.
  induction l as [|a l IH]; intros H; [constructor|].
  inversion H as [|a' l' Ha Hl]; subst. constructor.
  - rewrite Forall_map in Ha. exact Ha.
  - now apply IH.
Qed.

Lemma ForallOrdPairs_nth {A : Type} (R : A -> A -> Prop) (l : list A) :
  ForallOrdPairs R l ->
  forall i j x y, (i < j)%nat ->
    nth_error l i = Some x -> nth_error l j = Some y -> R x y.
Proof.
  induction 1 as [|a l Ha Hl IH]; intros i j x y Hij Hi Hj.
  - destruct i; discriminate.
  - destruct j as [|j]; [lia|]. destruct i as [|i].
    + cbn in Hi, Hj. injection Hi as <-.
      rewrite Forall_forall in Ha. apply Ha. eapply nth_error_In; eassumption.
    + cbn in Hi, Hj. eapply IH; [|eassumption|eassumption]. lia.
Qed.

Section ProgressValues.
Import types.

Variable World : Type.
Variable time_Now : World -> Time.

(** The updates of any run of the loop carry a prefix of the schedule. *)
Lemma emitted_schedule (ps : list (main.phase World)) (config : InstallationConfig)
    (w : World) :
  exists suffix,
    main.schedule ps =
      (map main.stamp (main.emitted (fst (fst (main.runPhases time_Now ps config w))))
         ++ suffix)%list.
Proof.
  revert w. induction ps as [|p ps IH]; intros w.
  - now exists [].
  - cbn [main.runPhases].
    destruct (main.err (main.action p config w)) as [e|].
    + exists ((main.name p, main.progress p) :: main.schedule ps).
      cbn. now rewrite emitted_outputs.
    + destruct (IH (main.world (main.action p config w))) as [suffix Hs].
      destruct (main.runPhases time_Now ps config (main.world (main.action p config w)))
        as [[events w'] result].
      exists suffix. cbn in Hs |- *.
      rewrite emitted_app, emitted_outputs. cbn.
      unfold main.schedule in Hs. now rewrite Hs.
Qed.

Variable os_Getenv : World -> string -> string.
Variable json_Unmarshal : string -> InstallationConfig + error.
Variable validateContainerEnvironment : main.Action World.
Variable prepareInstallation : main.Action World.
Variable installSupabase : main.Action World.
Variable deployApplication : main.Action World.
Variable verifyInstallation : main.Action World.
Variable finalizeInstallation : main.Action World.

Let phases : list (main.phase World) :=
  main.phases validateContainerEnvironment prepareInstallation installSupabase
    deployApplication verifyInstallation finalizeInstallation.

Let runInstall : World -> list main.Event * World * option error :=
  main.runInstall time_Now os_Getenv json_Unmarshal
    validateContainerEnvironment prepareInstallation installSupabase
    deployApplication verifyInstallation finalizeInstallation.

Lemma schedule_nondecreasing :
  ForallOrdPairs (fun a b => PrimFloat.leb (snd a) (snd b) = true) (main.schedule phases).
Proof. repeat constructor. Qed.

Lemma schedule_complete :
  Forall (fun a => PrimFloat.eqb (snd a) 1 = true -> fst a = "complete")
         (main.schedule phases).
Proof. repeat constructor; cbn; intros H; try discriminate H. Qed.

(** The updates of [runInstall] carry a prefix of the schedule of the six
    phases. *)
Lemma runInstall_schedule (w : World) :
  exists suffix,
    main.schedule phases =
      (map main.stamp (main.emitted (fst (fst (runInstall w)))) ++ suffix)%list.
Proof.
  unfold runInstall, main.runInstall.
  destruct (String.eqb (os_Getenv w "SUBOSITY_CONFIG") "");
    [now exists (main.schedule phases)|].
  destruct (json_Unmarshal (os_Getenv w "SUBOSITY_CONFIG")) as [config|e];
    [|now exists (main.schedule phases)].
  apply emitted_schedule.
Qed.

(** C4. In every run of [runInstall], of two progress updates the one
    emitted earlier has a progress value less than or equal to that of the
    later one, and an update whose progress value is 1.0 is an update of
    the phase "complete". *)
Theorem progress_is_nondecreasing (w : World) :
  let updates := main.emitted (fst (fst (runInstall w))) in
  (forall i j u v, (i < j)%nat ->
     nth_error updates i = Some u -> nth_error updates j = Some v ->
     PrimFloat.leb (Progress u) (Progress v) = true) /\
  (forall u, In u updates ->
     PrimFloat.eqb (Progress u) 1 = true -> Phase u = "complete").
Proof.
  cbv zeta. destruct (runInstall_schedule w) as [suffix Hs]. split.
  - pose proof schedule_nondecreasing as Hord. rewrite Hs in Hord.
    apply ForallOrdPairs_app_l, ForallOrdPairs_map in Hord.
    intros i j u v Hij Hi Hj.
    exact (ForallOrdPairs_nth _ _ Hord i j u v Hij Hi Hj).
  - pose proof schedule_complete as Hall. rewrite Hs in Hall.
    apply Forall_app in Hall. destruct Hall as [Hall _].
    rewrite Forall_map, Forall_forall in Hall.
    intros u Hu. exact (Hall u Hu).
Qed.

End ProgressValues.

(** ** The two updates of a phase *)
Section PhaseUpdates.
Import types.

Variable World : Type.
Variable time_Now : World -> Time.

(** C5, as the code has it. For every phase [p] that the loop reaches, it
    emits one update before the action runs, with the progress value of
    [p] and the message "Starting <name> phase...", and, when the action
    succeeds, a second and last one, with the same progress value (and
    time stamp) and the message "Completed <name> phase".  When the action
    fails the first update is the only one of the phase and nothing
    follows. *)
Theorem each_phase_reports_start_and_completion
    (before after : list (main.phase World)) (p : main.phase World)
    (config : InstallationConfig) (w w1 : World) (events : list main.Event) :
  main.runPhases time_Now before config w = (events, w1, None) ->
  let out := main.action p config w1 in
  let start := main.startUpdate time_Now p w1 in
  let done := main.completedUpdate start p in
  (Phase start = main.name p /\
   Progress start = main.progress p /\
   PMessage start = "Starting " ++ main.name p ++ " phase...") /\
  (Phase done = main.name p /\
   Progress done = Progress start /\
   PTimestamp done = PTimestamp start /\
   PMessage done = "Completed " ++ main.name p ++ " phase") /\
  exists iteration rest,
    fst (fst (main.runPhases time_Now (before ++ p :: after) config w)) =
      (events ++ iteration ++ rest)%list /\
    match main.err out with
    | None =>
        iteration =
          (main.Emit start :: main.Invoke (main.name p)
             :: map main.Output (main.printed out) ++ [main.Emit done])%list /\
        main.emitted iteration = [start; done] /\
        rest = fst (fst (main.runPhases time_Now after config (main.world out)))
    | Some _ =>
        iteration =
          (main.Emit start :: main.Invoke (main.name p)
             :: map main.Output (main.printed out))%list /\
        main.emitted iteration = [start] /\
        rest = []
    end.
Proof.
  intros Hbefore out start done. subst out start done.
  split; [repeat split|]. split; [repeat split|].
  rewrite (runPhases_app World time_Now before (p :: after) config w w1 events Hbefore).
  cbn [main.runPhases].
  destruct (main.err (main.action p config w1)) as [e|].
  - eexists _, []. split; [cbn [fst]; now rewrite app_nil_r|].
    split; [reflexivity|]. split; [|reflexivity].
    cbn [main.emitted]. now rewrite emitted_outputs.
  - destruct (main.runPhases time_Now after config (main.world (main.action p config w1)))
      as [[events' w'] result].
    eexists _, events'. split; [|split; [reflexivity|split; [|reflexivity]]].
    + cbn [fst]. f_equal. cbn [app]. now rewrite <- app_assoc.
    + cbn [main.emitted]. now rewrite emitted_app, emitted_outputs.
Qed.

End PhaseUpdates.

(** The updates of the first phase in a run in which every phase succeeds. *)
Lemma each_phase_reports_start_and_completion_witness :
  exists start done rest,
    main.emitted (fst (fst (scenarios.allWork 0))) = start :: done :: rest /\
    types.PMessage start = "Starting validation phase..." /\
    types.PMessage done = "Completed validation phase" /\
    types.Progress done = types.Progress start.
Proof.
  pose (ps := main.phases scenarios.works scenarios.works scenarios.works
                scenarios.works scenarios.works scenarios.works).
  pose (p := nth 0 ps (main.mkPhase "" 0%float scenarios.works)).
  destruct (each_phase_reports_start_and_completion Z (fun w => w)
              [] (skipn 1 ps) p scenarios.devConfig 0 0 [] eq_refl)
    as ((_ & _ & Hstart) & (_ & Hprogress & _ & Hdone) & iteration & rest & Hrun & Hit).
  cbn [main.err main.action p ps nth main.phases scenarios.works] in Hit.
  destruct Hit as (-> & _ & ->).
  eexists _, _, _. split; [|split; [exact Hstart|split; [exact Hdone|exact Hprogress]]].
  reflexivity.
Defined.

(** C5, as the specification states it, fails: the update that reports the
    completion of a phase does not carry a strictly larger progress value
    than the one that reports its start. *)
Lemma completion_progress_is_not_larger :
  exists start done rest,
    main.emitted (fst (fst (scenarios.allWork 0))) = start :: done :: rest /\
    types.Phase start = "validation" /\
    types.PMessage start = "Starting validation phase..." /\
    types.Phase done = "validation" /\
    types.PMessage done = "Completed validation phase" /\
    PrimFloat.ltb (types.Progress start) (types.Progress done) = false /\
    types.Progress start = types.Progress done.
Proof.
  eexists _, _, _. split; [reflexivity|]. repeat split.
Qed.

(** ** Validation of the configuration *)
Section ConfigValidation.
Import types.

Variable strings_ToLower : string -> string.
Variable strings_TrimSpace : string -> string.
Variable mail_ParseAddress : string -> bool.

Let validateDomain := config.validateDomain strings_ToLower strings_TrimSpace.
Let validateSSLConfig := config.validateSSLConfig mail_ParseAddress.
Let ValidateConfig :=
  config.ValidateConfig strings_ToLower strings_TrimSpace mail_ParseAddress.

(** Every error of [validateDomain] is of the member configuration-invalid. *)
Lemma validateDomain_code (now : Time) (domain : string) (e : InstallError) :
  validateDomain now domain = Some e -> Code e = ErrCodeConfigInvalid.
Proof.
  unfold validateDomain, config.validateDomain.
  repeat match goal with
  | |- context [if ?b then _ else _] => destruct b
  end; intros H; try discriminate H; now injection H as <-.
Qed.

(** C10. For a configuration of the environment "prod" with an empty email,
    [ValidateConfig] returns an [InstallError] of the member
    configuration-invalid; with a domain that passes [validateDomain] it
    is the error "email is required for production environment".  A
    configuration of the environment "dev" or "staging" with an empty
    email that is valid otherwise (its domain and its SSL configuration
    pass) passes validation. *)
Theorem production_requires_email (now : Time) (c : InstallationConfig) :
  Email c = "" ->
  (Environment_ c = EnvironmentProduction ->
     exists e, ValidateConfig now (Some c) = Some e /\
               Code e = ErrCodeConfigInvalid /\
               (validateDomain now (Domain c) = None ->
                  Message e = "email is required for production environment" /\
                  Details e = "email is needed for SSL certificate generation")) /\
  (Environment_ c = EnvironmentDevelopment \/ Environment_ c = EnvironmentStaging ->
     validateDomain now (Domain c) = None ->
     validateSSLConfig now (Some (SSL c)) = None ->
     ValidateConfig now (Some c) = None).
Proof.
  intros Hemail. split.
  - intros Henv. unfold ValidateConfig, config.ValidateConfig.
    rewrite Henv, Hemail. cbn [config.validateEnvironment].
    change (config.validateDomain strings_ToLower strings_TrimSpace)
      with validateDomain.
    destruct (validateDomain now (Domain c)) as [e|] eqn:Hdomain.
    + exists e. split; [reflexivity|]. split; [|discriminate].
      exact (validateDomain_code now (Domain c) e Hdomain).
    + eexists. split; [reflexivity|]. repeat split.
  - intros Henv Hdomain Hssl. unfold ValidateConfig, config.ValidateConfig.
    fold validateDomain. fold validateSSLConfig.
    rewrite Hdomain, Hemail, Hssl.
    destruct Henv as [-> | ->]; reflexivity.
Qed.

End ConfigValidation.

Lemma production_requires_email_witness :
  (exists e,
     config.ValidateConfig scenarios.toLower scenarios.trimSpace scenarios.parseAddress
       0 (Some scenarios.prodConfig) = Some e /\
     types.Code e = types.ErrCodeConfigInvalid /\
     types.Message e = "email is required for production environment") /\
  config.ValidateConfig scenarios.toLower scenarios.trimSpace scenarios.parseAddress
    0 (Some scenarios.devConfig) = None /\
  config.ValidateConfig scenarios.toLower scenarios.trimSpace scenarios.parseAddress
    0 (Some scenarios.stagingConfig) = None.
Proof.
  pose proof (production_requires_email scenarios.toLower scenarios.trimSpace
                scenarios.parseAddress 0 scenarios.prodConfig eq_refl) as [Hprod _].
  pose proof (production_requires_email scenarios.toLower scenarios.trimSpace
                scenarios.parseAddress 0 scenarios.devConfig eq_refl) as [_ Hdev].
  pose proof (production_requires_email scenarios.toLower scenarios.trimSpace
                scenarios.parseAddress 0 scenarios.stagingConfig eq_refl) as [_ Hstaging].
  split; [|split].
  - destruct (Hprod eq_refl) as (e & He & Hcode & Hmsg).
    exists e. split; [exact He|]. split; [exact Hcode|].
    apply Hmsg. vm_compute. reflexivity.
  - apply Hdev; [left; reflexivity| |]; vm_compute; reflexivity.
  - apply Hstaging; [right; reflexivity| |]; vm_compute; reflexivity.
Defined.

(** ** The configuration across the delegation boundary *)
Section RoundTrip.
Import types.

Variable toValidUTF8 : string -> string.
Variable foldEqual : string -> string -> bool.
Variable Time_MarshalJSON : Time -> option json.Value.
Variable Time_UnmarshalJSON : json.Value -> Time -> option Time.

Let Marshal := json.Marshal toValidUTF8 Time_MarshalJSON.
Let Unmarshal := json.Unmarshal foldEqual Time_UnmarshalJSON.
Let decodeSSLConfig := json.decodeSSLConfig foldEqual.


Let decodeConfigMember := json.decodeConfigMember foldEqual Time_UnmarshalJSON.








End RoundTrip.

(** *** Strings that are valid UTF-8 *)
Section ValidStrings.



End ValidStrings.

Section Documents.
Import types.

Variable foldEqual : string -> string -> bool.
Variable Time_MarshalJSON : Time -> option json.Value.
Variable Time_UnmarshalJSON : json.Value -> Time -> option Time.


End Documents.




(** * Further properties of the code *)

(** ** Package config *)
Section ConfigErrors.
Import types.

Variable strings_ToLower : string -> string.
Variable strings_TrimSpace : string -> string.
Variable mail_ParseAddress : string -> bool.
Variable url_Parse : string -> string + error.

Let validateDomain := config.validateDomain strings_ToLower strings_TrimSpace.
Let validateEmail := config.validateEmail mail_ParseAddress.
Let validateSSLConfig := config.validateSSLConfig mail_ParseAddress.
Let ValidateConfig :=
  config.ValidateConfig strings_ToLower strings_TrimSpace mail_ParseAddress.
Let SanitizeAndValidateDomain :=
  config.SanitizeAndValidateDomain strings_ToLower strings_TrimSpace url_Parse.

(** The error was built by [NewConfigError] at the time [now]. *)
Let configError (now : Time) (e : InstallError) : Prop :=
  exists message details, e = errors.NewConfigError now message details.

Lemma validateEnvironment_configError (now : Time) (env : Environment) (e : InstallError) :
  config.validateEnvironment now env = Some e -> configError now e.
Proof.
  unfold config.validateEnvironment.
  destruct (_ || _); intros H; [discriminate|].
  injection H as <-. now eexists _, _.
Qed.

Lemma validateDomain_configError (now : Time) (domain : string) (e : InstallError) :
  validateDomain now domain = Some e -> configError now e.
Proof.
  unfold validateDomain, config.validateDomain.
  repeat match goal with
  | |- context [if ?b then _ else _] => destruct b
  end; intros H; try discriminate H; injection H as <-; now eexists _, _.
Qed.

Lemma validateEmail_configError (now : Time) (email : string) (e : InstallError) :
  validateEmail now email = Some e -> configError now e.
Proof.
  unfold validateEmail, config.validateEmail.
  repeat match goal with
  | |- context [if ?b then _ else _] => destruct b
  end; intros H; try discriminate H; injection H as <-; now eexists _, _.
Qed.

Lemma validateSSLConfig_configError (now : Time) (ssl : option SSLConfig)
    (e : InstallError) :
  validateSSLConfig now ssl = Some e -> configError now e.
Proof.
  unfold validateSSLConfig, config.validateSSLConfig.
  destruct ssl as [ssl|]; [|discriminate].
  destruct (String.eqb (Provider ssl) SSLProviderLetsEncrypt).
  { destruct (String.eqb (SSLEmail ssl) "").
    - intros H. injection H as <-. now eexists _, _.
    - apply validateEmail_configError. }
  repeat match goal with
  | |- context [if ?b then _ else _] => destruct b
  end; intros H; try discriminate H; injection H as <-; now eexists _, _.
Qed.

Lemma ValidateConfig_configError (now : Time) (c : option InstallationConfig)
    (e : InstallError) :
  ValidateConfig now c = Some e -> configError now e.
Proof.
  unfold ValidateConfig, config.ValidateConfig.
  destruct c as [c|]; [|intros H; injection H as <-; now eexists _, _].
  destruct (config.validateEnvironment now (Environment_ c)) as [e0|] eqn:Henv.
  { intros H. injection H as <-. exact (validateEnvironment_configError _ _ _ Henv). }
  fold validateDomain.
  destruct (validateDomain now (Domain c)) as [e0|] eqn:Hdom.
  { intros H. injection H as <-. exact (validateDomain_configError _ _ _ Hdom). }
  destruct (negb (String.eqb (Email c) "")).
  - fold validateEmail.
    destruct (validateEmail now (Email c)) as [e0|] eqn:Hmail.
    + intros H. injection H as <-. exact (validateEmail_configError _ _ _ Hmail).
    + apply validateSSLConfig_configError.
  - destruct (String.eqb (Environment_ c) EnvironmentProduction).
    + intros H. injection H as <-. now eexists _, _.
    + apply validateSSLConfig_configError.
Qed.

(** Whatever [ValidateConfig] refuses, and for whatever reason (a nil
    configuration, the environment, the domain, the email, the SSL
    configuration), the error it returns is of the member
    configuration-invalid, names the component "config" and the operation
    "validation", carries the three suggestions of [NewConfigError] and no
    cause. *)
Theorem ValidateConfig_errors_are_config_invalid
    (now : Time) (c : option InstallationConfig) (e : InstallError) :
  ValidateConfig now c = Some e ->
  Code e = ErrCodeConfigInvalid /\
  Component (Context e) = "config" /\
  Operation (Context e) = "validation" /\
  Suggestions e =
    [ "Check configuration file syntax";
      "Verify all required fields are present";
      "Validate field formats (email, domain, etc.)" ] /\
  Cause e = None /\
  Timestamp e = now.
Proof.
  intros H. destruct (ValidateConfig_configError now c e H) as (message & details & ->).
  repeat split.
Qed.

End ConfigErrors.

Lemma ValidateConfig_errors_are_config_invalid_witness :
  exists e,
    config.ValidateConfig scenarios.toLower scenarios.trimSpace scenarios.parseAddress
      0 None = Some e /\
    types.Code e = types.ErrCodeConfigInvalid /\
    types.Component (types.Context e) = "config".
Proof.
  eexists. split; [reflexivity|].
  destruct (ValidateConfig_errors_are_config_invalid
              scenarios.toLower scenarios.trimSpace scenarios.parseAddress
              0 None _ eq_refl) as (Hcode & Hcomponent & _).
  split; [exact Hcode|exact Hcomponent].
Defined.

(** ** The regular expression of domain names *)
Section DomainRegex.

Lemma mentions_mkConcat (c : ascii) (r1 r2 : regexp.Regexp) :
  regexp.mentions c (regexp.mkConcat r1 r2) = true ->
  regexp.mentions c r1 || regexp.mentions c r2 = true.
Proof.
  destruct r1, r2; cbn; intros H; try discriminate H; try exact H;
    rewrite ?orb_false_r in *; auto.
Qed.

Lemma mentions_mkAlternate (c : ascii) (r1 r2 : regexp.Regexp) :
  regexp.mentions c (regexp.mkAlternate r1 r2) = true ->
  regexp.mentions c r1 || regexp.mentions c r2 = true.
Proof.
  destruct r1, r2; cbn; intros H; try discriminate H; try exact H;
    rewrite ?orb_false_r in *; auto.
Qed.

(** A derivative holds no class that the expression does not hold. *)
Lemma mentions_deriv (c d : ascii) (r : regexp.Regexp) :
  regexp.mentions c (regexp.deriv d r) = true -> regexp.mentions c r = true.
Proof.
  induction r as [| |class|r1 IH1 r2 IH2|r1 IH1 r2 IH2|r1 IH1]; cbn [regexp.deriv].
  - discriminate.
  - discriminate.
  - destruct (class d); discriminate.
  - intros H. apply mentions_mkAlternate in H. cbn [regexp.mentions].
    apply orb_true_iff in H. destruct H as [H|H].
    + apply mentions_mkConcat in H. apply orb_true_iff in H. destruct H as [H|H].
      * rewrite (IH1 H). reflexivity.
      * rewrite H. apply orb_true_r.
    + destruct (regexp.nullable r1); [|discriminate H].
      rewrite (IH2 H). apply orb_true_r.
  - intros H. apply mentions_mkAlternate in H. cbn [regexp.mentions].
    apply orb_true_iff in H. destruct H as [H|H].
    + rewrite (IH1 H). reflexivity.
    + rewrite (IH2 H). apply orb_true_r.
  - intros H. apply mentions_mkConcat in H. cbn [regexp.mentions] in *.
    apply orb_true_iff in H. destruct H as [H|H]; auto.
Qed.

(** The derivative by a byte that no class holds matches nothing. *)
Lemma deriv_unmentioned (c : ascii) (r : regexp.Regexp) :
  regexp.mentions c r = false -> regexp.deriv c r = regexp.NoMatch.
Proof.
  induction r as [| |class|r1 IH1 r2 IH2|r1 IH1 r2 IH2|r1 IH1];
    cbn [regexp.deriv regexp.mentions]; intros H.
  - reflexivity.
  - reflexivity.
  - now rewrite H.
  - apply orb_false_iff in H. destruct H as [H1 H2].
    rewrite (IH1 H1), (IH2 H2). now destruct (regexp.nullable r1).
  - apply orb_false_iff in H. destruct H as [H1 H2].
    now rewrite (IH1 H1), (IH2 H2).
  - now rewrite (IH1 H).
Qed.

Lemma MatchString_NoMatch (s : string) :
  regexp.MatchString regexp.NoMatch s = false.
Proof. induction s; cbn; auto. Qed.

(** Every byte of a matched string is held by a class of the expression. *)
Lemma MatchString_mentions (r : regexp.Regexp) (s : string) :
  regexp.MatchString r s = true ->
  forall c, In c (list_ascii_of_string s) -> regexp.mentions c r = true.
Proof.
  revert r. induction s as [|d s IH]; intros r Hmatch c Hin; [destruct Hin|].
  cbn [regexp.MatchString] in Hmatch. cbn [list_ascii_of_string] in Hin.
  assert (Hd : regexp.mentions d r = true).
  { destruct (regexp.mentions d r) eqn:Hm; [reflexivity|].
    rewrite (deriv_unmentioned d r Hm), MatchString_NoMatch in Hmatch.
    discriminate Hmatch. }
  destruct Hin as [<-|Hin]; [exact Hd|].
  exact (mentions_deriv c d r (IH _ Hmatch c Hin)).
Qed.

Lemma mentions_Repeat0 (c : ascii) (r : regexp.Regexp) (n : nat) :
  regexp.mentions c (regexp.Repeat0 r n) = true -> regexp.mentions c r = true.
Proof.
  induction n as [|n IH]; cbn; [discriminate|].
  intros H. apply orb_true_iff in H. destruct H as [H|H]; auto.
Qed.

Lemma mentions_label (c : ascii) :
  regexp.mentions c config.label = true -> config.alnumHyphen c = true.
Proof.
  unfold config.label, regexp.Quest. cbn [regexp.mentions orb].
  unfold config.alnumHyphen.
  intros H. apply orb_true_iff in H. destruct H as [H|H]; [now rewrite H|].
  apply orb_true_iff in H. destruct H as [H|H]; [|now rewrite H].
  apply mentions_Repeat0 in H. exact H.
Qed.

Lemma mentions_domainRegex (c : ascii) :
  regexp.mentions c config.domainRegex = true ->
  config.alnumHyphen c = true \/ c = "."%char.
Proof.
  unfold config.domainRegex. cbn [regexp.mentions].
  intros H. apply orb_true_iff in H. destruct H as [H|H].
  - left. now apply mentions_label.
  - apply orb_true_iff in H. destruct H as [H|H].
    + right. now apply Ascii.eqb_eq.
    + left. now apply mentions_label.
Qed.

(** A string that [domainRegex] matches starts with a letter or a digit. *)
Lemma domainRegex_first (s : string) :
  regexp.MatchString config.domainRegex s = true ->
  exists c s', s = String c s' /\ config.alnum c = true.
Proof.
  destruct s as [|c s']; [discriminate|].
  intros H. exists c, s'. split; [reflexivity|].
  destruct (config.alnum c) eqn:Hc; [reflexivity|].
  cbn [regexp.MatchString] in H.
  assert (Hd : regexp.deriv c config.domainRegex = regexp.NoMatch).
  { unfold config.domainRegex, config.label.
    cbn [regexp.deriv regexp.nullable andb]. now rewrite Hc. }
  now rewrite Hd, MatchString_NoMatch in H.
Qed.

End DomainRegex.

(** ** Domains, defaults and the configuration built from the flags *)
Section Domains.
Import types.

Variable strings_ToLower : string -> string.
Variable strings_TrimSpace : string -> string.
Variable mail_ParseAddress : string -> bool.
Variable url_Parse : string -> string + error.

Let validateDomain := config.validateDomain strings_ToLower strings_TrimSpace.
Let validateSSLConfig := config.validateSSLConfig mail_ParseAddress.
Let ValidateConfig :=
  config.ValidateConfig strings_ToLower strings_TrimSpace mail_ParseAddress.
Let SanitizeAndValidateDomain :=
  config.SanitizeAndValidateDomain strings_ToLower strings_TrimSpace url_Parse.
Let buildConfiguration :=
  cmd.buildConfiguration strings_ToLower strings_TrimSpace mail_ParseAddress url_Parse.

(** A domain that [validateDomain] accepts is not empty and, once
    lower-cased and trimmed, is "localhost", or ends in ".local", or is
    made of letters, digits, hyphens and dots only, starts with a letter
    or a digit and is at most 253 bytes long. *)
Theorem validateDomain_accepts_only (now : Time) (domain : string) :
  validateDomain now domain = None ->
  let cleaned := strings_TrimSpace (strings_ToLower domain) in
  domain <> "" /\
  (cleaned = "localhost" \/
   config.HasSuffix cleaned ".local" = true \/
   ((forall c, In c (list_ascii_of_string cleaned) ->
       config.alnumHyphen c = true \/ c = "."%char) /\
    (exists c rest, cleaned = String c rest /\ config.alnum c = true) /\
    (String.length cleaned <= 253)%nat)).
Proof.
  unfold validateDomain, config.validateDomain. cbv zeta.
  destruct (String.eqb_spec domain ""); [discriminate|].
  intros H. split; [assumption|].
  destruct (String.eqb_spec (strings_TrimSpace (strings_ToLower domain)) "localhost");
    [now left|].
  destruct (config.HasSuffix (strings_TrimSpace (strings_ToLower domain)) ".local");
    [now right; left|].
  cbn [orb] in H. right. right.
  destruct (regexp.MatchString config.domainRegex
              (strings_TrimSpace (strings_ToLower domain))) eqn:Hmatch;
    [|discriminate H].
  cbn [negb] in H.
  destruct (Nat.ltb_spec 253 (String.length (strings_TrimSpace (strings_ToLower domain))));
    [discriminate H|].
  split; [|split].
  - intros c Hc. apply mentions_domainRegex.
    exact (MatchString_mentions _ _ Hmatch c Hc).
  - exact (domainRegex_first _ Hmatch).
  - assumption.
Qed.

(** [ApplyDefaults] may be applied again without effect.  It never changes
    the environment, the email, the time stamp, the version or the SSL
    email, certificate and key; it keeps an SSL provider and a domain that
    are set; and for the three known environments it leaves no SSL
    provider empty. *)
Theorem ApplyDefaults_idempotent (c : InstallationConfig) :
  let d := config.ApplyDefaults c in
  config.ApplyDefaults d = d /\
  (Environment_ d = Environment_ c /\ Email d = Email c /\
   CreatedAt d = CreatedAt c /\ Version d = Version c /\
   SSLEmail (SSL d) = SSLEmail (SSL c) /\
   CustomCert (SSL d) = CustomCert (SSL c) /\
   CustomKey (SSL d) = CustomKey (SSL c)) /\
  (Provider (SSL c) <> "" -> Provider (SSL d) = Provider (SSL c)) /\
  (Domain c <> "" -> Domain d = Domain c) /\
  (config.validateEnvironment 0 (Environment_ c) = None -> Provider (SSL d) <> "").
Proof.
  destruct c as [env dom mail [provider sslEmail cert key renew] created version].
  unfold config.ApplyDefaults, config.validateEnvironment.
  cbn [Environment_ Domain Email SSL CreatedAt Version
       Provider SSLEmail CustomCert CustomKey AutoRenew].
  destruct (String.eqb env EnvironmentProduction) eqn:Eprod;
    [|destruct (String.eqb env EnvironmentStaging) eqn:Estaging;
      [|destruct (String.eqb env EnvironmentDevelopment) eqn:Edev]];
    cbn [Environment_ Domain Email SSL CreatedAt Version
         Provider SSLEmail CustomCert CustomKey AutoRenew orb];
    rewrite ?Eprod, ?Estaging, ?Edev;
    cbn [Environment_ Domain Email SSL CreatedAt Version
         Provider SSLEmail CustomCert CustomKey AutoRenew orb];
    destruct (String.eqb_spec provider "") as [->|Nprovider];
    destruct (String.eqb_spec dom "") as [->|Ndom];
    cbn [String.eqb Ascii.eqb Bool.eqb SSLProviderLetsEncrypt SSLProviderSelfSigned];
    rewrite ?(proj2 (String.eqb_neq _ _) Nprovider), ?(proj2 (String.eqb_neq _ _) Ndom);
    repeat split; try congruence; try discriminate.
Qed.

Lemma ValidateConfig_accepts (now : Time) (c : InstallationConfig) :
  ValidateConfig now (Some c) = None ->
  config.validateEnvironment now (Environment_ c) = None /\
  validateDomain now (Domain c) = None /\
  (Environment_ c = EnvironmentProduction -> Email c <> "") /\
  validateSSLConfig now (Some (SSL c)) = None.
Proof.
  unfold ValidateConfig, config.ValidateConfig.
  destruct (config.validateEnvironment now (Environment_ c)); [discriminate|].
  fold validateDomain. destruct (validateDomain now (Domain c)); [discriminate|].
  destruct (String.eqb_spec (Email c) "") as [Hmail|Hmail]; cbn [negb].
  - destruct (String.eqb_spec (Environment_ c) EnvironmentProduction); [discriminate|].
    intros H. repeat split; auto; intros; contradiction.
  - destruct (config.validateEmail mail_ParseAddress now (Email c)); [discriminate|].
    intros H. repeat split; auto.
Qed.

(** Without an SSL email, certificate and key, only the provider
    "self-signed" and the empty provider pass [validateSSLConfig]. *)
Lemma validateSSLConfig_bare (now : Time) (provider : SSLProvider) (renew : bool) :
  validateSSLConfig now (Some (mkSSLConfig provider "" "" "" renew)) = None ->
  provider = SSLProviderSelfSigned \/ provider = "".
Proof.
  unfold validateSSLConfig, config.validateSSLConfig.
  cbn [Provider SSLEmail CustomCert CustomKey String.eqb orb].
  destruct (String.eqb provider SSLProviderLetsEncrypt); [discriminate|].
  destruct (String.eqb provider SSLProviderCustom); [discriminate|].
  destruct (String.eqb_spec provider SSLProviderSelfSigned); [now left|].
  destruct (String.eqb_spec provider ""); [now right|discriminate].
Qed.

Lemma validateDomain_nonempty (now : Time) (domain : string) :
  validateDomain now domain = None -> domain <> "".
Proof.
  unfold validateDomain, config.validateDomain.
  destruct (String.eqb_spec domain ""); [discriminate|auto].
Qed.

(** [SanitizeAndValidateDomain] returns the empty string with every error,
    and every error is one of [NewConfigError]; without an error the
    domain it returns is not empty and passes [validateDomain], and it is
    the lower-cased and trimmed input when that carries no "http://" or
    "https://". *)
Theorem SanitizeAndValidateDomain_result (now : Time) (domain : string) :
  let cleaned := strings_TrimSpace (strings_ToLower domain) in
  (forall sanitized e,
     SanitizeAndValidateDomain now domain = (sanitized, Some e) ->
     sanitized = "" /\ Code e = ErrCodeConfigInvalid) /\
  (forall sanitized,
     SanitizeAndValidateDomain now domain = (sanitized, None) ->
     sanitized <> "" /\
     validateDomain now sanitized = None /\
     (HasPrefix cleaned "http://" = false -> HasPrefix cleaned "https://" = false ->
        sanitized = cleaned)).
Proof.
  cbv zeta. unfold SanitizeAndValidateDomain, config.SanitizeAndValidateDomain.
  fold validateDomain.
  set (cleaned := strings_TrimSpace (strings_ToLower domain)).
  split.
  - intros sanitized e.
    destruct (HasPrefix cleaned "http://" || HasPrefix cleaned "https://").
    + destruct (url_Parse cleaned) as [host|err].
      * destruct (validateDomain now host) as [e0|] eqn:Hv; intros H;
          [|discriminate H]. injection H as <- <-.
        split; [reflexivity|].
        exact (validateDomain_code strings_ToLower strings_TrimSpace now host e0 Hv).
      * intros H. injection H as <- <-. now split.
    + destruct (validateDomain now cleaned) as [e0|] eqn:Hv; intros H;
        [|discriminate H]. injection H as <- <-.
      split; [reflexivity|].
      exact (validateDomain_code strings_ToLower strings_TrimSpace now cleaned e0 Hv).
  - intros sanitized.
    destruct (HasPrefix cleaned "http://") eqn:Hhttp;
      [|destruct (HasPrefix cleaned "https://") eqn:Hhttps]; cbn [orb].
    + destruct (url_Parse cleaned) as [host|err]; [|discriminate].
      destruct (validateDomain now host) eqn:Hv; [discriminate|].
      intros H. injection H as <-. split; [|split; [exact Hv|discriminate]].
      exact (validateDomain_nonempty now host Hv).
    + destruct (url_Parse cleaned) as [host|err]; [|discriminate].
      destruct (validateDomain now host) eqn:Hv; [discriminate|].
      intros H. injection H as <-. split; [|split; [exact Hv|discriminate]].
      exact (validateDomain_nonempty now host Hv).
    + destruct (validateDomain now cleaned) eqn:Hv; [discriminate|].
      intros H. injection H as <-. split; [|split; [exact Hv|reflexivity]].
      exact (validateDomain_nonempty now cleaned Hv).
Qed.

Lemma SanitizeAndValidateDomain_ok (now : Time) (domain sanitized : string) :
  SanitizeAndValidateDomain now domain = (sanitized, None) ->
  validateDomain now sanitized = None.
Proof.
  unfold SanitizeAndValidateDomain, config.SanitizeAndValidateDomain.
  fold validateDomain.
  set (cleaned := strings_TrimSpace (strings_ToLower domain)).
  destruct (HasPrefix cleaned "http://" || HasPrefix cleaned "https://").
  - destruct (url_Parse cleaned) as [host|err]; [|discriminate].
    destruct (validateDomain now host) eqn:Hv; [discriminate|].
    intros H. now injection H as <-.
  - destruct (validateDomain now cleaned) eqn:Hv; [discriminate|].
    intros H. now injection H as <-.
Qed.

(** The configuration that [ApplyDefaults] makes of the one built from the
    flags: only the provider, the renewal flag and the domain can differ. *)
Lemma ApplyDefaults_built (createdAt : Time) (flags : cmd.Flags) :
  let built :=
    {| Environment_ := cmd.environment flags; Domain := cmd.domain flags;
       Email := cmd.email flags;
       SSL := {| Provider := cmd.sslProvider flags; SSLEmail := ""; CustomCert := "";
                 CustomKey := ""; AutoRenew := false |};
       CreatedAt := createdAt; Version := constants.AppVersion |} in
  exists provider renew dom,
    config.ApplyDefaults built =
      {| Environment_ := cmd.environment flags; Domain := dom;
         Email := cmd.email flags;
         SSL := mkSSLConfig provider "" "" "" renew;
         CreatedAt := createdAt; Version := constants.AppVersion |} /\
    (provider = SSLProviderSelfSigned ->
       cmd.sslProvider flags = SSLProviderSelfSigned \/
       (cmd.sslProvider flags = "" /\
        cmd.environment flags = EnvironmentDevelopment)) /\
    (provider = "" ->
       config.validateEnvironment 0 (cmd.environment flags) <> None).
Proof.
  cbv zeta. unfold config.ApplyDefaults, config.validateEnvironment.
  cbn [Environment_ Domain Email SSL CreatedAt Version
       Provider SSLEmail CustomCert CustomKey AutoRenew].
  destruct (String.eqb_spec (cmd.sslProvider flags) "") as [Hp|Hp].
  - destruct (String.eqb_spec (cmd.environment flags) EnvironmentProduction) as [He|Np].
    { eexists _, _, _. split; [reflexivity|]. split; discriminate. }
    destruct (String.eqb_spec (cmd.environment flags) EnvironmentStaging) as [He|Ns].
    { eexists _, _, _. split; [reflexivity|]. split; discriminate. }
    destruct (String.eqb_spec (cmd.environment flags) EnvironmentDevelopment) as [He|Nd].
    { eexists _, _, _. split; [reflexivity|]. split; [auto|discriminate]. }
    eexists _, _, _. split; [reflexivity|]. split; [auto|]. discriminate.
  - destruct (String.eqb (cmd.environment flags) EnvironmentProduction);
      [eexists _, _, _; split; [reflexivity|split; [auto|intros; contradiction]]|].
    destruct (String.eqb (cmd.environment flags) EnvironmentStaging);
      [eexists _, _, _; split; [reflexivity|split; [auto|intros; contradiction]]|].
    destruct (String.eqb (cmd.environment flags) EnvironmentDevelopment);
      eexists _, _, _; (split; [reflexivity|split; [auto|intros; contradiction]]).
Qed.

(** [buildConfiguration] returns a configuration only with the SSL provider
    "self-signed", given by the flag or, in the environment "dev", by
    default: the provider "letsencrypt", which is the default of "staging"
    and "prod", and the provider "custom" are refused, as the flags set no
    SSL email, certificate or key.  The configuration returned has the
    environment and the email of the flags, a known environment, an email
    when the environment is "prod", and a domain that passes
    [validateDomain]. *)
Theorem buildConfiguration_accepts_only_self_signed
    (createdAt now : Time) (flags : cmd.Flags)
    (logged : list (container.Level * string)) (cfg : InstallationConfig) :
  buildConfiguration createdAt now flags = (logged, inl cfg) ->
  Provider (SSL cfg) = SSLProviderSelfSigned /\
  (cmd.sslProvider flags = SSLProviderSelfSigned \/
   (cmd.sslProvider flags = "" /\ cmd.environment flags = EnvironmentDevelopment)) /\
  Environment_ cfg = cmd.environment flags /\
  config.validateEnvironment now (cmd.environment flags) = None /\
  Email cfg = cmd.email flags /\
  (cmd.environment flags = EnvironmentProduction -> cmd.email flags <> "") /\
  validateDomain now (Domain cfg) = None /\
  CreatedAt cfg = createdAt /\
  Version cfg = constants.AppVersion.
Proof.
  unfold buildConfiguration, cmd.buildConfiguration.
  destruct (ApplyDefaults_built createdAt flags)
    as (provider & renew & dom & -> & Hself & Hempty).
  fold ValidateConfig. fold SanitizeAndValidateDomain.
  destruct (ValidateConfig now _) as [e|] eqn:Hvalid; [discriminate|].
  destruct (ValidateConfig_accepts now _ Hvalid) as (Henv & _ & Hmail & Hssl).
  cbn [Environment_ Email SSL Domain] in Henv, Hmail, Hssl |- *.
  destruct (SanitizeAndValidateDomain now dom) as [sanitized [e|]] eqn:Hsan;
    [discriminate|].
  intros H. injection H as _ <-.
  cbn [Environment_ Domain Email SSL CreatedAt Version Provider].
  apply SanitizeAndValidateDomain_ok in Hsan.
  destruct (validateSSLConfig_bare now provider renew Hssl) as [Hp|Hp].
  - repeat split; auto.
  - exfalso. apply (Hempty Hp).
    unfold config.validateEnvironment in Henv |- *.
    destruct (_ || _); [reflexivity|discriminate Henv].
Qed.

End Domains.

Lemma validateDomain_accepts_only_witness :
  config.validateDomain scenarios.toLower scenarios.trimSpace 0 " Example.COM " = None /\
  (forall c, In c (list_ascii_of_string "example.com") ->
     config.alnumHyphen c = true \/ c = "."%char).
Proof.
  assert (H : config.validateDomain scenarios.toLower scenarios.trimSpace 0
                " Example.COM " = None) by (vm_compute; reflexivity).
  split; [exact H|].
  destruct (validateDomain_accepts_only scenarios.toLower scenarios.trimSpace
              0 " Example.COM " H) as (_ & [Hl|[Hl|(Hchars & _)]]).
  - vm_compute in Hl. discriminate Hl.
  - vm_compute in Hl. discriminate Hl.
  - exact Hchars.
Defined.

Lemma buildConfiguration_accepts_only_self_signed_witness :
  exists logged cfg,
    cmd.buildConfiguration scenarios.toLower scenarios.trimSpace scenarios.parseAddress
      scenarios.parseURL 0 1 scenarios.prodSelfSignedFlags = (logged, inl cfg) /\
    types.Provider (types.SSL cfg) = types.SSLProviderSelfSigned /\
    types.Domain cfg = "example.com".
Proof.
  eexists _, _. split; [vm_compute; reflexivity|].
  split; [|reflexivity].
  exact (proj1 (buildConfiguration_accepts_only_self_signed
                  scenarios.toLower scenarios.trimSpace scenarios.parseAddress
                  scenarios.parseURL 0 1 scenarios.prodSelfSignedFlags _ _ eq_refl)).
Defined.

(** ** Package errors: the text shown to the user *)
Section ErrorText.
Import types.

Lemma HasPrefix_app (s p rest : string) :
  HasPrefix s p = true -> HasPrefix (s ++ rest) p = true.
Proof.
  revert s. induction p as [|c p IH]; intros s H; [destruct s, rest; reflexivity|].
  destruct s as [|d s]; [discriminate H|].
  cbn in H |- *. apply andb_true_iff in H. destruct H as [Hc Hp].
  now rewrite Hc, (IH s Hp).
Qed.

Lemma Contains_app_l (s rest sub : string) :
  Contains s sub = true -> Contains (s ++ rest) sub = true.
Proof.
  induction s as [|c s IH]; intros H.
  - cbn in H. rewrite orb_false_r in H. destruct sub; [|discriminate H].
    destruct rest; reflexivity.
  - change (String c s ++ rest) with (String c (s ++ rest)).
    cbn [Contains] in H |- *. apply orb_true_iff in H. destruct H as [H|H].
    + pose proof (HasPrefix_app (String c s) sub rest H) as Hp.
      change (String c s ++ rest) with (String c (s ++ rest)) in Hp.
      rewrite Hp. reflexivity.
    + rewrite (IH H). apply orb_true_r.
Qed.

Lemma Contains_app_r (s rest sub : string) :
  Contains rest sub = true -> Contains (s ++ rest) sub = true.
Proof.
  intros H. induction s as [|c s IH]; [exact H|].
  change (String c s ++ rest) with (String c (s ++ rest)).
  cbn [Contains]. rewrite IH. apply orb_true_r.
Qed.

(** Each suggestion adds its bulleted line; earlier text stays. *)
Lemma formatSuggestions_keeps (result : string) (suggestions : list string) (sub : string) :
  Contains result sub = true ->
  Contains (errors.formatSuggestions result suggestions) sub = true.
Proof.
  revert result. induction suggestions as [|s rest IH]; intros result H; [exact H|].
  cbn [errors.formatSuggestions fold_left]. apply IH.
  now apply Contains_app_l.
Qed.

Lemma formatSuggestions_prefix (result : string) (suggestions : list string) (p : string) :
  HasPrefix result p = true ->
  HasPrefix (errors.formatSuggestions result suggestions) p = true.
Proof.
  revert result. induction suggestions as [|s rest IH]; intros result H; [exact H|].
  cbn [errors.formatSuggestions fold_left]. apply IH.
  now apply HasPrefix_app.
Qed.

Lemma formatSuggestions_bullets (result : string) (suggestions : list string)
    (suggestion : string) :
  In suggestion suggestions ->
  Contains (errors.formatSuggestions result suggestions)
           (newline ++ "  • " ++ suggestion) = true.
Proof.
  revert result. induction suggestions as [|s rest IH]; intros result Hin;
    [destruct Hin|].
  cbn [errors.formatSuggestions fold_left]. destruct Hin as [->|Hin].
  - apply formatSuggestions_keeps. apply Contains_append.
  - now apply IH.
Qed.

(** The text that [FormatError] shows starts with the code in brackets and
    the message; it holds the details on a line of their own when there
    are any, and one bulleted line for every suggestion; with no details
    and no suggestion it is the first line alone. *)
Theorem FormatError_shows_everything (e : InstallError) :
  let header := "Error [" ++ Code e ++ "]: " ++ Message e in
  HasPrefix (errors.FormatError e) header = true /\
  (Details e <> "" ->
     Contains (errors.FormatError e) (newline ++ "Details: " ++ Details e) = true) /\
  (forall suggestion, In suggestion (Suggestions e) ->
     Contains (errors.FormatError e) (newline ++ "  • " ++ suggestion) = true) /\
  (Suggestions e <> [] ->
     Contains (errors.FormatError e) (newline ++ newline ++ "Suggestions:") = true) /\
  (Details e = "" -> Suggestions e = [] -> errors.FormatError e = header).
Proof.
  cbv zeta. unfold errors.FormatError.
  set (header := "Error [" ++ Code e ++ "]: " ++ Message e).
  set (detailed := if negb (String.eqb (Details e) "")
                   then header ++ newline ++ "Details: " ++ Details e else header).
  assert (Hheader : HasPrefix detailed header = true).
  { unfold detailed. destruct (negb _); [|apply HasPrefix_refl].
    apply HasPrefix_app, HasPrefix_refl. }
  split; [|split; [|split; [|split]]].
  - destruct (Suggestions e) as [|s rest]; [exact Hheader|].
    cbn [List.length Nat.ltb Nat.leb]. apply formatSuggestions_prefix.
    now apply HasPrefix_app.
  - intros Hdetails.
    assert (Hd : Contains detailed (newline ++ "Details: " ++ Details e) = true).
    { unfold detailed. apply String.eqb_neq in Hdetails. rewrite Hdetails. cbn [negb].
      apply Contains_append. }
    destruct (Suggestions e) as [|s rest]; [exact Hd|].
    cbn [List.length Nat.ltb Nat.leb]. apply formatSuggestions_keeps.
    now apply Contains_app_l.
  - intros suggestion Hin.
    destruct (Suggestions e) as [|s rest]; [destruct Hin|].
    cbn [List.length Nat.ltb Nat.leb]. now apply formatSuggestions_bullets.
  - intros Hsome. destruct (Suggestions e) as [|s rest]; [contradiction|].
    cbn [List.length Nat.ltb Nat.leb]. apply formatSuggestions_keeps.
    apply Contains_append.
  - intros Hdetails Hnone. unfold detailed. rewrite Hdetails, Hnone. reflexivity.
Qed.

End ErrorText.

(** ** Package system: the requirements *)
Section Requirements.
Import types.

(** [validateOSCompatibility] accepts exactly the two distributions of the
    table, under their lower-case names, in a version that is a supported
    one or extends a supported one by a dot and more ("22.04.3" for
    "22.04"): "22.041" and "Ubuntu" are refused. *)
Theorem validateOSCompatibility_accepts (now : Time) (osName version : string) :
  system.validateOSCompatibility now osName version = None <->
  exists supported,
    ((osName = "ubuntu" /\ In supported ["20.04"; "22.04"; "24.04"]) \/
     (osName = "debian" /\ In supported ["11"; "12"])) /\
    (version = supported \/ HasPrefix version (supported ++ ".") = true).
Proof.
  unfold system.validateOSCompatibility, system.supportedVersionsOf,
    constants.SupportedOSes.
  cbn [find fst snd option_map].
  destruct (String.eqb_spec "ubuntu" osName) as [<-|Nubuntu];
    [|destruct (String.eqb_spec "debian" osName) as [<-|Ndebian]];
    cbn [option_map snd].
  - match goal with |- context [existsb ?f ?l] => destruct (existsb f l) eqn:E end;
      cbn [negb]; split; try discriminate; try reflexivity.
    + intros _. apply existsb_exists in E. destruct E as (supported & Hin & Hm).
      exists supported. split; [left; now split|].
      apply orb_true_iff in Hm. destruct Hm as [Hm|Hm]; [left|right; exact Hm].
      now apply String.eqb_eq.
    + intros (supported & [[_ Hin]|[Hos _]] & Hm); [|discriminate Hos].
      exfalso. apply Bool.not_true_iff_false in E. apply E.
      apply existsb_exists. exists supported. split; [exact Hin|].
      apply orb_true_iff. destruct Hm as [->|Hm]; [left; apply String.eqb_refl|now right].
  - match goal with |- context [existsb ?f ?l] => destruct (existsb f l) eqn:E end;
      cbn [negb]; split; try discriminate; try reflexivity.
    + intros _. apply existsb_exists in E. destruct E as (supported & Hin & Hm).
      exists supported. split; [right; now split|].
      apply orb_true_iff in Hm. destruct Hm as [Hm|Hm]; [left|right; exact Hm].
      now apply String.eqb_eq.
    + intros (supported & [[Hos _]|[_ Hin]] & Hm); [discriminate Hos|].
      exfalso. apply Bool.not_true_iff_false in E. apply E.
      apply existsb_exists. exists supported. split; [exact Hin|].
      apply orb_true_iff. destruct Hm as [->|Hm]; [left; apply String.eqb_refl|now right].
  - split; [discriminate|].
    intros (supported & [[Hos _]|[Hos _]] & _); congruence.
Qed.

Variable net_DialTimeout : string -> string -> bool.
Variable sudo_n_true : option error.

(** The error was built by [NewSystemError] with suggestions of its own. *)
Let systemError (now : Time) (e : InstallError) : Prop :=
  exists message details suggestion suggestions,
    e = errors.NewSystemError now message details (Some (suggestion :: suggestions)).

Lemma validatePorts_systemError (now : Time) (ports : list Z) (e : InstallError) :
  system.validatePorts net_DialTimeout now ports = Some e -> systemError now e.
Proof.
  induction ports as [|port rest IH]; [discriminate|].
  cbn [system.validatePorts].
  destruct (negb (system.isPortAvailable net_DialTimeout port)); [|exact IH].
  intros H. injection H as <-. now eexists _, _, _, _.
Qed.

Lemma ValidateSystemRequirements_systemError (now : Time) (metadata : HostMetadata)
    (e : InstallError) :
  system.ValidateSystemRequirements net_DialTimeout sudo_n_true now metadata = Some e ->
  systemError now e.
Proof.
  unfold system.ValidateSystemRequirements.
  destruct (system.validateOSCompatibility now (OS metadata) (HVersion metadata))
    as [e0|] eqn:Hos.
  { intros H. injection H as <-. revert Hos.
    unfold system.validateOSCompatibility.
    destruct (system.supportedVersionsOf (OS metadata)) as [versions|].
    - destruct (negb _); intros H; [|discriminate H].
      injection H as <-. now eexists _, _, _, _.
    - intros H. injection H as <-. now eexists _, _, _, _. }
  destruct (system.validateArchitecture now (Architecture metadata)) as [e0|] eqn:Harch.
  { intros H. injection H as <-. revert Harch. unfold system.validateArchitecture.
    destruct (_ && _); intros H; [|discriminate H].
    injection H as <-. now eexists _, _, _, _. }
  destruct (system.validateRAM now (AvailableRAM metadata)) as [e0|] eqn:Hram.
  { intros H. injection H as <-. revert Hram. unfold system.validateRAM.
    destruct (_ && _); intros H; [|discriminate H].
    injection H as <-. now eexists _, _, _, _. }
  destruct (system.validateDiskSpace now (AvailableDisk metadata)) as [e0|] eqn:Hdisk.
  { intros H. injection H as <-. revert Hdisk. unfold system.validateDiskSpace.
    destruct (_ && _); intros H; [|discriminate H].
    injection H as <-. now eexists _, _, _, _. }
  destruct (system.validatePortAvailability net_DialTimeout now) as [e0|] eqn:Hports.
  { intros H. injection H as <-. exact (validatePorts_systemError _ _ _ Hports). }
  unfold system.validatePermissions. destruct sudo_n_true; intros H; [|discriminate H].
  injection H as <-. now eexists _, _, _, _.
Qed.

(** Whichever of its six checks fails (the distribution, the architecture,
    the RAM, the disk, a port, the privileges),
    [ValidateSystemRequirements] returns an error of the member
    system-requirements that names the component "system" and the
    operation "validation", carries at least one suggestion and no cause. *)
Theorem ValidateSystemRequirements_errors (now : Time) (metadata : HostMetadata)
    (e : InstallError) :
  system.ValidateSystemRequirements net_DialTimeout sudo_n_true now metadata = Some e ->
  Code e = ErrCodeSystemRequirements /\
  Component (Context e) = "system" /\
  Operation (Context e) = "validation" /\
  Suggestions e <> [] /\
  Cause e = None /\
  Timestamp e = now.
Proof.
  intros H.
  destruct (ValidateSystemRequirements_systemError now metadata e H)
    as (message & details & suggestion & suggestions & ->).
  repeat split. discriminate.
Qed.

End Requirements.


Lemma ValidateSystemRequirements_errors_witness :
  exists e,
    system.ValidateSystemRequirements scenarios.dial443 None 0 scenarios.unmeasuredRAM
      = Some e /\
    types.Code e = types.ErrCodeSystemRequirements /\
    types.Component (types.Context e) = "system" /\
    types.Suggestions e <> [].
Proof.
  eexists. split; [vm_compute; reflexivity|].
  destruct (ValidateSystemRequirements_errors scenarios.dial443 None 0
              scenarios.unmeasuredRAM _ eq_refl) as (Hcode & Hcomponent & _ & Hs & _).
  split; [exact Hcode|]. split; [exact Hcomponent|exact Hs].
Defined.

(** ** Package system: detection *)
Section Trimming.

Lemma string_app_assoc (a b c : string) : (a ++ b) ++ c = a ++ (b ++ c).
Proof. induction a as [|x a IH]; cbn; [reflexivity|now rewrite IH]. Qed.

Lemma string_app_last_inv (p : string) (c a : ascii) :
  p ++ String c "" = String a "" -> p = "" /\ c = a.
Proof.
  destruct p as [|x p]; cbn; intros H.
  - injection H as ->. now split.
  - injection H as _ H. destruct p; discriminate H.
Qed.

Lemma TrimLeft_head (s cutset : string) (c : ascii) (rest : string) :
  TrimLeft s cutset = String c rest -> inCutset c cutset = false.
Proof.
  induction s as [|d s IH]; cbn [TrimLeft]; [discriminate|].
  destruct (inCutset d cutset) eqn:Hd; [exact IH|].
  intros H. now injection H as <- _.
Qed.

Lemma TrimLeft_suffix (s cutset : string) :
  exists p, s = p ++ TrimLeft s cutset.
Proof.
  induction s as [|d s [p IH]]; [now exists ""|].
  cbn [TrimLeft]. destruct (inCutset d cutset).
  - exists (String d p). cbn. now rewrite <- IH.
  - now exists "".
Qed.

Lemma TrimRight_last (s cutset p : string) (c : ascii) :
  TrimRight s cutset = p ++ String c "" -> inCutset c cutset = false.
Proof.
  revert p. induction s as [|a s IH]; intros p; cbn [TrimRight].
  - destruct p; discriminate.
  - destruct (TrimRight s cutset) as [|b t] eqn:Ht.
    + destruct (inCutset a cutset) eqn:Ha; [destruct p; discriminate|].
      intros H. symmetry in H. apply string_app_last_inv in H.
      destruct H as [_ ->]. exact Ha.
    + destruct p as [|x p]; cbn; intros H.
      * injection H as _ H. discriminate H.
      * injection H as _ H. exact (IH p H).
Qed.

(** What [strings.Trim] returns neither starts nor ends with a byte of the
    cutset. *)
Lemma Trim_ends (s cutset : string) :
  (forall c rest, Trim s cutset = String c rest -> inCutset c cutset = false) /\
  (forall p c, Trim s cutset = p ++ String c "" -> inCutset c cutset = false).
Proof.
  unfold Trim. split.
  - intros c rest. apply TrimLeft_head.
  - intros p c H.
    destruct (TrimLeft_suffix (TrimRight s cutset) cutset) as [q Hq].
    rewrite H, <- string_app_assoc in Hq.
    exact (TrimRight_last s cutset _ c Hq).
Qed.

End Trimming.

Section Detection.
Import types.

(** The line is an [ID=] line of os-release. *)
Let isID (line : string) : bool := HasPrefix line "ID=".

Lemma osReleaseLine_name (osInfo : system.OSInfo) (line : string) :
  system.Name (system.osReleaseLine osInfo line) =
  if isID line then Trim (TrimPrefix line "ID=") dquote else system.Name osInfo.
Proof.
  unfold system.osReleaseLine, isID.
  destruct (HasPrefix line "ID="); [reflexivity|].
  now destruct (HasPrefix line "VERSION_ID=").
Qed.

(** The name that the loop of [detectOS] leaves is that of the last [ID=]
    line, or the one it started with. *)
Lemma osRelease_name (lines : list string) (init : system.OSInfo) :
  let osInfo := fold_left system.osReleaseLine lines init in
  (Forall (fun line => isID line = false) lines /\
   system.Name osInfo = system.Name init) \/
  (exists before line after,
     lines = (before ++ line :: after)%list /\
     isID line = true /\
     Forall (fun line => isID line = false) after /\
     system.Name osInfo = Trim (TrimPrefix line "ID=") dquote).
Proof.
  cbv zeta. induction lines as [|line lines IH] using rev_ind.
  - left. now split.
  - rewrite fold_left_app. cbn [fold_left]. rewrite osReleaseLine_name.
    destruct (isID line) eqn:Hid.
    + right. exists lines, line, [].
      split; [reflexivity|]. split; [exact Hid|]. split; [apply Forall_nil|reflexivity].
    + destruct IH as [[Hnone Hinit]|(before & l & after & -> & Hl & Hafter & Hn)].
      * left. split; [|exact Hinit]. apply Forall_app. split; [exact Hnone|].
        now repeat constructor.
      * right. exists before, l, (after ++ [line])%list.
        split; [now rewrite <- app_assoc|]. split; [exact Hl|]. split; [|exact Hn].
        apply Forall_app. split; [exact Hafter|]. now repeat constructor.
Qed.

(** When [detectOS] returns a system, the file was read to its end without
    an error, and the name is the value of its last [ID=] line, without
    the double quotes around it: it is not empty and neither starts nor
    ends with a double quote.  A line such as [ID_LIKE=debian] is no
    [ID=] line.  Without any [ID=] line [detectOS] returns the error
    "could not determine OS name". *)
Theorem detectOS_reads_the_last_ID (file : system.Scanned) :
  (forall osInfo,
     system.detectOS (inl file) = inl osInfo ->
     system.scannedErr file = None /\
     system.Name osInfo <> "" /\
     (exists before line after,
        system.scannedLines file = (before ++ line :: after)%list /\
        HasPrefix line "ID=" = true /\
        Forall (fun line => HasPrefix line "ID=" = false) after /\
        system.Name osInfo = Trim (TrimPrefix line "ID=") dquote) /\
     (forall rest, system.Name osInfo <> dquote ++ rest) /\
     (forall p, system.Name osInfo <> p ++ dquote)) /\
  (system.scannedErr file = None ->
   Forall (fun line => HasPrefix line "ID=" = false) (system.scannedLines file) ->
   system.detectOS (inl file) = inr (errorString "could not determine OS name")) /\
  HasPrefix "ID_LIKE=debian" "ID=" = false.
Proof.
  unfold system.detectOS. split; [|split; [|reflexivity]].
  - intros osInfo. destruct (system.scannedErr file); [discriminate|].
    destruct (String.eqb_spec
                (system.Name (fold_left system.osReleaseLine (system.scannedLines file)
                                {| system.Name := ""; system.Version := "" |})) "")
      as [|Hname]; [discriminate|].
    intros H. injection H as <-. split; [reflexivity|]. split; [exact Hname|].
    destruct (osRelease_name (system.scannedLines file)
                {| system.Name := ""; system.Version := "" |})
      as [[_ Hinit]|(before & line & after & Hsplit & Hid & Hafter & Hn)];
      [contradiction|].
    split; [now exists before, line, after|].
    destruct (Trim_ends (TrimPrefix line "ID=") dquote) as [Hhead Hlast].
    rewrite Hn. split.
    + intros rest H. specialize (Hhead _ _ H). discriminate Hhead.
    + intros p H. specialize (Hlast _ _ H). discriminate Hlast.
  - intros -> Hnone.
    destruct (osRelease_name (system.scannedLines file)
                {| system.Name := ""; system.Version := "" |})
      as [[_ Hinit]|(before & line & after & Hsplit & Hid & _)].
    + cbn in Hinit. now rewrite Hinit.
    + exfalso. rewrite Hsplit in Hnone. apply Forall_app in Hnone.
      destruct Hnone as [_ Hnone]. inversion Hnone as [|? ? Hline _]; subst.
      unfold isID in Hid. congruence.
Qed.

End Detection.

Section Measurements.
Import types.

Variable strings_Fields : string -> list string.
Variable strconv_ParseInt : string -> Z + error.

Let getAvailableRAM := system.getAvailableRAM strings_Fields strconv_ParseInt.
Let DetectSystem := system.DetectSystem strings_Fields strconv_ParseInt.

(** The line is one that [getAvailableRAM] stops at: a [MemAvailable:]
    line with at least two fields. *)
Let usable (line : string) : bool :=
  HasPrefix line "MemAvailable:" && (2 <=? List.length (strings_Fields line))%nat.

Lemma wrap64_small (z : Z) : - 2 ^ 63 <= z < 2 ^ 63 -> wrap64 z = z.
Proof.
  intros H. unfold wrap64. rewrite Z.mod_small; lia.
Qed.

Lemma scanMemAvailable_skip (before rest : list string) :
  Forall (fun line => usable line = false) before ->
  system.scanMemAvailable strings_Fields strconv_ParseInt (before ++ rest) =
  system.scanMemAvailable strings_Fields strconv_ParseInt rest.
Proof.
  induction 1 as [|line before Hline _ IH]; [reflexivity|].
  cbn [app system.scanMemAvailable]. unfold usable in Hline.
  destruct (HasPrefix line "MemAvailable:"); [|exact IH].
  destruct (strings_Fields line) as [|field0 [|field1 more]]; try exact IH.
  discriminate Hline.
Qed.

(** [getAvailableRAM] reads the first [MemAvailable:] line of /proc/meminfo
    that has a second field, whatever follows it: it returns that field,
    parsed, times 1024 (exactly so for less than 2^53 KB, else wrapped to
    64 bits), or the error of the parser.  Without such a line it returns
    the error "could not find MemAvailable in /proc/meminfo", and an error
    of the scanner is not looked at.  When the file cannot be opened it
    returns that error. *)
Theorem getAvailableRAM_reads_the_first_value (file : system.Scanned) :
  (forall before line after field0 field1 more,
     system.scannedLines file = (before ++ line :: after)%list ->
     Forall (fun line => usable line = false) before ->
     HasPrefix line "MemAvailable:" = true ->
     strings_Fields line = field0 :: field1 :: more ->
     (forall kb, strconv_ParseInt field1 = inl kb ->
        getAvailableRAM (inl file) = (wrap64 (kb * 1024), None) /\
        (- 2 ^ 53 <= kb < 2 ^ 53 -> wrap64 (kb * 1024) = kb * 1024)) /\
     (forall err, strconv_ParseInt field1 = inr err ->
        getAvailableRAM (inl file) = (0, Some err))) /\
  (Forall (fun line => usable line = false) (system.scannedLines file) ->
   getAvailableRAM (inl file) =
     (0, Some (errorString "could not find MemAvailable in /proc/meminfo"))) /\
  (forall err, getAvailableRAM (inr err) = (0, Some err)).
Proof.
  unfold getAvailableRAM, system.getAvailableRAM. split; [|split; [|reflexivity]].
  - intros before line after field0 field1 more -> Hbefore Hprefix Hfields.
    rewrite (scanMemAvailable_skip before (line :: after) Hbefore).
    cbn [system.scanMemAvailable]. rewrite Hprefix, Hfields. split.
    + intros kb ->. split; [reflexivity|]. intros Hkb. apply wrap64_small. lia.
    + now intros err ->.
  - intros Hnone.
    rewrite <- (app_nil_r (system.scannedLines file)).
    now rewrite (scanMemAvailable_skip _ [] Hnone).
Qed.

Lemma detectOS_nonempty (osRelease : system.Scanned + error) (osInfo : system.OSInfo) :
  system.detectOS osRelease = inl osInfo -> system.Name osInfo <> "".
Proof.
  unfold system.detectOS. destruct osRelease as [file|]; [|discriminate].
  destruct (system.scannedErr file); [discriminate|].
  destruct (String.eqb_spec
              (system.Name (fold_left system.osReleaseLine (system.scannedLines file)
                              {| system.Name := ""; system.Version := "" |})) "")
    as [|Hname]; [discriminate|].
  intros H. now injection H as <-.
Qed.

(** [DetectSystem] never fails on a measurement: when the RAM or the free
    disk space cannot be read it logs a warning and reports zero, which
    [validateRAM] and [validateDiskSpace] let pass.  It reports the
    architecture "x86_64" for a build for amd64, so that
    [validateArchitecture] accepts exactly the builds for amd64, arm64 (and
    x86_64, aarch64).  It fails only when the operating system is not
    detected, with an error of the member system-requirements and the
    operation "detection" whose cause and details are the error of
    [detectOS]. *)
Theorem DetectSystem_measurements_are_best_effort (now : Time) (probe : system.Probe) :
  (forall warnings metadata,
     DetectSystem now probe = (warnings, inl metadata) ->
     OS metadata <> "" /\
     (forall err, snd (getAvailableRAM (system.meminfo probe)) = Some err ->
        AvailableRAM metadata = 0 /\
        In ("Could not detect RAM: " ++ Error err) warnings /\
        system.validateRAM now (AvailableRAM metadata) = None) /\
     (snd (getAvailableRAM (system.meminfo probe)) = None ->
        AvailableRAM metadata = fst (getAvailableRAM (system.meminfo probe))) /\
     (forall err, snd (system.getAvailableDisk (system.statfs probe)) = Some err ->
        AvailableDisk metadata = 0 /\
        In ("Could not detect disk space: " ++ Error err) warnings /\
        system.validateDiskSpace now (AvailableDisk metadata) = None) /\
     (snd (system.getAvailableDisk (system.statfs probe)) = None ->
        AvailableDisk metadata = fst (system.getAvailableDisk (system.statfs probe))) /\
     (system.validateArchitecture now (Architecture metadata) = None <->
      In (system.GOARCH probe) ["amd64"; "x86_64"; "aarch64"; "arm64"])) /\
  (forall warnings e,
     DetectSystem now probe = (warnings, inr e) ->
     warnings = [] /\
     Code e = ErrCodeSystemRequirements /\
     Operation (Context e) = "detection" /\
     exists cause,
       system.detectOS (system.osRelease probe) = inr cause /\
       Cause e = Some cause /\ Details e = Error cause).
Proof.
  unfold DetectSystem, system.DetectSystem. fold getAvailableRAM.
  destruct (system.detectOS (system.osRelease probe)) as [osInfo|cause] eqn:Hos.
  - destruct (getAvailableRAM (system.meminfo probe)) as [ram [ramErr|]];
      destruct (system.getAvailableDisk (system.statfs probe)) as [disk [diskErr|]];
      (split; [|discriminate]);
      intros warnings metadata H; injection H as <- <-;
      cbn [OS AvailableRAM AvailableDisk Architecture fst snd app].
    all: split; [exact (detectOS_nonempty _ _ Hos)|].
    all: split; [intros err Herr; try discriminate Herr;
                 injection Herr as <-; repeat split; cbn; tauto|].
    all: split; [intros Herr; try discriminate Herr; reflexivity|].
    all: split; [intros err Herr; try discriminate Herr;
                 injection Herr as <-; repeat split; cbn; tauto|].
    all: split; [intros Herr; try discriminate Herr; reflexivity|].
    all: unfold system.validateArchitecture; cbn [In];
      destruct (String.eqb_spec (system.GOARCH probe) "amd64") as [->|Namd];
      [ cbn; split; [tauto|reflexivity] |];
      destruct (String.eqb_spec (system.GOARCH probe) "x86_64") as [->|Nx86];
      [ cbn; split; [tauto|reflexivity] |];
      destruct (String.eqb_spec (system.GOARCH probe) "aarch64") as [->|Naarch];
      [ cbn; split; [tauto|reflexivity] |];
      destruct (String.eqb_spec (system.GOARCH probe) "arm64") as [->|Narm];
      [ cbn; split; [tauto|reflexivity] |];
      cbn [negb andb]; split; [discriminate|];
      intros [H|[H|[H|[H|[]]]]]; congruence.
  - split; [discriminate|].
    intros warnings e H. injection H as <- <-.
    split; [reflexivity|]. split; [reflexivity|]. split; [reflexivity|].
    exists cause. repeat split.
Qed.

End Measurements.

Section DockerVersion.
Import types.

Lemma substring_all (s : string) : substring 0 (String.length s) s = s.
Proof. induction s as [|c s IH]; cbn; [reflexivity|now rewrite IH]. Qed.

Lemma HasPrefix_split (s p : string) :
  HasPrefix s p = true ->
  s = p ++ substring (String.length p) (String.length s - String.length p) s.
Proof.
  revert s. induction p as [|c p IH]; intros s H.
  - cbn. now rewrite Nat.sub_0_r, substring_all.
  - destruct s as [|d s]; [discriminate H|].
    cbn in H. apply andb_true_iff in H. destruct H as [Hc Hp].
    apply Ascii.eqb_eq in Hc. subst d. cbn. f_equal. exact (IH s Hp).
Qed.

Lemma versionRun_bytes (s : string) (c : ascii) :
  In c (list_ascii_of_string (system.versionRun s)) -> system.versionByte c = true.
Proof.
  induction s as [|d s IH]; cbn [system.versionRun]; [intros []|].
  destruct (system.versionByte d) eqn:Hd; [|intros []].
  cbn [list_ascii_of_string]. intros [<-|Hin]; [exact Hd|exact (IH Hin)].
Qed.

(** After the run comes the end of the string or a byte that is a comma
    or white space. *)
Lemma versionRun_split (s : string) :
  exists rest,
    s = system.versionRun s ++ rest /\
    (rest = "" \/ exists c rest', rest = String c rest' /\ system.versionByte c = false).
Proof.
  induction s as [|d s (rest & Hs & Hrest)]; [exists ""; split; [reflexivity|now left]|].
  cbn [system.versionRun]. destruct (system.versionByte d) eqn:Hd.
  - exists rest. split; [cbn; now rewrite <- Hs|exact Hrest].
  - exists (String d s). split; [reflexivity|]. right. now exists d, s.
Qed.

Lemma findDockerVersion_found (s version : string) :
  system.findDockerVersion s = Some version ->
  version <> "" /\
  (forall c, In c (list_ascii_of_string version) -> system.versionByte c = true) /\
  exists before after,
    s = before ++ "Docker version " ++ version ++ after /\
    (after = "" \/
     exists c rest, after = String c rest /\ system.versionByte c = false).
Proof.
  induction s as [|d s IH].
  - cbn. discriminate.
  - cbn [system.findDockerVersion].
    destruct (HasPrefix (String d s) "Docker version ") eqn:Hprefix.
    + set (tail := substring 15 (String.length (String d s) - 15) (String d s)).
      destruct (String.eqb_spec (system.versionRun tail) "") as [Hrun|Hrun]; cbn [negb].
      * intros H. destruct (IH H) as (Hne & Hbytes & before & after & -> & Hafter).
        split; [exact Hne|]. split; [exact Hbytes|].
        now exists (String d before), after.
      * intros H. injection H as <-. split; [exact Hrun|].
        split; [apply versionRun_bytes|].
        destruct (versionRun_split tail) as (rest & Htail & Hrest).
        exists "", rest. split; [|exact Hrest].
        rewrite <- Htail. exact (HasPrefix_split (String d s) "Docker version " Hprefix).
    + cbn [String.eqb negb].
      intros H. destruct (IH H) as (Hne & Hbytes & before & after & -> & Hafter).
      split; [exact Hne|]. split; [exact Hbytes|].
      now exists (String d before), after.
Qed.

(** The version that [getDockerVersion] returns without an error is not
    empty, holds no comma and no white space, and stands in the output of
    [docker --version] right after "Docker version ", up to the end or
    the next comma or white space.  With an error the version is empty. *)
Theorem getDockerVersion_result (output : string + error) :
  (forall version,
     system.getDockerVersion output = (version, None) ->
     version <> "" /\
     (forall c, In c (list_ascii_of_string version) ->
        c <> ","%char /\ c <> " "%char /\ system.versionByte c = true) /\
     exists text before after,
       output = inl text /\
       text = before ++ "Docker version " ++ version ++ after /\
       (after = "" \/
        exists c rest, after = String c rest /\ system.versionByte c = false)) /\
  (forall version err,
     system.getDockerVersion output = (version, Some err) -> version = "").
Proof.
  unfold system.getDockerVersion. destruct output as [text|err0].
  - destruct (system.findDockerVersion text) as [found|] eqn:Hfind.
    + split; [|discriminate].
      intros version H. injection H as <-.
      destruct (findDockerVersion_found text found Hfind)
        as (Hne & Hbytes & before & after & Hsplit & Hafter).
      split; [exact Hne|]. split.
      * intros c Hc. specialize (Hbytes c Hc).
        split; [|split; [|exact Hbytes]]; intros ->; discriminate Hbytes.
      * now exists text, before, after.
    + split; [discriminate|]. intros version err H. now injection H as <- _.
  - split; [discriminate|]. intros version err H. now injection H as <- _.
Qed.

End DockerVersion.

Lemma getDockerVersion_result_witness :
  system.getDockerVersion
    (system.dockerVersionOutput scenarios.ubuntuProbe) = ("24.0.7", None) /\
  (forall c, In c (list_ascii_of_string "24.0.7") -> c <> ","%char /\ c <> " "%char).
Proof.
  assert (H : system.getDockerVersion
                (system.dockerVersionOutput scenarios.ubuntuProbe) = ("24.0.7", None))
    by reflexivity.
  split; [exact H|].
  destruct (getDockerVersion_result (system.dockerVersionOutput scenarios.ubuntuProbe))
    as [Hok _].
  destruct (Hok _ H) as (_ & Hbytes & _).
  intros c Hc. destruct (Hbytes c Hc) as (Hcomma & Hblank & _). now split.
Defined.

(** ** Package container: the errors of a run *)
Section RunnerErrors.
Import types.

Let created (h : container.Host) (path : string) : Prop :=
  container.os_MkdirAll h path = None.

Lemma mkSubdirs_first_failure (h : container.Host) (dataDir : string)
    (subdirs : list string) (err : error) :
  container.mkSubdirs h dataDir subdirs = Some err <->
  exists before subdir after cause,
    subdirs = (before ++ subdir :: after)%list /\
    Forall (fun s => created h (dataDir ++ "/" ++ s)) before /\
    container.os_MkdirAll h (dataDir ++ "/" ++ subdir) = Some cause /\
    err = wrapError ("failed to create directory " ++ (dataDir ++ "/" ++ subdir) ++ ": ")
            cause.
Proof.
  induction subdirs as [|s rest IH]; cbn [container.mkSubdirs].
  - split; [discriminate|]. intros (before & subdir & after & cause & H & _).
    destruct before; discriminate H.
  - destruct (container.os_MkdirAll h (dataDir ++ "/" ++ s)) as [cause|] eqn:Hs.
    + split.
      * intros H. injection H as <-. exists [], s, rest, cause.
        repeat split; [apply Forall_nil|exact Hs].
      * intros (before & subdir & after & cause' & H & Hbefore & Hfail & ->).
        destruct before as [|b before]; cbn in H; injection H as <- _.
        -- rewrite Hs in Hfail. now injection Hfail as <-.
        -- apply Forall_inv in Hbefore. unfold created in Hbefore. congruence.
    + rewrite IH. split.
      * intros (before & subdir & after & cause & -> & Hbefore & Hfail & ->).
        exists (s :: before), subdir, after, cause.
        repeat split; [apply Forall_cons; assumption|exact Hfail].
      * intros (before & subdir & after & cause & H & Hbefore & Hfail & ->).
        destruct before as [|b before]; cbn in H; injection H as <- ->.
        -- congruence.
        -- exists before, subdir, after, cause.
           repeat split; [exact (Forall_inv_tail Hbefore)|exact Hfail].
Qed.

Lemma workspace_paths :
  container.workspace =
  constants.DefaultInstallPath ::
    map (fun s => constants.DefaultInstallPath ++ "/" ++ s)
      ["data"; "logs"; "configs"; "backups"; "docker"].
Proof. reflexivity. Qed.

Lemma ensureDataDirectory_first_failure (h : container.Host) (err : error) :
  container.ensureDataDirectory h = Some err <->
  exists before path after cause,
    container.workspace = (before ++ path :: after)%list /\
    Forall (created h) before /\
    container.os_MkdirAll h path = Some cause /\
    err = wrapError ("failed to create directory " ++ path ++ ": ") cause.
Proof.
  rewrite workspace_paths. unfold container.ensureDataDirectory.
  set (dataDir := constants.DefaultInstallPath).
  set (subdirs := ["data"; "logs"; "configs"; "backups"; "docker"]).
  set (pathOf := fun s : string => dataDir ++ "/" ++ s).
  destruct (container.os_MkdirAll h dataDir) as [cause|] eqn:Hroot.
  - split.
    + intros H. injection H as <-. exists [], dataDir, (map pathOf subdirs), cause.
      repeat split; [apply Forall_nil|exact Hroot].
    + intros (before & path & after & cause' & H & Hbefore & Hfail & ->).
      destruct before as [|b before]; cbn [app] in H; injection H as <- _.
      * rewrite Hroot in Hfail. now injection Hfail as <-.
      * apply Forall_inv in Hbefore. unfold created in Hbefore. congruence.
  - rewrite mkSubdirs_first_failure. split.
    + intros (before & subdir & after & cause & Hsplit & Hbefore & Hfail & ->).
      exists (dataDir :: map pathOf before), (pathOf subdir), (map pathOf after), cause.
      split; [now rewrite Hsplit, map_app|].
      split; [|now split].
      apply Forall_cons; [exact Hroot|]. now apply Forall_map.
    + intros (before & path & after & cause & H & Hbefore & Hfail & ->).
      destruct before as [|b before]; cbn [app] in H; injection H as <- H.
      * congruence.
      * change (map pathOf subdirs = (before ++ path :: after)%list) in H.
        apply map_eq_app in H.
        destruct H as (before' & tail & Hsplit & <- & Htail).
        apply map_eq_cons in Htail. destruct Htail as (subdir & after' & -> & <- & <-).
        exists before', subdir, after', cause.
        split; [exact Hsplit|]. split; [|now split].
        apply Forall_inv_tail in Hbefore.
        exact (proj1 (Forall_map pathOf (created h) before') Hbefore).
Qed.

Lemma ensureDataDirectory_creates_all (h : container.Host) :
  container.ensureDataDirectory h = None <-> Forall (created h) container.workspace.
Proof.
  split; [|intros Hall; apply ensureDataDirectory_ok; exact (proj1 (Forall_forall _ _) Hall)].
  intros Hnone. apply Forall_forall. intros path Hin. unfold created.
  destruct (container.os_MkdirAll h path) as [cause|] eqn:Hpath; [exfalso|reflexivity].
  apply in_split in Hin. destruct Hin as (before & after & Hsplit).
  revert before Hsplit. 
  assert (Hfirst : forall before,
            exists before' first after' cause',
              (before ++ path :: after)%list = (before' ++ first :: after')%list /\
              Forall (created h) before' /\
              container.os_MkdirAll h first = Some cause').
  { induction before as [|b before IH].
    - exists [], path, after, cause. repeat split; [apply Forall_nil|exact Hpath].
    - destruct (container.os_MkdirAll h b) as [cause'|] eqn:Hb.
      + exists [], b, (before ++ path :: after)%list, cause'.
        repeat split; [apply Forall_nil|exact Hb].
      + destruct IH as (before' & first & after' & cause' & Heq & Hbefore & Hfirst).
        exists (b :: before'), first, after', cause'.
        split; [cbn [app]; now rewrite Heq|].
        split; [apply Forall_cons; assumption|exact Hfirst]. }
  intros before Hsplit.
  destruct (Hfirst before) as (before' & first & after' & cause' & Hs & Hb & Hf).
  rewrite <- Hsplit in Hs.
  assert (Hsome : container.ensureDataDirectory h =
                  Some (wrapError ("failed to create directory " ++ first ++ ": ") cause')).
  { apply ensureDataDirectory_first_failure. now exists before', first, after', cause'. }
  congruence.
Qed.

(** [ensureDataDirectory] creates the six directories of the workspace in
    order and stops at the first that cannot be created: its error names
    that directory and wraps what [os.MkdirAll] returned; the directories
    after it are not tried. *)
Theorem ensureDataDirectory_stops_at_first_failure (h : container.Host) :
  (forall err,
     container.ensureDataDirectory h = Some err <->
     exists before path after cause,
       container.workspace = (before ++ path :: after)%list /\
       Forall (created h) before /\
       container.os_MkdirAll h path = Some cause /\
       err = wrapError ("failed to create directory " ++ path ++ ": ") cause) /\
  (container.ensureDataDirectory h = None <-> Forall (created h) container.workspace).
Proof.
  split; [intros err; apply ensureDataDirectory_first_failure|].
  apply ensureDataDirectory_creates_all.
Qed.

Lemma pullImage_fails (h : container.Host) (err : error) :
  container.pullImage h = Some err ->
  ~ container.completed (container.dockerPull h) /\
  exists prefix cause, err = wrapError prefix cause.
Proof.
  unfold container.pullImage, container.completed, container.started.
  destruct (container.StdoutPipe_err _) as [e|];
    [intros H; injection H as <-; split; [intros ((F & _) & _); discriminate F|now eexists _, _]|].
  destruct (container.StderrPipe_err _) as [e|];
    [intros H; injection H as <-; split; [intros ((_ & F & _) & _); discriminate F|now eexists _, _]|].
  destruct (container.Start_err _) as [e|];
    [intros H; injection H as <-; split; [intros ((_ & _ & F) & _); discriminate F|now eexists _, _]|].
  destruct (container.Wait_err _) as [e|]; [|discriminate].
  intros H; injection H as <-; split; [intros (_ & F); discriminate F|now eexists _, _].
Qed.

(** An error of [RunInstaller] is of one of five kinds.  Three are
    structured errors of the component "container": permission-denied
    when a directory of the workspace could not be created, with the text
    of the failure as its details; network-timeout when the pull did not
    complete; and what [processContainerError] makes of the error of
    [cmd.Wait()].  The other two are not structured: a wrapped error
    (the configuration could not be serialized, the container did not
    start, or an error came from the two streams, also when that error was
    a structured one read from standard error), and [ctx.Err()]. *)
Theorem RunInstaller_error_kinds (h : container.Host) (config : InstallationConfig)
    (err : error) :
  container.RunInstaller h config = Some err ->
  (exists e path cause,
     err = installError e /\
     Code e = ErrCodePermissionDenied /\
     Component (Context e) = "container" /\ Operation (Context e) = "preparation" /\
     In path container.workspace /\
     container.os_MkdirAll h path = Some cause /\
     Details e = "failed to create directory " ++ path ++ ": " ++ Error cause) \/
  (exists e,
     err = installError e /\
     Code e = ErrCodeNetworkTimeout /\
     Component (Context e) = "container" /\ Operation (Context e) = "pull" /\
     Forall (created h) container.workspace /\
     ~ container.completed (container.dockerPull h)) \/
  (exists cause,
     err = installError (container.processContainerError (container.time_Now h) cause) /\
     container.selected h = container.RecvWait /\
     container.Wait_err (container.dockerRun h) = Some cause) \/
  (exists prefix cause,
     err = wrapError prefix cause /\
     In prefix [ "failed to serialize configuration: ";
                 "failed to create stdout pipe: ";
                 "failed to create stderr pipe: ";
                 "failed to start installer container: ";
                 "container stream error: " ] /\
     (prefix = "container stream error: " ->
      container.selected h = container.RecvError (Some cause))) \/
  (err = container.ctx_Err h /\ container.selected h = container.CtxDone).
Proof.
  unfold container.RunInstaller.
  destruct (container.ensureDataDirectory h) as [e0|] eqn:Hdirs.
  { intros H. injection H as <-. left.
    apply ensureDataDirectory_first_failure in Hdirs.
    destruct Hdirs as (before & path & after & cause & Hsplit & _ & Hfail & ->).
    eexists _, path, cause. split; [reflexivity|].
    repeat split; [|exact Hfail|].
    - rewrite Hsplit. apply in_or_app. right. now left.
    - cbn. now rewrite string_app_assoc. }
  pose proof (proj1 (ensureDataDirectory_creates_all h) Hdirs) as Hall.
  destruct (container.pullImage h) as [e0|] eqn:Hpull.
  { intros H. injection H as <-. right. left.
    destruct (pullImage_fails h e0 Hpull) as (Hnot & _).
    eexists. split; [reflexivity|]. now repeat split. }
  destruct (container.runContainer h config) as [e0|] eqn:Hrun; [|discriminate].
  intros H. injection H as <-. right. right.
  revert Hrun. unfold container.runContainer.
  destruct (container.json_Marshal h config) as [configJSON|e].
  2:{ intros H. injection H as <-. right. left. eexists _, _.
      split; [reflexivity|]. split; [cbn; tauto|discriminate]. }
  destruct (container.StdoutPipe_err (container.dockerRun h)) as [e|].
  { intros H. injection H as <-. right. left. eexists _, _.
    split; [reflexivity|]. split; [cbn; tauto|discriminate]. }
  destruct (container.StderrPipe_err (container.dockerRun h)) as [e|].
  { intros H. injection H as <-. right. left. eexists _, _.
    split; [reflexivity|]. split; [cbn; tauto|discriminate]. }
  destruct (container.Start_err (container.dockerRun h)) as [e|].
  { intros H. injection H as <-. right. left. eexists _, _.
    split; [reflexivity|]. split; [cbn; tauto|discriminate]. }
  destruct (container.selected h) as [|[e|]|] eqn:Hsel.
  - destruct (container.Wait_err (container.dockerRun h)) as [e|] eqn:Hwait;
      [|discriminate].
    intros H. injection H as <-. left. now exists e.
  - intros H. injection H as <-. right. left. eexists _, _.
    split; [reflexivity|]. split; [cbn; tauto|reflexivity].
  - discriminate.
  - intros H. injection H as <-. right. right. now split.
Qed.

End RunnerErrors.

Lemma RunInstaller_error_kinds_witness :
  exists err,
    container.RunInstaller scenarios.lockedLogs scenarios.devConfig = Some err /\
    types.Error err =
      "failed to create data directory: failed to create directory /opt/subosity/logs: mkdir /opt/subosity/logs: permission denied" /\
    ((exists e, err = types.installError e /\ types.Code e = types.ErrCodePermissionDenied) \/
     (exists e, err = types.installError e /\ types.Code e = types.ErrCodeNetworkTimeout) \/
     (exists e, err = types.installError e) \/
     (exists prefix cause, err = types.wrapError prefix cause) \/
     err = container.ctx_Err scenarios.lockedLogs).
Proof.
  eexists. split; [vm_compute; reflexivity|]. split; [reflexivity|].
  destruct (RunInstaller_error_kinds scenarios.lockedLogs scenarios.devConfig _ eq_refl)
    as [(e & _ & _ & He & Hc & _)|[(e & He & Hc & _)|[(c & He & _)|[(p & c & He & _)|[He _]]]]].
  - left. now exists e.
  - right. left. now exists e.
  - right. right. left. now eexists.
  - right. right. right. left. now exists p, c.
  - right. right. right. right. exact He.
Defined.

(** ** Package os: the calls of a computation *)
Section Traces.
Import types.
Import os.

Variable World : Type.
Variable respond : World -> Call -> World * (string * option error).

Lemma traced_ret (A : Type) (a : A) (post : A -> list Call -> Prop) :
  post a [] -> traced (World := World) (ret a) post.
Proof. intros H st. exists []. cbn. now rewrite app_nil_r. Qed.

Lemma traced_bind (A B : Type) (m : Process World A) (k : A -> Process World B)
    (P : A -> list Call -> Prop) (Q : B -> list Call -> Prop) :
  traced m P ->
  (forall a n1, P a n1 -> traced (k a) (fun b n2 => Q b (n1 ++ n2)%list)) ->
  traced (bind m k) Q.
Proof.
  intros Hm Hk st. unfold bind.
  destruct (Hm st) as (n1 & Hcalls1 & HP).
  destruct (m st) as [a st1]. cbn [fst snd] in *.
  destruct (Hk a n1 HP st1) as (n2 & Hcalls2 & HQ).
  exists (n1 ++ n2)%list. split; [|exact HQ].
  now rewrite Hcalls2, Hcalls1, app_assoc.
Qed.

Lemma traced_weaken (A : Type) (m : Process World A) (P Q : A -> list Call -> Prop) :
  traced m P -> (forall a new, P a new -> Q a new) -> traced m Q.
Proof.
  intros Hm HPQ st. destruct (Hm st) as (new & Hcalls & HP).
  exists new. split; [exact Hcalls|exact (HPQ _ _ HP)].
Qed.

Lemma traced_call (c : Call) (post : string * option error -> list Call -> Prop) :
  (forall answer, post answer [c]) -> traced (call respond c) post.
Proof.
  intros H st. exists [c]. unfold call.
  destruct (respond (world st) c) as [w answer]. cbn. split; [reflexivity|apply H].
Qed.

Lemma traced_Log (level : container.Level) (line : string)
    (post : unit -> list Call -> Prop) :
  post tt [] -> traced (World := World) (Log level line) post.
Proof. intros H st. exists []. cbn. now rewrite app_nil_r. Qed.

Lemma traced_Println (line : string) (post : unit -> list Call -> Prop) :
  post tt [] -> traced (World := World) (Println line) post.
Proof. intros H st. exists []. cbn. now rewrite app_nil_r. Qed.

Lemma traced_Getenv (os_Getenv : World -> string -> string) (key : string)
    (post : string -> list Call -> Prop) :
  (forall value, post value []) -> traced (Getenv os_Getenv key) post.
Proof. intros H st. exists []. cbn. rewrite app_nil_r. split; [reflexivity|apply H]. Qed.

Lemma traced_Now (time_Now : World -> Time) (post : Time -> list Call -> Prop) :
  (forall now, post now []) -> traced (Now time_Now) post.
Proof. intros H st. exists []. cbn. rewrite app_nil_r. split; [reflexivity|apply H]. Qed.

(** A step that follows its plan, and on success the steps after it that
    follow theirs: together they follow the two plans in a row.  The plan
    of the later steps may depend on something read on the way. *)
Lemma traced_then_ex (X : Type) (x0 : X) (m : Process World (option error))
    (k : option error -> Process World (option error))
    (plan1 : list Call) (plan2 : X -> list Call) (R : option error -> Prop) :
  traced m (follows plan1) ->
  (forall err,
     traced (k (Some err)) (fun result new => result <> None /\ R result /\ new = [])) ->
  traced (k None) (fun result new => (exists x, follows (plan2 x) result new) /\ R result) ->
  traced (bind m k)
    (fun result new => (exists x, follows (plan1 ++ plan2 x) result new) /\ R result).
Proof.
  intros Hm Hfail Hnext.
  apply (traced_bind _ _ m k (follows plan1)); [exact Hm|].
  intros [err|] n1 (rest & Hplan & Hrest).
  - eapply traced_weaken; [apply Hfail|].
    intros result new (Hsome & HR & ->). split; [|exact HR].
    exists x0, (rest ++ plan2 x0)%list.
    split; [now rewrite Hplan, app_nil_r, app_assoc|].
    intros Hnone. now apply Hsome in Hnone.
  - rewrite (Hrest eq_refl), app_nil_r in Hplan. subst n1.
    eapply traced_weaken; [apply Hnext|].
    intros result new ((x & rest2 & Hplan2 & Hrest2) & HR). split; [|exact HR].
    exists x, rest2. split; [now rewrite Hplan2, app_assoc|exact Hrest2].
Qed.

Lemma traced_then (m : Process World (option error))
    (k : option error -> Process World (option error)) (plan1 plan2 : list Call) :
  traced m (follows plan1) ->
  (forall err, traced (k (Some err)) (fun result new => result <> None /\ new = [])) ->
  traced (k None) (follows plan2) ->
  traced (bind m k) (follows (plan1 ++ plan2)).
Proof.
  intros Hm Hfail Hnext.
  apply (traced_weaken _ _
           (fun result new =>
              (exists _ : unit, follows (plan1 ++ plan2) result new) /\ True)).
  - apply (traced_then_ex unit tt m k plan1 (fun _ => plan2) (fun _ => True)).
    + exact Hm.
    + intros err. eapply traced_weaken; [apply Hfail|]. intros result new [H ->]. auto.
    + eapply traced_weaken; [apply Hnext|]. intros result new H. split; [now exists tt|exact I].
  - intros result new [[_ H] _]. exact H.
Qed.

Lemma traced_ex_then (X : Type) (m : Process World (option error))
    (k : option error -> Process World (option error))
    (plan1 : X -> list Call) (plan2 : list Call) (R : option error -> Prop) :
  traced m (fun result new => exists x, follows (plan1 x) result new) ->
  (forall err,
     traced (k (Some err)) (fun result new => result <> None /\ R result /\ new = [])) ->
  traced (k None) (fun result new => follows plan2 result new /\ R result) ->
  traced (bind m k)
    (fun result new => (exists x, follows (plan1 x ++ plan2) result new) /\ R result).
Proof.
  intros Hm Hfail Hnext.
  apply traced_bind with (P := fun result new => exists x, follows (plan1 x) result new);
    [exact Hm|].
  intros [err|] n1 (x & rest & Hplan & Hrest).
  - eapply traced_weaken; [apply Hfail|].
    intros result new (Hsome & HR & ->). split; [|exact HR].
    exists x, (rest ++ plan2)%list.
    split; [now rewrite Hplan, app_nil_r, app_assoc|].
    intros Hnone. now apply Hsome in Hnone.
  - rewrite (Hrest eq_refl), app_nil_r in Hplan.
    eapply traced_weaken; [apply Hnext|].
    intros result new ((rest2 & Hplan2 & Hrest2) & HR). split; [|exact HR].
    exists x, rest2. split; [now rewrite Hplan, Hplan2, app_assoc|exact Hrest2].
Qed.

Lemma traced_after_Log (A : Type) (level : container.Level) (line : string)
    (m : Process World A) (post : A -> list Call -> Prop) :
  traced m post -> traced (bind (Log level line) (fun _ => m)) post.
Proof.
  intros Hm. apply (traced_bind _ _ _ _ (fun _ new => new = [])).
  - now apply traced_Log.
  - intros _ n1 ->. exact Hm.
Qed.

Lemma follows_done (plan : list Call) (err : option error) : follows plan err plan.
Proof. exists []. now rewrite app_nil_r. Qed.

Lemma follows_cons (c : Call) (plan : list Call) (err : option error) (new : list Call) :
  follows plan err new -> follows (c :: plan) err (c :: new).
Proof. intros (rest & -> & Hrest). now exists rest. Qed.

End Traces.

(** ** Package docker: the installation of Docker *)
Section DockerService.
Import types.
Import os.

Variable World : Type.
Variable respond : World -> Call -> World * (string * option error).
Variable os_Getenv : World -> string -> string.
Variable time_Now : World -> Time.

Local Open Scope process_scope.

Lemma runCommand_calls (name : string) (args : list string) :
  traced (docker.runCommand respond name args)
    (fun _ new => new = [Exec (Command name args) CombinedOutput]).
Proof.
  unfold docker.runCommand. apply traced_after_Log.
  apply traced_bind with (P := fun _ new => new = [Exec (Command name args) CombinedOutput]).
  - now apply traced_call.
  - intros [output [err|]] n1 ->.
    + apply traced_bind with (P := fun _ new => new = []); [now apply traced_Log|].
      intros _ n2 ->. now apply traced_ret.
    + now apply traced_ret.
Qed.

Lemma runCommand_follows (name : string) (args : list string) :
  traced (docker.runCommand respond name args)
    (follows [Exec (Command name args) CombinedOutput]).
Proof.
  eapply traced_weaken; [apply runCommand_calls|].
  intros err new ->. apply follows_done.
Qed.

(** A command of a step, then the steps after it. *)
Lemma runCommand_then (name : string) (args : list string)
    (k : option error -> Process World (option error)) (plan : list Call) :
  (forall err, traced (k (Some err)) (fun result new => result <> None /\ new = [])) ->
  traced (k None) (follows plan) ->
  traced (bind (docker.runCommand respond name args) k)
    (follows (Exec (Command name args) CombinedOutput :: plan)).
Proof.
  intros Hfail Hnext.
  apply traced_then with (plan1 := [Exec (Command name args) CombinedOutput]) (plan2 := plan).
  - apply runCommand_follows.
  - exact Hfail.
  - exact Hnext.
Qed.

Lemma traced_fails (err : error) :
  traced (World := World) (ret (Some err)) (fun result new => result <> None /\ new = []).
Proof. apply traced_ret. split; [discriminate|reflexivity]. Qed.

Lemma removeConflictingPackages_never_fails :
  traced (docker.removeConflictingPackages respond)
    (fun err new =>
       err = None /\
       new = [ docker.sudo [ "apt-get"; "remove"; "-y"; "docker.io"; "docker-doc";
                             "docker-compose"; "docker-compose-v2"; "podman-docker";
                             "containerd"; "runc" ] ]).
Proof.
  unfold docker.removeConflictingPackages. apply traced_after_Log.
  match goal with
  | |- traced (bind (call _ ?c) _) _ => apply traced_bind with (P := fun _ new => new = [c])
  end; [now apply traced_call|].
  intros [output [err|]] n1 ->.
  - apply traced_bind with (P := fun _ new => new = []); [now apply traced_Log|].
    intros _ n2 ->. apply traced_ret. now split.
  - apply traced_ret. now split.
Qed.

Lemma setupDockerRepository_follows :
  traced (docker.setupDockerRepository respond)
    (follows
       [ docker.sudo ["apt-get"; "update"];
         docker.sudo ["apt-get"; "install"; "-y"; "ca-certificates"; "curl"];
         docker.sudo ["install"; "-m"; "0755"; "-d"; "/etc/apt/keyrings"];
         docker.sudo ["curl"; "-fsSL"; "https://download.docker.com/linux/ubuntu/gpg"; "-o";
                      "/etc/apt/keyrings/docker.asc"];
         docker.sudo ["chmod"; "a+r"; "/etc/apt/keyrings/docker.asc"];
         Exec (Command "bash"
                 ["-c"; "echo '" ++ docker.repoLine
                        ++ "' | sudo tee /etc/apt/sources.list.d/docker.list > /dev/null"])
              CombinedOutput;
         docker.sudo ["apt-get"; "update"] ]).
Proof.
  unfold docker.setupDockerRepository. apply traced_after_Log.
  repeat (apply runCommand_then; [intros err; apply traced_fails|]).
  apply traced_ret. apply follows_done.
Qed.

Lemma installDockerPackages_follows :
  traced (docker.installDockerPackages respond)
    (follows
       [ docker.sudo [ "apt-get"; "install"; "-y"; "docker-ce"; "docker-ce-cli";
                       "containerd.io"; "docker-buildx-plugin"; "docker-compose-plugin" ] ]).
Proof.
  unfold docker.installDockerPackages. apply traced_after_Log.
  apply runCommand_then; [intros err; apply traced_fails|].
  apply traced_ret. apply follows_done.
Qed.

(** The user that [configureDocker] adds to the group docker. *)
Let usermod (user : string) : list Call :=
  if negb (String.eqb user "") && negb (String.eqb user "root")
  then [docker.sudo ["usermod"; "-aG"; "docker"; user]] else [].

Lemma configureDocker_follows :
  traced (docker.configureDocker respond os_Getenv)
    (fun err new =>
       exists user,
         follows ([ docker.sudo ["systemctl"; "start"; "docker"];
                    docker.sudo ["systemctl"; "enable"; "docker"] ] ++ usermod user)
           err new).
Proof.
  unfold docker.configureDocker. apply traced_after_Log.
  set (start := docker.sudo ["systemctl"; "start"; "docker"]).
  set (enable := docker.sudo ["systemctl"; "enable"; "docker"]).
  eapply traced_weaken.
  - apply traced_then_ex with (x0 := "") (plan1 := [start])
      (plan2 := fun user => enable :: usermod user) (R := fun _ => True).
    + apply runCommand_follows.
    + intros err. apply traced_ret. repeat split. discriminate.
    + eapply traced_weaken.
      * apply traced_then_ex with (x0 := "") (plan1 := [enable]) (plan2 := usermod)
          (R := fun _ => True).
        -- apply runCommand_follows.
        -- intros err. apply traced_ret. repeat split. discriminate.
        -- apply traced_bind with (P := fun _ new => new = []);
             [now apply traced_Getenv|].
           intros user0 n0 ->.
           apply traced_bind with (P := fun _ new => new = []).
           { destruct (String.eqb user0 ""); [now apply traced_Getenv|now apply traced_ret]. }
           intros user n1 ->.
           apply traced_bind with (P := fun _ new => new = usermod user).
           { unfold usermod.
             destruct (negb (String.eqb user "") && negb (String.eqb user "root"));
               [|now apply traced_ret].
             eapply traced_bind; [apply runCommand_calls|].
             intros [err|] n2 ->; cbv beta; now apply traced_Log. }
           intros _ n2 ->. apply traced_ret. split; [|exact I].
           exists user. cbn [app]. rewrite app_nil_r. apply follows_done.
      * cbv beta. intros result new [(user & H) _]. split; [|exact I]. now exists user.
  - cbv beta. intros result new [(user & H) _]. now exists user.
Qed.

Lemma verifyInstallation_follows :
  traced (docker.verifyInstallation respond)
    (follows [ Sleep 2;
               docker.sudo ["docker"; "run"; "--rm"; "hello-world"];
               Exec (Command "docker" ["compose"; "version"]) Run ]).
Proof.
  unfold docker.verifyInstallation. apply traced_after_Log.
  apply traced_bind with (P := fun _ new => new = [Sleep 2]); [now apply traced_call|].
  intros _ n1 ->.
  eapply traced_weaken; [|intros result new H; exact (follows_cons (Sleep 2) _ _ _ H)].
  apply runCommand_then; [intros err; apply traced_fails|].
  apply traced_bind
    with (P := fun _ new => new = [Exec (Command "docker" ["compose"; "version"]) Run]);
    [now apply traced_call|].
  intros [output [err|]] n2 ->; apply traced_ret; apply follows_done.
Qed.

(** An error of [Install]: made by [errors.WrapError], of the member
    docker-install-failed, naming the step after the removal that failed. *)
Let structured (result : option error) : Prop :=
  forall err, result = Some err ->
  exists e cause,
    err = installError e /\
    Code e = ErrCodeDockerInstall /\
    Component (Context e) = "docker" /\
    In (Operation (Context e))
       ["repository"; "installation"; "configuration"; "verification"] /\
    Cause e = Some cause /\
    Details e = Error cause /\
    Suggestions e = [].

Lemma WrapError_structured (cause : error) (message operation : string) :
  In operation ["repository"; "installation"; "configuration"; "verification"] ->
  traced (docker.WrapError time_Now cause ErrCodeDockerInstall message "docker" operation)
    (fun result new => result <> None /\ structured result /\ new = []).
Proof.
  intros Hop. unfold docker.WrapError.
  apply traced_bind with (P := fun _ new => new = []); [now apply traced_Now|].
  intros now n1 ->. apply traced_ret. split; [discriminate|]. split; [|reflexivity].
  intros err H. injection H as <-. eexists _, cause. now repeat split.
Qed.

Lemma installation_steps (user : string) :
  docker.installation user =
  (docker.sudo [ "apt-get"; "remove"; "-y"; "docker.io"; "docker-doc"; "docker-compose";
                 "docker-compose-v2"; "podman-docker"; "containerd"; "runc" ]
   :: [ docker.sudo ["apt-get"; "update"];
        docker.sudo ["apt-get"; "install"; "-y"; "ca-certificates"; "curl"];
        docker.sudo ["install"; "-m"; "0755"; "-d"; "/etc/apt/keyrings"];
        docker.sudo ["curl"; "-fsSL"; "https://download.docker.com/linux/ubuntu/gpg"; "-o";
                     "/etc/apt/keyrings/docker.asc"];
        docker.sudo ["chmod"; "a+r"; "/etc/apt/keyrings/docker.asc"];
        Exec (Command "bash"
                ["-c"; ("echo '" ++ docker.repoLine
                        ++ "' | sudo tee /etc/apt/sources.list.d/docker.list > /dev/null")%string])
             CombinedOutput;
        docker.sudo ["apt-get"; "update"] ]
      ++ [ docker.sudo [ "apt-get"; "install"; "-y"; "docker-ce"; "docker-ce-cli";
                         "containerd.io"; "docker-buildx-plugin"; "docker-compose-plugin" ] ]
      ++ ([ docker.sudo ["systemctl"; "start"; "docker"];
            docker.sudo ["systemctl"; "enable"; "docker"] ] ++ usermod user)
      ++ [ Sleep 2;
           docker.sudo ["docker"; "run"; "--rm"; "hello-world"];
           Exec (Command "docker" ["compose"; "version"]) Run ])%list.
Proof.
  unfold docker.installation, usermod.
  destruct (negb (String.eqb user "") && negb (String.eqb user "root")); reflexivity.
Qed.

Lemma Install_traced :
  traced (docker.Install respond os_Getenv time_Now)
    (fun result new =>
       (exists user, follows (docker.installation user) result new) /\ structured result).
Proof.
  unfold docker.Install. apply traced_after_Log.
  eapply traced_bind; [apply removeConflictingPackages_never_fails|].
  intros [err|] n1 [Hnone ->]; [discriminate Hnone|]. cbv beta iota.
  eapply traced_weaken.
  - eapply traced_then_ex with (x0 := "") (R := structured);
      [apply setupDockerRepository_follows
      |intros err; apply WrapError_structured; cbn; tauto|].
    eapply traced_then_ex with (x0 := "") (R := structured);
      [apply installDockerPackages_follows
      |intros err; apply WrapError_structured; cbn; tauto|].
    eapply traced_ex_then with (R := structured);
      [apply configureDocker_follows
      |intros err; apply WrapError_structured; cbn; tauto|].
    eapply traced_weaken.
    + eapply traced_then_ex with (x0 := tt) (plan2 := fun _ : unit => []) (R := structured);
        [apply verifyInstallation_follows
        |intros err; apply WrapError_structured; cbn; tauto|].
      apply traced_bind with (P := fun _ new => new = []); [now apply traced_Println|].
      intros _ n2 ->. apply traced_ret. split; [exists tt; apply follows_done|].
      intros err H. discriminate H.
    + cbv beta. intros result new [(_ & H) HR]. split; [|exact HR].
      rewrite app_nil_r in H. exact H.
  - cbv beta. intros result new [(user & H) HR]. split; [|exact HR].
    exists user. rewrite installation_steps. cbn [app]. apply follows_cons. exact H.
Qed.

(** Whatever the system answers, the calls that [Install] makes are the
    first ones of the installation, in its order, for some user to add to
    the group docker (or none): it makes no other call and skips none.
    When it returns nil it has made them all, so that a failure of the
    removal of the conflicting packages, or of the addition of the user,
    does not end it. *)
Theorem Install_runs_the_installation_in_order (st : State World) :
  exists user new rest,
    calls (snd (docker.Install respond os_Getenv time_Now st)) = (calls st ++ new)%list /\
    docker.installation user = (new ++ rest)%list /\
    (fst (docker.Install respond os_Getenv time_Now st) = None -> rest = []).
Proof.
  destruct (Install_traced st) as (new & Hcalls & (user & rest & Hplan & Hrest) & _).
  exists user, new, rest. split; [exact Hcalls|]. split; [exact Hplan|exact Hrest].
Qed.

(** Every error of [Install] is a structured error of the member
    docker-install-failed and of the component "docker", whose operation
    is that of the step that failed: never "cleanup", as the removal of
    conflicting packages does not fail.  It wraps the error of the step,
    whose text is its details, and carries no suggestion. *)
Theorem Install_errors_are_docker_install_failed (st : State World) (err : error) :
  fst (docker.Install respond os_Getenv time_Now st) = Some err ->
  exists e cause,
    err = installError e /\
    Code e = ErrCodeDockerInstall /\
    Component (Context e) = "docker" /\
    In (Operation (Context e))
       ["repository"; "installation"; "configuration"; "verification"] /\
    Cause e = Some cause /\
    Details e = Error cause /\
    Suggestions e = [].
Proof.
  intros H. destruct (Install_traced st) as (new & _ & _ & Hstructured).
  exact (Hstructured err H).
Qed.

Variable strings_TrimSpace : string -> string.

Lemma IsInstalled_traced :
  traced (docker.IsInstalled respond)
    (fun answer new =>
       snd answer = None /\
       ((fst answer = true /\
         new = [LookPath "docker"; Exec (Command "docker" ["info"]) Run]) \/
        (fst answer = false /\
         (new = [LookPath "docker"] \/
          new = [LookPath "docker"; Exec (Command "docker" ["info"]) Run])))).
Proof.
  unfold docker.IsInstalled.
  apply traced_bind with (P := fun _ new => new = [LookPath "docker"]);
    [now apply traced_call|].
  intros [output [err|]] n1 ->.
  - apply traced_ret. cbn. auto.
  - apply traced_bind with (P := fun _ new => new = [Exec (Command "docker" ["info"]) Run]);
      [now apply traced_call|].
    intros [output' [err|]] n2 ->; apply traced_ret; cbn; auto.
Qed.

Lemma GetVersion_traced :
  traced (docker.GetVersion respond strings_TrimSpace)
    (fun _ new => new = [Exec (Command "docker" ["--version"]) Output]).
Proof.
  unfold docker.GetVersion.
  apply traced_bind with (P := fun _ new => new = [Exec (Command "docker" ["--version"]) Output]);
    [now apply traced_call|].
  intros [output [err|]] n1 ->; now apply traced_ret.
Qed.

Lemma ensureDocker_traced :
  let lookPath := LookPath "docker" in
  let info := Exec (Command "docker" ["info"]) Run in
  let version := Exec (Command "docker" ["--version"]) Output in
  traced (cmd.ensureDocker respond os_Getenv time_Now strings_TrimSpace)
    (fun result new =>
       (exists probe ran,
          new = (probe ++ ran)%list /\
          ((probe = [lookPath; info] /\ ran = [version] /\ result = None) \/
           ((probe = [lookPath] \/ probe = [lookPath; info]) /\
            exists user, follows (docker.installation user) result ran))) /\
       structured result).
Proof.
  intros lookPath info version.
  unfold cmd.ensureDocker. apply traced_after_Log.
  eapply traced_bind; [apply IsInstalled_traced|].
  intros [installed err] n1 [Herr Hprobe]. cbn [fst snd] in Herr, Hprobe. subst err.
  destruct installed.
  - destruct Hprobe as [[_ ->]|[Hfalse _]]; [|discriminate Hfalse].
    eapply traced_bind; [apply GetVersion_traced|].
    intros [found ignored] n2 ->. apply traced_after_Log. apply traced_ret.
    split; [|intros err H; discriminate H].
    exists [lookPath; info], [version]. split; [now rewrite app_nil_r|]. left. auto.
  - destruct Hprobe as [[Htrue _]|[_ Hprobe]]; [discriminate Htrue|].
    apply traced_after_Log.
    eapply traced_bind; [apply Install_traced|].
    intros result n2 [Hfollows Hstructured].
    assert (Hsame : traced (World := World) (ret result)
              (fun result' new => result' = result /\ new = []))
      by now apply traced_ret.
    apply traced_weaken with (P := fun result' new => result' = result /\ new = []).
    + destruct result; exact Hsame.
    + intros result' new [-> ->]. split; [|exact Hstructured].
      exists n1, n2. split; [now rewrite app_nil_r|]. right. split; [|exact Hfollows].
      destruct Hprobe as [->| ->]; auto.
Qed.

Lemma ensureDocker_structured (st : State World) (err : error) :
  fst (cmd.ensureDocker respond os_Getenv time_Now strings_TrimSpace st) = Some err ->
  exists e, err = installError e.
Proof.
  intros H. destruct (ensureDocker_traced st) as (new & _ & _ & Hstructured).
  destruct (Hstructured err H) as (e & cause & -> & _). now exists e.
Qed.

(** [ensureDocker] looks for the [docker] command and may ask the daemon
    for its state.  Then it either reads the version, installs nothing and
    returns nil, which it does only after both answers, or it makes the
    calls of the installation as [Install] does.  The check itself never
    fails: the errors of [ensureDocker] are those of [Install], of the
    member docker-install-failed, and none names the operation "check". *)
Theorem ensureDocker_installs_only_when_needed (st : State World) :
  let run := cmd.ensureDocker respond os_Getenv time_Now strings_TrimSpace st in
  let lookPath := LookPath "docker" in
  let info := Exec (Command "docker" ["info"]) Run in
  let version := Exec (Command "docker" ["--version"]) Output in
  (exists probe new,
     calls (snd run) = (calls st ++ probe ++ new)%list /\
     ((probe = [lookPath; info] /\ new = [version] /\ fst run = None) \/
      ((probe = [lookPath] \/ probe = [lookPath; info]) /\
       exists user rest,
         docker.installation user = (new ++ rest)%list /\
         (fst run = None -> rest = [])))) /\
  (forall err, fst run = Some err ->
     exists e,
       err = installError e /\ Code e = ErrCodeDockerInstall /\
       Component (Context e) = "docker" /\ Operation (Context e) <> "check").
Proof.
  cbv zeta.
  set (lookPath := LookPath "docker").
  set (info := Exec (Command "docker" ["info"]) Run).
  set (version := Exec (Command "docker" ["--version"]) Output).
  pose proof ensureDocker_traced as Htraced. cbv zeta in Htraced.
  destruct (Htraced st) as (new & Hcalls & (probe & ran & -> & Hcases) & Hstructured).
  split.
  - exists probe, ran. split; [exact Hcalls|].
    destruct Hcases as [Hfound|[Hprobe (user & rest & Hplan & Hrest)]]; [now left|].
    right. split; [exact Hprobe|]. now exists user, rest.
  - intros err Herr. destruct (Hstructured err Herr)
      as (e & cause & -> & Hcode & Hcomponent & Hop & _).
    exists e. repeat split; [exact Hcode|exact Hcomponent|].
    intros Hcheck. rewrite Hcheck in Hop. cbn in Hop.
    repeat (destruct Hop as [Hop|Hop]; [discriminate Hop|]). exact Hop.
Qed.

End DockerService.

Lemma Install_errors_are_docker_install_failed_witness :
  exists e,
    fst (docker.Install scenarios.offline scenarios.deployEnv (fun _ => 0) scenarios.fresh)
      = Some (types.installError e) /\
    types.Code e = types.ErrCodeDockerInstall /\
    types.Operation (types.Context e) = "repository" /\
    types.Details e =
      "failed to update package index: command 'sudo apt-get update' failed: exit status 100".
Proof.
  eexists. split; [vm_compute; reflexivity|].
  destruct (Install_errors_are_docker_install_failed unit scenarios.offline
              scenarios.deployEnv (fun _ => 0) scenarios.fresh _ eq_refl)
    as (e & cause & He & Hcode & _).
  injection He as <-. split; [exact Hcode|]. split; reflexivity.
Defined.


(** ** Package main: the six phases of the installer *)
Section InstallerPhases.
Import types.
Import os.

Variable World : Type.
Variable respond : World -> Call -> World * (string * option error).
Variable os_Getenv : World -> string -> string.
Variable time_Now : World -> Time.
Variable json_Unmarshal : string -> InstallationConfig + error.

Local Open Scope process_scope.

Let safe (new : list Call) : Prop := forallb installer.confined new = true.

Lemma safe_bind (A B : Type) (m : Process World A) (k : A -> Process World B) :
  traced m (fun _ new => safe new) ->
  (forall a, traced (k a) (fun _ new => safe new)) ->
  traced (bind m k) (fun _ new => safe new).
Proof.
  intros Hm Hk. apply traced_bind with (P := fun _ new => safe new); [exact Hm|].
  intros a n1 H1. eapply traced_weaken; [apply Hk|].
  intros b n2 H2. unfold safe in *. now rewrite forallb_app, H1, H2.
Qed.

Lemma safe_call (c : Call) :
  installer.confined c = true -> traced (call respond c) (fun _ new => safe new).
Proof.
  intros Hc. apply traced_call. intros answer. unfold safe. cbn. now rewrite Hc.
Qed.

Lemma safe_ret (A : Type) (a : A) : traced (World := World) (ret a) (fun _ new => safe new).
Proof. now apply traced_ret. Qed.

Lemma safe_Println (line : string) :
  traced (World := World) (Println line) (fun _ new => safe new).
Proof. now apply traced_Println. Qed.

Lemma safe_Getenv (key : string) :
  traced (Getenv os_Getenv key) (fun _ new => safe new).
Proof. now apply traced_Getenv. Qed.

Ltac confine :=
  repeat match goal with
  | |- traced (bind _ _) _ => apply safe_bind
  | |- traced (call _ _) _ => apply safe_call; reflexivity
  | |- traced (ret _) _ => apply safe_ret
  | |- traced (Println _) _ => apply safe_Println
  | |- traced (Getenv _ _) _ => apply safe_Getenv
  | |- traced (match ?x with _ => _ end) _ => destruct x
  | |- forall _, _ => intros ?; cbv beta
  end.

Lemma validateContainerEnvironment_confined (config : InstallationConfig) :
  traced (installer.validateContainerEnvironment respond config) (fun _ new => safe new).
Proof. unfold installer.validateContainerEnvironment. confine. Qed.

Lemma prepareInstallation_confined (config : InstallationConfig) :
  traced (installer.prepareInstallation respond config) (fun _ new => safe new).
Proof. unfold installer.prepareInstallation. cbn [installer.mkdirAll]. confine. Qed.

Lemma installSupabase_confined (config : InstallationConfig) :
  traced (installer.installSupabase respond os_Getenv config) (fun _ new => safe new).
Proof.
  unfold installer.installSupabase, installer.installSupabaseCLI,
    installer.initializeSupabaseProject, installer.startSupabaseServices.
  confine.
Qed.

Lemma deployApplication_confined (config : InstallationConfig) :
  traced (installer.deployApplication respond config) (fun _ new => safe new).
Proof.
  unfold installer.deployApplication, installer.createApplicationStructure,
    installer.generateConfigurationFiles, installer.setupSSLCertificates,
    installer.createDockerCompose.
  cbn [installer.mkdirAll]. confine.
Qed.

Lemma verifyInstallation_confined (config : InstallationConfig) :
  traced (installer.verifyInstallation respond config) (fun _ new => safe new).
Proof. unfold installer.verifyInstallation. confine. Qed.

Lemma finalizeInstallation_confined (config : InstallationConfig) :
  traced (installer.finalizeInstallation respond config) (fun _ new => safe new).
Proof.
  unfold installer.finalizeInstallation, installer.createSystemdService,
    installer.startServices, installer.enableServices.
  confine.
Qed.

Let pipelineTime (st : State World) : Time := time_Now (world st).

(** The world that an action leaves is the state in which it ends. *)
Lemma asAction_world (action : InstallationConfig -> Process World (option error))
    (config : InstallationConfig) (st : State World) :
  main.world (installer.asAction action config st) = snd (action config st) /\
  main.err (installer.asAction action config st) = fst (action config st).
Proof. unfold installer.asAction. now destruct (action config st). Qed.

Lemma runPhases_confined (phases : list (main.phase (State World)))
    (config : InstallationConfig) (st : State World) :
  Forall (fun p => forall config st, exists new,
            calls (main.world (main.action p config st)) = (calls st ++ new)%list /\
            safe new) phases ->
  exists new,
    calls (snd (fst (main.runPhases pipelineTime phases config st))) = (calls st ++ new)%list /\
    safe new.
Proof.
  intros Hphases. revert st.
  induction Hphases as [|p rest Hp _ IH]; intros st; cbn [main.runPhases].
  - exists []. now rewrite app_nil_r.
  - destruct (Hp config st) as (n1 & Hcalls1 & Hsafe1).
    destruct (main.err (main.action p config st)); [now exists n1|].
    destruct (IH (main.world (main.action p config st))) as (n2 & Hcalls2 & Hsafe2).
    destruct (main.runPhases pipelineTime rest config (main.world (main.action p config st)))
      as [[events st'] result].
    cbn [fst snd] in *. exists (n1 ++ n2)%list.
    split; [now rewrite Hcalls2, Hcalls1, app_assoc|].
    unfold safe in *. now rewrite forallb_app, Hsafe1, Hsafe2.
Qed.

(** Whatever the system answers and however far the pipeline gets, the
    calls of [runInstall] stay within bounds: the files it looks at are the
    data directory and the socket of Docker; the directories it makes, the
    files it writes and the directory it changes to are under [/app/data];
    and the programs it runs are [sh], [supabase], [openssl], [cp],
    [docker] and [systemctl]. *)
Theorem runInstall_is_confined (st : State World) :
  let run := installer.runInstall respond os_Getenv time_Now json_Unmarshal st in
  exists new,
    calls (snd (fst run)) = (calls st ++ new)%list /\
    forallb installer.confined new = true.
Proof.
  cbv zeta. unfold installer.runInstall, main.runInstall.
  destruct (String.eqb _ ""); [exists []; now rewrite app_nil_r|].
  destruct (json_Unmarshal _) as [config|err]; [|exists []; now rewrite app_nil_r].
  apply runPhases_confined. unfold main.phases.
  repeat apply Forall_cons; [| | | | | |apply Forall_nil];
    intros config' st'; cbn [main.action];
    rewrite (proj1 (asAction_world _ config' st')).
  - apply validateContainerEnvironment_confined.
  - apply prepareInstallation_confined.
  - apply installSupabase_confined.
  - apply deployApplication_confined.
  - apply verifyInstallation_confined.
  - apply finalizeInstallation_confined.
Qed.

(** The loop that ends with an error stopped at a phase whose action
    returned it. *)
Lemma runPhases_failure (phases : list (main.phase (State World)))
    (config : InstallationConfig) (st st' : State World) (events : list main.Event)
    (err : error) :
  main.runPhases pipelineTime phases config st = (events, st', Some err) ->
  exists before p after st1 cause,
    phases = (before ++ p :: after)%list /\
    main.err (main.action p config st1) = Some cause /\
    err = wrapError ("phase " ++ main.name p ++ " failed: ") cause /\
    main.invoked events = (map main.name before ++ [main.name p])%list.
Proof.
  revert st events. induction phases as [|p rest IH]; intros st events Hrun.
  - discriminate Hrun.
  - cbn [main.runPhases] in Hrun.
    destruct (main.err (main.action p config st)) as [cause|] eqn:Hp.
    + injection Hrun as <- <- <-. exists [], p, rest, st, cause.
      repeat split; [exact Hp|].
      cbn [main.invoked map app]. now rewrite invoked_outputs.
    + destruct (main.runPhases pipelineTime rest config (main.world (main.action p config st)))
        as [[events0 st0] result0] eqn:Hrest.
      injection Hrun as <- <- ->.
      destruct (IH _ _ Hrest) as (before & q & after & st1 & cause & -> & Hq & -> & Hinvoked).
      exists (p :: before), q, after, st1, cause.
      repeat split; [exact Hq|].
      cbn [main.invoked map app]. rewrite invoked_app, invoked_outputs.
      cbn [main.invoked app]. now rewrite Hinvoked.
Qed.

Ltac split_phases H before :=
  destruct before as [|? before]; cbn [app] in H;
  [injection H as <- <-|injection H as <- H].

Lemma verifyInstallation_never_fails (config : InstallationConfig) (st : State World) :
  fst (installer.verifyInstallation respond config st) = None.
Proof.
  unfold installer.verifyInstallation, bind, Println, call, ret. cbn.
  now destruct (respond (world st) (Sleep 1)).
Qed.

(** The verification phase cannot fail: whenever [runInstall] calls its
    action it goes on to call that of the last phase.  An error of
    [runInstall] is that of the configuration, missing or not parsed, or
    that of one of the five other phases, wrapped under the name of the
    phase. *)
Theorem verification_phase_never_fails (st : State World) :
  let run := installer.runInstall respond os_Getenv time_Now json_Unmarshal st in
  let called := main.invoked (fst (fst run)) in
  (In "verification" called -> In "complete" called) /\
  (forall err, snd run = Some err ->
     err = errorString "SUBOSITY_CONFIG environment variable is required" \/
     (exists cause, err = wrapError "failed to parse configuration: " cause) \/
     (exists name cause,
        In name ["validation"; "preparation"; "supabase"; "application"; "complete"] /\
        err = wrapError ("phase " ++ name ++ " failed: ") cause)).
Proof.
  cbv zeta. unfold installer.runInstall, main.runInstall.
  destruct (String.eqb _ "").
  { split; [intros []|]. intros err H. injection H as <-. now left. }
  destruct (json_Unmarshal _) as [config|cause].
  2:{ split; [intros []|]. intros err H. injection H as <-. right. left. now exists cause. }
  match goal with
  | |- context [main.runPhases ?t ?ps config st] =>
      destruct (main.runPhases t ps config st) as [[events st'] [err|]] eqn:Hrun
  end; cbn [fst snd].
  - apply runPhases_failure in Hrun.
    destruct Hrun as (before & p & after & st1 & cause & Hsplit & Hp & -> & ->).
    unfold main.phases in Hsplit.
    assert (Hname : In (main.name p)
                      ["validation"; "preparation"; "supabase"; "application"; "complete"] /\
                    (In "verification" (map main.name before) -> main.name p = "complete")).
    { split_phases Hsplit before;
        [|split_phases Hsplit before;
          [|split_phases Hsplit before;
            [|split_phases Hsplit before;
              [|split_phases Hsplit before;
                [|split_phases Hsplit before;
                  [|destruct before; discriminate Hsplit]]]]]];
        cbn [main.name map].
      1-4: split; [cbn; tauto|].
      1-4: intros Hin; cbn in Hin;
           repeat (destruct Hin as [Hin|Hin]; [discriminate Hin|]); destruct Hin.
      - exfalso. cbn [main.action] in Hp.
        rewrite (proj2 (asAction_world _ config st1)) in Hp.
        now rewrite verifyInstallation_never_fails in Hp.
      - split; [cbn; tauto|reflexivity]. }
    destruct Hname as [Hname Hlast]. split.
    + intros Hin. apply in_app_or in Hin. apply in_or_app. right.
      destruct Hin as [Hin|[Hin|[]]]; [left; now apply Hlast|].
      exfalso. rewrite Hin in Hname. cbn in Hname.
      repeat (destruct Hname as [Hname|Hname]; [discriminate Hname|]). exact Hname.
    + intros err H. injection H as <-. right. right. now exists (main.name p), cause.
  - split; [|discriminate].
    intros _. rewrite (runPhases_invoked _ _ _ _ _ _ _ Hrun). cbn. tauto.
Qed.

(** [finalizeInstallation] fails at two places only: when the unit file
    cannot be written, before any command is run, and when
    [docker compose up] fails.  That the unit file cannot be copied to the
    system directory, that the service cannot be enabled and that systemd
    cannot be reloaded does not end it: when it returns nil it has made its
    five calls.  The branch of the error "failed to enable services" is
    never taken. *)
Theorem finalizeInstallation_fails_at_two_places
    (config : InstallationConfig) (st : State World) :
  let run := installer.finalizeInstallation respond config st in
  let servicePath := "/app/data/configs/systemd/subosity.service" in
  let write := WriteFile servicePath installer.serviceContent perm0644 in
  let copy := Exec (Command "cp" [servicePath; "/etc/systemd/system/subosity.service"]) Run in
  let up := Exec {| Path := "docker"; Args := ["compose"; "up"; "-d"];
                    Env := None; Dir := "/app/data" |} CombinedOutput in
  let enable := Exec (Command "systemctl" ["enable"; "subosity.service"]) Run in
  let reload := Exec (Command "systemctl" ["daemon-reload"]) Run in
  exists new,
    calls (snd run) = (calls st ++ new)%list /\
    ((fst run = None /\ new = [write; copy; up; enable; reload] /\
      snd (snd (respond (world st) write)) = None) \/
     (exists cause,
        fst run = Some (wrapError "failed to create systemd service: "
                          (wrapError "failed to write systemd service file: " cause)) /\
        new = [write] /\
        snd (snd (respond (world st) write)) = Some cause) \/
     (exists cause output,
        fst run = Some (wrapError "failed to start services: "
                          (installer.withOutput "failed to start services: " cause output)) /\
        new = [write; copy; up] /\
        snd (snd (respond (world st) write)) = None)).
Proof.
  cbv zeta.
  unfold installer.finalizeInstallation, installer.createSystemdService,
    installer.startServices, installer.enableServices, bind, call, ret, Println.
  cbn [world calls stdout logged fst snd].
  destruct (respond (world st) _) as [w1 [o1 [e1|]]]; cbn [world calls stdout logged fst snd].
  { exists [WriteFile "/app/data/configs/systemd/subosity.service"
              installer.serviceContent perm0644].
    split; [reflexivity|]. right. left. now exists e1. }
  destruct (respond w1 _) as [w2 [o2 e2]].
  destruct e2 as [e2|]; cbn [world calls stdout logged fst snd];
    (destruct (respond w2 _) as [w3 [o3 [e3|]]]; cbn [world calls stdout logged fst snd];
     [eexists; split; [rewrite <- !app_assoc; reflexivity|];
      right; right; now exists e3, o3|]);
    (destruct (respond w3 _) as [w4 [o4 [e4|]]]; cbn [world calls stdout logged fst snd]);
    (destruct (respond w4 _) as [w5 [o5 [e5|]]]; cbn [world calls stdout logged fst snd]);
    (eexists; split; [rewrite <- !app_assoc; reflexivity|]; left; now repeat split).
Qed.

End InstallerPhases.

(** ** Package cmd: the setup command *)
Section SetupCommand.
Import types.
Import os.

Variable strings_ToLower : string -> string.
Variable strings_TrimSpace : string -> string.
Variable mail_ParseAddress : string -> bool.
Variable url_Parse : string -> string + error.
Variable strings_Fields : string -> list string.
Variable strconv_ParseInt : string -> Z + error.
Variable net_DialTimeout : string -> string -> bool.
Variable sudo_n_true : option error.
Variable World : Type.
Variable respond : World -> Call -> World * (string * option error).
Variable os_Getenv : World -> string -> string.
Variable time_Now : World -> Time.

Let runSetup : cmd.Flags -> system.Probe -> container.Host ->
               Process World (list string * cmd.Exit) :=
  cmd.runSetup strings_ToLower strings_TrimSpace mail_ParseAddress url_Parse
    strings_Fields strconv_ParseInt net_DialTimeout sudo_n_true World respond os_Getenv
    time_Now.

Let validateSystem : Time -> system.Probe -> option error :=
  cmd.validateSystem strings_Fields strconv_ParseInt net_DialTimeout sudo_n_true.

Lemma validateSystem_structured (now : Time) (probe : system.Probe) (err : error) :
  validateSystem now probe = Some err -> exists e, err = installError e.
Proof.
  unfold validateSystem, cmd.validateSystem.
  destruct (snd (system.DetectSystem _ _ now probe)) as [hostMetadata|e].
  - destruct (system.ValidateSystemRequirements _ _ now hostMetadata) as [e|];
      [|discriminate].
    intros H. injection H as <-. now exists e.
  - intros H. injection H as <-. now exists e.
Qed.

(** [runSetup] returns only structured errors, each logged as
    [FormatError] shows it.  The configuration, the system and Docker
    give it none of another kind; the runner does, and then the assertion
    on the type of the error panics in place of a return.  It returns nil
    when the configuration was built, the system passed, Docker was there
    or installed, and the runner returned nil. *)
Theorem runSetup_returns_structured_errors_or_panics
    (flags : cmd.Flags) (probe : system.Probe) (h : container.Host) (st : State World) :
  let now := time_Now (world st) in
  let built :=
    snd (cmd.buildConfiguration strings_ToLower strings_TrimSpace mail_ParseAddress
           url_Parse now now flags) in
  let run := runSetup flags probe h st in
  let reports := fst (fst run) in
  let exit := snd (fst run) in
  (forall err, exit = cmd.Returned (Some err) ->
     exists e, err = installError e /\ reports = [errors.FormatError e]) /\
  (exit = cmd.Panicked ->
     exists installConfig err,
       built = inl installConfig /\
       validateSystem now probe = None /\
       container.RunInstaller h installConfig = Some err /\
       (forall e, err <> installError e) /\
       reports = []) /\
  (exit = cmd.Returned None ->
     exists installConfig,
       built = inl installConfig /\
       validateSystem now probe = None /\
       container.RunInstaller h installConfig = None).
Proof.
  cbv zeta. unfold runSetup, cmd.runSetup, bind, Now, ret. cbn [fst snd].
  fold validateSystem.
  destruct (snd (cmd.buildConfiguration _ _ _ _ _ _ flags)) as [installConfig|e];
    cbn [fst snd cmd.report].
  2:{ split; [|split; discriminate].
      intros err H. injection H as <-. now exists e. }
  destruct (validateSystem _ probe) as [err0|] eqn:Hsystem.
  { destruct (validateSystem_structured _ _ _ Hsystem) as (e & ->).
    cbn [fst snd cmd.report]. split; [|split; discriminate].
    intros err H. injection H as <-. now exists e. }
  destruct (cmd.ensureDocker _ _ _ _ st) as [[err0|] st1] eqn:Hdocker.
  { pose proof (ensureDocker_structured _ respond os_Getenv time_Now strings_TrimSpace
                  st err0) as Hstructured.
    rewrite Hdocker in Hstructured. destruct (Hstructured eq_refl) as (e & ->).
    cbn [fst snd cmd.report]. split; [|split; discriminate].
    intros err H. injection H as <-. now exists e. }
  unfold cmd.runContainerInstallation.
  destruct (container.RunInstaller h installConfig) as [err0|] eqn:Hrun.
  - destruct err0 as [text|prefix cause|exitCode state|e]; cbn [fst snd cmd.report].
    4:{ split; [|split; discriminate].
        intros err H. injection H as <-. now exists e. }
    all: split; [discriminate|]; split; [|discriminate]; intros _;
      eexists installConfig, _;
      (split; [reflexivity|]); (split; [reflexivity|]); (split; [exact Hrun|]);
      (split; [intros e; discriminate|reflexivity]).
  - cbn [fst snd cmd.displaySuccess]. split; [discriminate|]. split; [discriminate|].
    intros _. exists installConfig. split; [reflexivity|]. split; [reflexivity|exact Hrun].
Qed.

End SetupCommand.

Lemma runSetup_returns_structured_errors_or_panics_witness :
  let run :=
    cmd.runSetup scenarios.toLower scenarios.trimSpace scenarios.parseAddress
      scenarios.parseURL scenarios.fields scenarios.parseInt scenarios.noListener None
      unit scenarios.obliging scenarios.deployEnv (fun _ => 0)
      scenarios.devFlags scenarios.ubuntuProbe scenarios.brokenStream scenarios.fresh in
  snd (fst run) = cmd.Panicked /\
  exists installConfig err,
    container.RunInstaller scenarios.brokenStream installConfig = Some err /\
    (forall e, err <> types.installError e).
Proof.
  cbv zeta.
  assert (Hexit :
    snd (fst (cmd.runSetup scenarios.toLower scenarios.trimSpace scenarios.parseAddress
                scenarios.parseURL scenarios.fields scenarios.parseInt scenarios.noListener
                None unit scenarios.obliging scenarios.deployEnv (fun _ => 0)
                scenarios.devFlags scenarios.ubuntuProbe scenarios.brokenStream
                scenarios.fresh)) = cmd.Panicked) by (vm_compute; reflexivity).
  split; [exact Hexit|].
  destruct (runSetup_returns_structured_errors_or_panics
              scenarios.toLower scenarios.trimSpace scenarios.parseAddress
              scenarios.parseURL scenarios.fields scenarios.parseInt scenarios.noListener
              None unit scenarios.obliging scenarios.deployEnv (fun _ => 0)
              scenarios.devFlags scenarios.ubuntuProbe scenarios.brokenStream
              scenarios.fresh) as (_ & Hpanic & _).
  destruct (Hpanic Hexit) as (installConfig & err & _ & _ & Hrun & Hplain & _).
  now exists installConfig, err.
Defined.

(** ** Package config: what is accepted *)
Section ConfigAcceptance.
Import types.

Variable strings_ToLower : string -> string.
Variable strings_TrimSpace : string -> string.
Variable mail_ParseAddress : string -> bool.

Let validEmail (email : string) : Prop :=
  email <> "" /\ mail_ParseAddress email = true.

Lemma validateEmail_accepts (now : Time) (email : string) :
  config.validateEmail mail_ParseAddress now email = None <->
  (email <> "" -> mail_ParseAddress email = true).
Proof.
  unfold config.validateEmail.
  destruct (String.eqb_spec email "") as [->|Hemail].
  - split; [intros _ H; contradiction|reflexivity].
  - destruct (mail_ParseAddress email); cbn [negb].
    + split; [auto|reflexivity].
    + split; [discriminate|]. intros H. discriminate (H Hemail).
Qed.

Lemma validateSSLConfig_accepts (now : Time) (ssl : SSLConfig) :
  config.validateSSLConfig mail_ParseAddress now (Some ssl) = None <->
  (Provider ssl = SSLProviderLetsEncrypt /\ validEmail (SSLEmail ssl)) \/
  (Provider ssl = SSLProviderCustom /\ CustomCert ssl <> "" /\ CustomKey ssl <> "") \/
  Provider ssl = SSLProviderSelfSigned \/
  Provider ssl = "".
Proof.
  unfold config.validateSSLConfig, validEmail.
  destruct (String.eqb_spec (Provider ssl) SSLProviderLetsEncrypt) as [Hle|Nle].
  { rewrite Hle. destruct (String.eqb_spec (SSLEmail ssl) "") as [Hmail|Hmail].
    - split; [discriminate|].
      intros [(_ & Hne & _)|[(H & _)|[H|H]]]; try discriminate H. contradiction.
    - rewrite validateEmail_accepts. split.
      + intros H. left. auto.
      + intros [(_ & _ & Hok)|[(H & _)|[H|H]]]; try discriminate H. auto. }
  destruct (String.eqb_spec (Provider ssl) SSLProviderCustom) as [Hcu|Ncu].
  { rewrite Hcu.
    destruct (String.eqb_spec (CustomCert ssl) "") as [Hcert|Hcert]; cbn [orb].
    - split; [discriminate|].
      intros [(H & _)|[(_ & Hne & _)|[H|H]]]; try discriminate H. contradiction.
    - destruct (String.eqb_spec (CustomKey ssl) "") as [Hkey|Hkey].
      + split; [discriminate|].
        intros [(H & _)|[(_ & _ & Hne)|[H|H]]]; try discriminate H. contradiction.
      + split; [|reflexivity]. intros _. right. left. auto. }
  destruct (String.eqb_spec (Provider ssl) SSLProviderSelfSigned) as [Hss|Nss].
  { split; [|reflexivity]. intros _. right. right. now left. }
  destruct (String.eqb_spec (Provider ssl) "") as [He|Ne].
  { split; [|reflexivity]. intros _. right. right. now right. }
  split; [discriminate|].
  intros [(H & _)|[(H & _)|[H|H]]]; contradiction.
Qed.

(** [ValidateConfig] accepts a configuration exactly when it is not nil,
    its environment is one of "dev", "staging" and "prod", its domain
    passes [validateDomain], its email is one that [mail.ParseAddress]
    accepts or is empty, and not empty in "prod", and its SSL provider is
    "letsencrypt" with an SSL email that [mail.ParseAddress] accepts,
    "custom" with a certificate and a key, "self-signed", or empty. *)
Theorem ValidateConfig_accepts_exactly (now : Time) (c : option InstallationConfig) :
  config.ValidateConfig strings_ToLower strings_TrimSpace mail_ParseAddress now c = None <->
  exists cfg,
    c = Some cfg /\
    In (Environment_ cfg) [EnvironmentDevelopment; EnvironmentStaging; EnvironmentProduction] /\
    config.validateDomain strings_ToLower strings_TrimSpace now (Domain cfg) = None /\
    (Email cfg = "" -> Environment_ cfg <> EnvironmentProduction) /\
    (Email cfg <> "" -> mail_ParseAddress (Email cfg) = true) /\
    ((Provider (SSL cfg) = SSLProviderLetsEncrypt /\ validEmail (SSLEmail (SSL cfg))) \/
     (Provider (SSL cfg) = SSLProviderCustom /\
      CustomCert (SSL cfg) <> "" /\ CustomKey (SSL cfg) <> "") \/
     Provider (SSL cfg) = SSLProviderSelfSigned \/
     Provider (SSL cfg) = "").
Proof.
  destruct c as [cfg|].
  2:{ split; [discriminate|]. intros (cfg & H & _). discriminate H. }
  unfold config.ValidateConfig.
  assert (Henv : config.validateEnvironment now (Environment_ cfg) = None <->
                 In (Environment_ cfg)
                    [EnvironmentDevelopment; EnvironmentStaging; EnvironmentProduction]).
  { unfold config.validateEnvironment. cbn [In].
    destruct (String.eqb_spec (Environment_ cfg) EnvironmentDevelopment) as [->|Nd];
      [split; auto|].
    destruct (String.eqb_spec (Environment_ cfg) EnvironmentStaging) as [->|Ns];
      [split; auto|].
    destruct (String.eqb_spec (Environment_ cfg) EnvironmentProduction) as [->|Np];
      [cbn; split; auto|].
    cbn [orb]. split; [discriminate|].
    intros [H|[H|[H|[]]]]; symmetry in H; contradiction. }
  destruct (config.validateEnvironment now (Environment_ cfg)) as [e|].
  { split; [discriminate|]. intros (cfg' & Hc & Hin & _). injection Hc as <-.
    apply Henv in Hin. discriminate Hin. }
  destruct (config.validateDomain _ _ now (Domain cfg)) as [e|] eqn:Hd.
  { split; [discriminate|]. intros (cfg' & Hc & _ & Hdomain & _). injection Hc as <-.
    rewrite Hd in Hdomain. discriminate Hdomain. }
  pose proof (validateEmail_accepts now (Email cfg)) as Hemail.
  pose proof (validateSSLConfig_accepts now (SSL cfg)) as Hssl.
  destruct (String.eqb_spec (Email cfg) "") as [Hnone|Hsome]; cbn [negb].
  - destruct (String.eqb_spec (Environment_ cfg) EnvironmentProduction) as [Hprod|Hprod].
    + split; [discriminate|]. intros (cfg' & Hc & _ & _ & Hreq & _). injection Hc as <-.
      now apply Hreq in Hprod.
    + rewrite Hssl. split.
      * intros H. exists cfg. split; [reflexivity|]. split; [now apply Henv|].
        split; [exact Hd|]. split; [auto|]. split; [intros Hne; contradiction|exact H].
      * intros (cfg' & Hc & _ & _ & _ & _ & H). now injection Hc as <-.
  - destruct (config.validateEmail mail_ParseAddress now (Email cfg)) as [e|].
    + split; [discriminate|].
      intros (cfg' & Hc & _ & _ & _ & Hok & _). injection Hc as <-.
      destruct Hemail as [_ Hemail]. discriminate (Hemail Hok).
    + rewrite Hssl. split.
      * intros H. exists cfg. split; [reflexivity|]. split; [now apply Henv|].
        split; [exact Hd|]. split; [intros Hne; contradiction|].
        split; [now apply Hemail|exact H].
      * intros (cfg' & Hc & _ & _ & _ & _ & H). now injection Hc as <-.
Qed.

End ConfigAcceptance.
